(** * Report normalisation and derived metrics of the business-report scripts

    A shallow embedding of the cell parsers, the data-frame cleaning steps, the
    derived-metric columns and the data-quality checks of

    - [analyze-best-sellers.py]                  (module [BestSellers]),
    - [weekly-sales-comparison.py]               (module [WeeklySales]),
    - [analyze_business_report.py]               (module [BusinessReport]),
    - [analyze_new_report.py]                    (module [NewReport]),
    - [enhanced_traffic_conversion_analysis.py]  (module [EnhancedTraffic]),

    together with the properties of the normaliser that the specification
    states about them.

    Python [float] is IEEE-754 binary64; it is modelled by [spec_float] of the
    Standard Library at precision 53 and [emax = 1024], so that rounding,
    signed zeros, infinities and NaN are those of the running program.
    Python [str] is a sequence of Unicode code points.  Python [int] is [Z].
    A [csv.DictReader] row is a finite map from column label to cell text. *)

From Stdlib Require Import ZArith NArith List Bool Lia String Ascii DecimalString.
From Stdlib Require Import Floats.SpecFloat.
From Stdlib Require DecimalPos DecimalZ.
From stdpp Require Import base option gmap.
Import ListNotations.

(* ===================================================================== *)
(** * Part I.  The embedding                                              *)
(* ===================================================================== *)

(** ** Exceptions *)

Module Py.

Inductive exn : Type :=
| ValueError
| TypeError
| AttributeError
| OverflowError
| ZeroDivisionError.

(** A computation either returns a value or raises. *)
Inductive result (A : Type) : Type :=
| Ok (a : A)
| Raise (e : exn).

Arguments Ok {A} a.
Arguments Raise {A} e.

Definition bind {A B : Type} (m : result A) (k : A -> result B) : result B :=
  match m with
  | Ok a => k a
  | Raise e => Raise e
  end.

Notation "'let*' x ':=' m 'in' k" := (bind m (fun x => k))
  (at level 10, x name, m at level 200, k at level 200).

(** [try: body except <classes>: handler]; [catches e] tells whether the
    [except] clause matches [e].  A bare [except:] matches everything. *)
Definition try_except {A : Type} (body : result A) (catches : exn -> bool)
    (handler : result A) : result A :=
  match body with
  | Ok a => Ok a
  | Raise e => if catches e then handler else Raise e
  end.

Definition except_all (e : exn) : bool := true.

Definition except_ValueError (e : exn) : bool :=
  match e with ValueError => true | _ => false end.

Definition returns {A : Type} (m : result A) : Prop := exists a, m = Ok a.

(** Traverse a list, stopping at the first exception. *)
Fixpoint mapM {A B : Type} (f : A -> result B) (l : list A) : result (list B) :=
  match l with
  | [] => Ok []
  | a :: t => let* b := f a in let* bs := mapM f t in Ok (b :: bs)
  end.

End Py.

(* ===================================================================== *)
(** ** Floating point: IEEE-754 binary64                                  *)
(* ===================================================================== *)

Module F64.

Local Open Scope Z_scope.

Definition prec : Z := 53.
Definition emax : Z := 1024.

Definition float : Type := spec_float.

Definition nan : float := S754_nan.
Definition inf : float := S754_infinity false.
Definition zero : float := S754_zero false.

Definition add : float -> float -> float := SFadd prec emax.
Definition mul : float -> float -> float := SFmul prec emax.
Definition div : float -> float -> float := SFdiv prec emax.

Definition ltb : float -> float -> bool := SFltb.
Definition leb : float -> float -> bool := SFleb.
Definition eqb : float -> float -> bool := SFeqb.

(** [x > y], [x >= y] as Python and numpy evaluate them: false on NaN. *)
Definition gtb (x y : float) : bool := ltb y x.
Definition geb (x y : float) : bool := leb y x.

Definition is_nan (x : float) : bool :=
  match x with S754_nan => true | _ => false end.

Definition is_inf (x : float) : bool :=
  match x with S754_infinity _ => true | _ => false end.

(** [math.isfinite]: neither NaN nor an infinity. *)
Definition is_finite (x : float) : bool :=
  match x with
  | S754_zero _ | S754_finite _ _ _ => true
  | _ => false
  end.

(** The values that really are binary64 numbers: canonical mantissa and
    exponent in range. *)
Definition valid (x : float) : bool := valid_binary prec emax x.

(** Conversion of an integer, rounding to nearest even. *)
Definition of_Z (z : Z) : float := binary_normalize prec emax z 0 false.

(** The decimal [(-1)^neg * m * 10^e], [0 <= m], correctly rounded (to
    nearest, ties to even); too large a magnitude gives an infinity, too
    small a zero.  For [e < 0] the quotient of the two integers is rounded
    once. *)
Definition of_decimal (neg : bool) (m e : Z) : float :=
  match m with
  | Zpos p =>
      if 0 <=? e
      then binary_round prec emax neg (p * Z.to_pos (10 ^ e)) 0
      else SFdiv prec emax (S754_finite neg p 0)
                           (S754_finite false (Z.to_pos (10 ^ (- e))) 0)
  | _ => S754_zero neg
  end.

(** The binary order of magnitude of a number: [magnitude x = Some k]
    when [2^(k-1) <= |x| < 2^k]. *)
Definition magnitude (x : float) : option Z :=
  match x with
  | S754_finite _ m e => Some (Zdigits2 (Zpos m) + e)
  | _ => None
  end.

(** [|x| < 2^k]: a zero, or a number of magnitude at most [k]. *)
Definition below (k : Z) (x : float) : bool :=
  match x with
  | S754_zero _ => true
  | S754_finite _ m e => Zdigits2 (Zpos m) + e <=? k
  | _ => false
  end.

(** [1 <= x < inf]: a positive number of magnitude at least [1]. *)
Definition at_least_one (x : float) : bool :=
  match x with
  | S754_finite false m e => 1 <=? Zdigits2 (Zpos m) + e
  | _ => false
  end.

(** A float that is not NaN and carries the sign [s]. *)
Inductive signed (s : bool) : float -> Prop :=
| signed_zero : signed s (S754_zero s)
| signed_infinity : signed s (S754_infinity s)
| signed_finite m e : signed s (S754_finite s m e).

(** A zero, or a number below [2^K] whose exponent is at most [E]. *)
Definition within (K E : Z) (x : float) : Prop :=
  match x with
  | S754_zero _ => True
  | S754_finite _ m e => Zdigits2 (Zpos m) + e <= K /\ e <= E
  | _ => False
  end.

(** Literals that occur in the scripts and in the examples below. *)
Definition f0_5  : float := S754_finite false 4503599627370496 (-53).
Definition f5    : float := S754_finite false 5629499534213120 (-50).
Definition f10   : float := S754_finite false 5629499534213120 (-49).
Definition f12_7 : float := S754_finite false 7149464408450662 (-49).
Definition f20   : float := S754_finite false 5629499534213120 (-48).
Definition f25   : float := S754_finite false 7036874417766400 (-48).
Definition f37_5 : float := S754_finite false 5277655813324800 (-47).
Definition f50   : float := S754_finite false 7036874417766400 (-47).
Definition f100  : float := S754_finite false 7036874417766400 (-46).
Definition f150  : float := S754_finite false 5277655813324800 (-45).
Definition f200  : float := S754_finite false 7036874417766400 (-45).
Definition f1000 : float := S754_finite false 8796093022208000 (-43).
(** [1234.56], that is [0x1.34a3d70a3d70ap+10]. *)
Definition f1234_56 : float := S754_finite false 5429652300748554 (-42).

Definition sub : float -> float -> float := SFsub prec emax.

(** [rint]: the nearest integer, ties to even, with the sign of [x]. *)
Definition rint (x : float) : float :=
  match x with
  | S754_finite s m e =>
      if 0 <=? e then x
      else
        let (mrs, _) := shr (shr_record_of_loc (Zpos m) loc_Exact) e (- e) in
        binary_normalize prec emax
          (cond_Zopp s (round_nearest_even (shr_m mrs) (loc_of_shr_record mrs))) 0 s
  | _ => x
  end.

End F64.

(* ===================================================================== *)
(** ** Strings: sequences of Unicode code points                          *)
(* ===================================================================== *)

Module Str.

Local Open Scope N_scope.

Definition char : Type := N.
Definition str : Type := list char.

(** *** Literals

    A literal of this file is UTF-8 text; [u] decodes it to code points, so
    that [u "£1"] is the two-character Python string ['£1']. *)

Fixpoint utf8_decode (need : nat) (acc : N) (bs : list N) : str :=
  match bs with
  | [] => []
  | b :: t =>
      match need with
      | O =>
          if b <? 128 then b :: utf8_decode 0 0 t
          else if b <? 224 then utf8_decode 1 (b - 192) t
          else if b <? 240 then utf8_decode 2 (b - 224) t
          else utf8_decode 3 (b - 240) t
      | S k =>
          let acc' := acc * 64 + (b - 128) in
          match k with
          | O => acc' :: utf8_decode 0 0 t
          | S _ => utf8_decode k acc' t
          end
      end
  end.

Definition u (s : string) : str :=
  utf8_decode 0 0 (List.map N_of_ascii (list_ascii_of_string s)).

(** *** Character classes *)

(** [str.isspace] on one character ([Py_UNICODE_ISSPACE]): what
    [str.strip()] removes. *)
Definition isspace (c : char) : bool :=
     ((9 <=? c) && (c <=? 13))
  || ((28 <=? c) && (c <=? 32))
  || (c =? 133) || (c =? 160) || (c =? 5760)
  || ((8192 <=? c) && (c <=? 8202))
  || (c =? 8232) || (c =? 8233) || (c =? 8239) || (c =? 8287)
  || (c =? 12288).

(** The C-locale [isspace] of the numeric converters ([Py_ISSPACE], and
    [isspace_ascii] of the pandas tokenizer): tab to carriage return, and
    the blank. *)
Definition isspace_ascii (c : char) : bool :=
  ((9 <=? c) && (c <=? 13)) || (c =? 32).

Definition isdigit_ascii (c : char) : bool := (48 <=? c) && (c <=? 57).

(** First code points of the runs of ten decimal digits of the Unicode
    character database (category Nd), as [unicodedata] 14.0 has them. *)
Definition decimal_zeros : list N :=
  [48; 1632; 1776; 1984; 2406; 2534; 2662; 2790; 2918; 3046; 3174; 3302;
   3430; 3558; 3664; 3792; 3872; 4160; 4240; 6112; 6160; 6470; 6608; 6784;
   6800; 6992; 7088; 7232; 7248; 42528; 43216; 43264; 43472; 43504; 43600;
   44016; 65296; 66720; 68912; 69734; 69872; 69942; 70096; 70384; 70736;
   70864; 71248; 71360; 71472; 71904; 72016; 72784; 73040; 73120; 92768;
   92864; 93008; 120782; 120792; 120802; 120812; 120822; 123200; 123632;
   125264; 130032].

(** [Py_UNICODE_TODECIMAL]: the digit value of a decimal digit. *)
Definition todecimal (c : char) : option N :=
  match List.find (fun z => (z <=? c) && (c <? z + 10)) decimal_zeros with
  | Some z => Some (c - z)
  | None => None
  end.

Definition lower_ascii (c : char) : char :=
  if (65 <=? c) && (c <=? 90) then c + 32 else c.

(** *** Equality and truth value *)

Fixpoint eqb (s t : str) : bool :=
  match s, t with
  | [], [] => true
  | a :: s', b :: t' => (a =? b) && eqb s' t'
  | _, _ => false
  end.

(** [not value] for a string: true exactly on the empty string. *)
Definition is_empty (s : str) : bool :=
  match s with [] => true | _ :: _ => false end.

(** *** [str.strip()], [str.replace(old, new)], [re.sub('[...]', '', s)] *)

Fixpoint lstrip (s : str) : str :=
  match s with
  | c :: t => if isspace c then lstrip t else s
  | [] => []
  end.

Definition rstrip (s : str) : str := rev (lstrip (rev s)).

Definition strip (s : str) : str := rstrip (lstrip s).

Fixpoint starts_with (p s : str) : bool :=
  match p, s with
  | [], _ => true
  | a :: p', b :: s' => (a =? b) && starts_with p' s'
  | _ :: _, [] => false
  end.

(** [replace_from old new skip s]: [skip] characters of [s] belong to an
    occurrence of [old] that has just been replaced. *)
Fixpoint replace_from (old new : str) (skip : nat) (s : str) : str :=
  match s with
  | [] => []
  | c :: t =>
      match skip with
      | S k => replace_from old new k t
      | O =>
          if starts_with old s
          then new ++ replace_from old new (Nat.pred (length old)) t
          else c :: replace_from old new 0 t
      end
  end.

(** [s.replace(old, new)] for a non-empty [old], the only use the scripts
    make of it: occurrences are replaced from left to right, without
    overlap. *)
Definition replace (old new s : str) : str := replace_from old new 0 s.

(** [re.sub('[' + class + ']', '', s)]: every character of the class is
    deleted. *)
Definition re_sub_class (class : list char) (s : str) : str :=
  List.filter (fun c => negb (List.existsb (N.eqb c) class)) s.

(** [s.count(c)] for a one-character [c]. *)
Definition count (c : char) (s : str) : nat :=
  length (List.filter (N.eqb c) s).

End Str.

(* ===================================================================== *)
(** ** The built-in conversions [float(str)] and [int(str)]               *)
(* ===================================================================== *)

Module PyNum.

Import Py.

Local Open Scope Z_scope.

(** A sign, if there is one, and the rest. *)
Definition take_sign (s : Str.str) : bool * Str.str :=
  match s with
  | 45%N :: t => (true, t)
  | 43%N :: t => (false, t)
  | _ => (false, s)
  end.

(** The leading ASCII digits of [s]: their value appended to [acc], how
    many there are added to [n], and the rest of [s]. *)
Fixpoint span_digits (s : Str.str) (acc : Z) (n : nat) : Z * nat * Str.str :=
  match s with
  | c :: t =>
      if Str.isdigit_ascii c
      then span_digits t (10 * acc + (Z.of_N c - 48)) (S n)
      else (acc, n, s)
  | [] => (acc, n, [])
  end.

Definition is_e (c : Str.char) : bool := ((c =? 101) || (c =? 69))%N.

(** The decimal syntax of [strtod] as CPython accepts it, matched against
    the whole of [s]:
    [[+-] (digits [. [digits]] | . digits) [(e|E) [+-] digits]].
    The result is the sign, the digits read as one integer, and the power
    of ten that scales it. *)
Definition scan_decimal (s : Str.str) : option (bool * Z * Z) :=
  let (neg, s1) := take_sign s in
  let '(ip, ni, s2) := span_digits s1 0 0 in
  let '(m, nf, s3) :=
    match s2 with
    | 46%N :: t => span_digits t ip 0
    | _ => (ip, O, s2)
    end in
  match (ni + nf)%nat with
  | O => None
  | S _ =>
      match s3 with
      | [] => Some (neg, m, - Z.of_nat nf)
      | c :: t =>
          if is_e c then
            let (eneg, t1) := take_sign t in
            let '(ev, ne, t2) := span_digits t1 0 0 in
            match ne, t2 with
            | S _, [] => Some (neg, m, (if eneg then - ev else ev) - Z.of_nat nf)
            | _, _ => None
            end
          else None
      end
  end.

(** [inf], [infinity] and [nan], in any case, with an optional sign
    ([_Py_parse_inf_or_nan]). *)
Definition scan_inf_nan (s : Str.str) : option F64.float :=
  let (neg, t) := take_sign s in
  let w := List.map Str.lower_ascii t in
  if Str.eqb w (Str.u "inf") || Str.eqb w (Str.u "infinity")
  then Some (S754_infinity neg)
  else if Str.eqb w (Str.u "nan") then Some F64.nan
  else None.

(** [_PyUnicode_TransformDecimalAndSpaceToASCII]: an ASCII string is left
    alone; otherwise Unicode spaces become blanks, Unicode decimal digits
    become ASCII digits, and the string is cut at the first other
    non-ASCII character, which is replaced by [?]. *)
Fixpoint transform_decimal_and_space (s : Str.str) : Str.str :=
  match s with
  | [] => []
  | c :: t =>
      if (c <? 127)%N then c :: transform_decimal_and_space t
      else if Str.isspace c then 32%N :: transform_decimal_and_space t
      else
        match Str.todecimal c with
        | Some d => (48 + d)%N :: transform_decimal_and_space t
        | None => [63%N]
        end
  end.

Definition to_ascii (s : Str.str) : Str.str :=
  if List.forallb (fun c => (c <? 128)%N) s then s
  else transform_decimal_and_space s.

(** [_Py_string_to_number_with_underscores]: an underscore is allowed only
    between two digits; the underscores are then dropped.  [prev] is the
    character before [s], [0] at the start. *)
Fixpoint drop_underscores (prev : Str.char) (s : Str.str) : option Str.str :=
  match s with
  | [] => if (prev =? 95)%N then None else Some []
  | c :: t =>
      if (c =? 95)%N then
        if Str.isdigit_ascii prev then drop_underscores c t else None
      else if (prev =? 95)%N && negb (Str.isdigit_ascii c) then None
      else option_map (cons c) (drop_underscores c t)
  end.

Definition strip_ascii (s : Str.str) : Str.str :=
  let lstrip := fix go (s : Str.str) : Str.str :=
    match s with
    | c :: t => if Str.isspace_ascii c then go t else s
    | [] => []
    end in
  rev (lstrip (rev (lstrip s))).

(** [float(s)] for a [str].  The only exception it raises is [ValueError];
    a magnitude out of range is not an error but an infinity. *)
Definition float_of_str (s : Str.str) : result F64.float :=
  match drop_underscores 0%N (to_ascii s) with
  | None => Raise ValueError
  | Some a =>
      let b := strip_ascii a in
      match scan_decimal b with
      | Some (neg, m, e) => Ok (F64.of_decimal neg m e)
      | None =>
          match scan_inf_nan b with
          | Some f => Ok f
          | None => Raise ValueError
          end
      end
  end.

(** The longest string of digits [int] converts
    ([sys.int_info.default_max_str_digits]). *)
Definition max_str_digits : nat := 4300.

(** Digits with single underscores between them, up to the end of [s]:
    the value and the number of digits.  [prev_us] tells that the
    character before [s] is an underscore. *)
Fixpoint scan_int_digits (s : Str.str) (acc : Z) (n : nat) (prev_us : bool)
    : option (Z * nat) :=
  match s with
  | [] => if prev_us then None else Some (acc, n)
  | c :: t =>
      if Str.isdigit_ascii c
      then scan_int_digits t (10 * acc + (Z.of_N c - 48)) (S n) false
      else if (c =? 95)%N
      then if prev_us then None else scan_int_digits t acc n true
      else None
  end.

(** The characters that [int] accepts nowhere: neither digit nor blank
    nor underscore nor sign. *)
Definition rejected (c : Str.char) : Prop :=
  Str.isdigit_ascii c = false /\ Str.isspace_ascii c = false /\
  c <> 95%N /\ c <> 43%N /\ c <> 45%N.

(** [int(s)] for a [str], base ten: blanks, a sign, digits; nothing else,
    in particular no decimal point.  It raises [ValueError] otherwise. *)
Definition int_of_str (s : Str.str) : result Z :=
  let (neg, d) := take_sign (strip_ascii (to_ascii s)) in
  match d with
  | [] => Raise ValueError
  | c :: _ =>
      if Str.isdigit_ascii c then
        match scan_int_digits d 0 0 false with
        | Some (v, n) =>
            if (max_str_digits <? n)%nat then Raise ValueError
            else Ok (if neg then - v else v)
        | None => Raise ValueError
        end
      else Raise ValueError
  end.

(** True division of two [int]s: the quotient correctly rounded;
    [ZeroDivisionError] on a zero divisor and [OverflowError] when the
    quotient is too large for a [float]. *)
Definition int_truediv (a b : Z) : result F64.float :=
  match a, b with
  | _, Z0 => Raise ZeroDivisionError
  | Z0, _ => Ok (S754_zero (b <? 0))
  | _, _ =>
      let q := SFdiv F64.prec F64.emax
                 (S754_finite (a <? 0) (Z.to_pos (Z.abs a)) 0)
                 (S754_finite (b <? 0) (Z.to_pos (Z.abs b)) 0) in
      if F64.is_inf q then Raise OverflowError else Ok q
  end.

(** [str(n)] for an [int], as [print], the f-strings and [csv.writer]
    write a count: the decimal digits, after a minus sign when [n < 0]. *)
Fixpoint digits_of_uint (d : Decimal.uint) : Str.str :=
  match d with
  | Decimal.Nil => []
  | Decimal.D0 t => 48%N :: digits_of_uint t
  | Decimal.D1 t => 49%N :: digits_of_uint t
  | Decimal.D2 t => 50%N :: digits_of_uint t
  | Decimal.D3 t => 51%N :: digits_of_uint t
  | Decimal.D4 t => 52%N :: digits_of_uint t
  | Decimal.D5 t => 53%N :: digits_of_uint t
  | Decimal.D6 t => 54%N :: digits_of_uint t
  | Decimal.D7 t => 55%N :: digits_of_uint t
  | Decimal.D8 t => 56%N :: digits_of_uint t
  | Decimal.D9 t => 57%N :: digits_of_uint t
  end.

Definition str_of_int (n : Z) : Str.str :=
  match Z.to_int n with
  | Decimal.Pos d => digits_of_uint d
  | Decimal.Neg d => 45%N :: digits_of_uint d
  end.

End PyNum.

(* ===================================================================== *)
(** ** pandas cells and [pd.to_numeric(..., errors='coerce')]             *)
(* ===================================================================== *)

Module Pd.

Local Open Scope Z_scope.

(** A cell of a column that [read_csv] could not type as numbers (there is
    a [%], a currency sign or a thousands separator in it): text, or
    missing (the float NaN that [read_csv] puts for an empty field). *)
Definition objcell : Type := option Str.str.

(** A cell of any column: a number (NaN when missing) or text. *)
Inductive cell : Type :=
| Num (f : F64.float)
| Text (s : Str.str).

Definition of_objcell (c : objcell) : cell :=
  match c with
  | Some s => Text s
  | None => Num F64.nan
  end.

(** [isnull] on a cell. *)
Definition isnull (c : cell) : bool :=
  match c with
  | Num f => F64.is_nan f
  | Text _ => false
  end.

(** [Series.astype(str)] on an object cell: the missing cell becomes the
    text ['nan']. *)
Definition astype_str (c : objcell) : Str.str :=
  match c with
  | Some s => s
  | None => Str.u "nan"
  end.

(** [Series.replace(old, np.nan)] on a text cell: a cell equal to [old]
    becomes missing. *)
Definition replace_by_nan (old : Str.str) (s : Str.str) : cell :=
  if Str.eqb s old then Num F64.nan else Text s.

(** *** The tokenizer's [precise_xstrtod]

    At most seventeen digits enter the mantissa, which is accumulated in
    double precision; the power of ten is applied afterwards from a table
    of the doubles [1e0 .. 1e308]. *)

Definition max_digits : nat := 17.

(** The table entry [e[k]]. *)
Definition e10 (k : Z) : F64.float := F64.of_decimal false 1 k.

Definition push_digit (number : F64.float) (c : Str.char) : F64.float :=
  F64.add (F64.mul number F64.f10) (F64.of_Z (Z.of_N c - 48)).

(** Integer part: digits beyond the seventeenth only raise the exponent. *)
Fixpoint xstrtod_digits (s : Str.str) (number : F64.float) (num_digits : nat)
    (exponent : Z) : F64.float * nat * Z * Str.str :=
  match s with
  | c :: t =>
      if Str.isdigit_ascii c then
        if (num_digits <? max_digits)%nat
        then xstrtod_digits t (push_digit number c) (S num_digits) exponent
        else xstrtod_digits t number num_digits (exponent + 1)
      else (number, num_digits, exponent, s)
  | [] => (number, num_digits, exponent, [])
  end.

(** Decimal part: digits beyond the seventeenth are read and ignored. *)
Fixpoint xstrtod_decimals (s : Str.str) (number : F64.float) (num_digits : nat)
    (num_decimals : Z) : F64.float * nat * Z * Str.str :=
  match s with
  | c :: t =>
      if Str.isdigit_ascii c then
        if (num_digits <? max_digits)%nat
        then xstrtod_decimals t (push_digit number c) (S num_digits) (num_decimals + 1)
        else xstrtod_decimals t number num_digits num_decimals
      else (number, num_digits, num_decimals, s)
  | [] => (number, num_digits, num_decimals, [])
  end.

(** Exponent digits, at most seventeen of them. *)
Fixpoint xstrtod_exponent (s : Str.str) (n : Z) (num_digits : nat)
    : Z * nat * Str.str :=
  match s with
  | c :: t =>
      if Str.isdigit_ascii c && (num_digits <? max_digits)%nat
      then xstrtod_exponent t (10 * n + (Z.of_N c - 48)) (S num_digits)
      else (n, num_digits, s)
  | [] => (n, num_digits, [])
  end.

Fixpoint lstrip_ascii (s : Str.str) : Str.str :=
  match s with
  | c :: t => if Str.isspace_ascii c then lstrip_ascii t else s
  | [] => []
  end.

(** Scaling by the power of ten. *)
Definition scale (number : F64.float) (exponent : Z) : F64.float :=
  if 0 <? exponent then F64.mul number (e10 exponent)
  else if exponent <? -308 then
    if exponent <? -616 then F64.zero
    else F64.div (F64.div number (e10 (-308 - exponent))) (e10 308)
  else F64.div number (e10 (- exponent)).

(** [to_double]: the number that the whole of [s] denotes, or [None] when
    [s] is not a decimal number or its magnitude is out of range. *)
Definition to_double (s : Str.str) : option F64.float :=
  let (neg, s1) := PyNum.take_sign (lstrip_ascii s) in
  let '(n1, d1, x1, s2) := xstrtod_digits s1 F64.zero 0 0 in
  let '(n2, d2, x2, s3) :=
    match s2 with
    | 46%N :: t =>
        let '(n, d, k, t') := xstrtod_decimals t n1 d1 0 in (n, d, x1 - k, t')
    | _ => (n1, d1, x1, s2)
    end in
  match d2 with
  | O => None
  | S _ =>
      let number := if neg then SFopp n2 else n2 in
      let '(x3, s4) :=
        match s3 with
        | c :: t =>
            if PyNum.is_e c then
              let (eneg, t1) := PyNum.take_sign t in
              let '(n, k, t2) := xstrtod_exponent t1 0 0 in
              match k with
              | O => (x2, s3)
              | S _ => (if eneg then x2 - n else x2 + n, t2)
              end
            else (x2, s3)
        | [] => (x2, [])
        end in
      if 308 <? x3 then None
      else
        let r := scale number x3 in
        if F64.is_inf r then None
        else
          match lstrip_ascii s4 with
          | [] => Some r
          | _ :: _ => None
          end
  end.

(** The spellings of infinity that [floatify] accepts when [to_double]
    fails. *)
Definition floatify_inf (s : Str.str) : option F64.float :=
  let w := List.map Str.lower_ascii s in
  if Str.eqb w (Str.u "inf") || Str.eqb w (Str.u "+inf")
     || Str.eqb w (Str.u "infinity") || Str.eqb w (Str.u "+infinity")
  then Some (S754_infinity false)
  else if Str.eqb w (Str.u "-inf") || Str.eqb w (Str.u "-infinity")
  then Some (S754_infinity true)
  else None.

(** [pd.to_numeric(column, errors='coerce')] on one cell: numbers pass;
    text is converted, and text that is not a number becomes NaN. *)
Definition to_numeric_coerce (c : cell) : F64.float :=
  match c with
  | Num f => f
  | Text s =>
      if Str.is_empty s then F64.nan
      else
        match to_double s with
        | Some f => f
        | None =>
            match floatify_inf s with
            | Some f => f
            | None => F64.nan
            end
        end
  end.

(** [Series.astype(float)] on a cell of text: numpy calls [float] on it,
    and an exception of [float] is not caught. *)
Definition astype_float (s : Str.str) : Py.result F64.float :=
  PyNum.float_of_str s.

(** [np.where(cond, a, b)] at one position.  Both [a] and [b] have been
    computed; numpy does not raise on a division by zero. *)
Definition np_where {A : Type} (cond : bool) (a b : A) : A :=
  if cond then a else b.

End Pd.

(* ===================================================================== *)
(** ** analyze-best-sellers.py                                            *)
(* ===================================================================== *)

Module BestSellers.

Import Py.

Local Open Scope Z_scope.

(** [parse_currency(value)]: "Parse currency values like £1,234.56 to
    float". *)
Definition parse_currency (value : Str.str) : result F64.float :=
  if Str.is_empty value || Str.eqb (Str.strip value) [] then Ok F64.zero
  else
    (* Remove £ symbol and commas *)
    let cleaned := Str.re_sub_class [163%N; 44%N] (Str.strip value) in
    try_except (PyNum.float_of_str cleaned) except_all (Ok F64.zero).

(** [parse_number(value)]: "Parse numbers with commas like 1,234 to int". *)
Definition parse_number (value : Str.str) : result Z :=
  if Str.is_empty value || Str.eqb (Str.strip value) [] then Ok 0
  else
    (* Remove commas *)
    let cleaned := Str.re_sub_class [44%N] (Str.strip value) in
    try_except (PyNum.int_of_str cleaned) except_all (Ok 0).

(** A row of [csv.DictReader]: column label to cell text.  The rows are
    those of lines with as many fields as the header. *)
Definition get (row : gmap Str.str Str.str) (key default_ : Str.str) : Str.str :=
  default default_ (row !! key).

(** A Python number: the [else 0] branch of the conversion rate is an
    [int], the other branch a [float]. *)
Inductive number : Type :=
| Int (z : Z)
| Float (f : F64.float).

Record product : Type := {
  parent_asin : Str.str;
  child_asin : Str.str;
  sku : Str.str;
  title : Str.str;
  units_ordered : Z;
  sales_value : F64.float;
  sessions : Z;
  conversion_rate : number
}.

(** [(total_units / total_sessions * 100) if total_sessions > 0 else 0] *)
Definition conversion_rate_of (total_units total_sessions : Z) : result number :=
  if 0 <? total_sessions then
    let* q := PyNum.int_truediv total_units total_sessions in
    Ok (Float (F64.mul q F64.f100))
  else Ok (Int 0).

(** The test of the [continue]: "Skip empty rows". *)
Definition skipped (row : gmap Str.str Str.str) : bool :=
  Str.is_empty (Str.strip (get row (Str.u "SKU") []))
  || Str.is_empty (Str.strip (get row (Str.u "(Child) ASIN") [])).

(** One turn of the loop over the reader: [None] when the row is skipped,
    the appended product otherwise. *)
Definition process_row (row : gmap Str.str Str.str) : result (option product) :=
  let parent_asin := Str.strip (get row (Str.u "(Parent) ASIN") []) in
  let child_asin := Str.strip (get row (Str.u "(Child) ASIN") []) in
  let sku := Str.strip (get row (Str.u "SKU") []) in
  let title := Str.strip (get row (Str.u "Title") []) in
  (* Parse sales metrics *)
  let* units_ordered := parse_number (get row (Str.u "Units ordered") (Str.u "0")) in
  let* units_ordered_b2b := parse_number (get row (Str.u "Units ordered – B2B") (Str.u "0")) in
  let total_units := units_ordered + units_ordered_b2b in
  let* sales_value := parse_currency (get row (Str.u "Ordered Product Sales") (Str.u "£0")) in
  let* sales_value_b2b := parse_currency (get row (Str.u "Ordered product sales – B2B") (Str.u "£0")) in
  let total_sales := F64.add sales_value sales_value_b2b in
  let* sessions_total := parse_number (get row (Str.u "Sessions – Total") (Str.u "0")) in
  let* sessions_b2b := parse_number (get row (Str.u "Sessions – Total – B2B") (Str.u "0")) in
  let total_sessions := sessions_total + sessions_b2b in
  (* Skip empty rows *)
  if Str.is_empty sku || Str.is_empty child_asin then Ok None
  else
    let* rate := conversion_rate_of total_units total_sessions in
    Ok (Some {| parent_asin := parent_asin;
                child_asin := child_asin;
                sku := sku;
                title := title;
                units_ordered := total_units;
                sales_value := total_sales;
                sessions := total_sessions;
                conversion_rate := rate |}).

(** The two totals of a row, [total_units] and [total_sessions], as the
    loop computes them before it builds the product. *)
Definition totals (row : gmap Str.str Str.str) : result (Z * Z) :=
  let* units_ordered := parse_number (get row (Str.u "Units ordered") (Str.u "0")) in
  let* units_ordered_b2b := parse_number (get row (Str.u "Units ordered – B2B") (Str.u "0")) in
  let* sessions_total := parse_number (get row (Str.u "Sessions – Total") (Str.u "0")) in
  let* sessions_b2b := parse_number (get row (Str.u "Sessions – Total – B2B") (Str.u "0")) in
  Ok (units_ordered + units_ordered_b2b, sessions_total + sessions_b2b).

(** [for row in reader: ...], threading the list [products]. *)
Fixpoint read_rows (reader : list (gmap Str.str Str.str)) (products : list product)
    : result (list product) :=
  match reader with
  | [] => Ok products
  | row :: rest =>
      let* p := process_row row in
      read_rows rest (match p with
                      | Some x => products ++ [x]
                      | None => products
                      end)
  end.

(** The list [products] when the loop ends ([products = []] before it). *)
Definition read_products (reader : list (gmap Str.str Str.str)) : result (list product) :=
  read_rows reader [].

(** *** The report on the products *)

(** [product['title'][:27] + "..." if len(product['title']) > 30
     else product['title']] *)
Definition title_short (p : product) : Str.str :=
  if (30 <? length (title p))%nat
  then List.firstn 27 (title p) ++ Str.u "..."
  else title p.

(** [sum(p['sales_value'] for p in top_100)]: the [int] [0] when there is
    no product, and otherwise the floats added to it one after the other
    (as CPython adds them up to version 3.11). *)
Definition sum_sales_value (top_100 : list product) : number :=
  List.fold_left
    (fun acc p =>
       match acc with
       | Int z => Float (F64.add (F64.of_Z z) (sales_value p))
       | Float f => Float (F64.add f (sales_value p))
       end)
    top_100 (Int 0).

(** [sum(p['sales_value'] for p in top_100) / len(top_100)]: a division
    by the [int] zero raises, whether the sum is an [int] or a [float]. *)
Definition average_sale_value (top_100 : list product) : result F64.float :=
  let n := Z.of_nat (length top_100) in
  match sum_sales_value top_100 with
  | Int z => PyNum.int_truediv z n
  | Float f => if n =? 0 then Raise ZeroDivisionError else Ok (F64.div f (F64.of_Z n))
  end.

(** [[p['child_asin'] for p in top_100 if p['child_asin']]] *)
Definition asins (top_100 : list product) : list Str.str :=
  List.map child_asin (List.filter (fun p => negb (Str.is_empty (child_asin p))) top_100).

(** [[p['sku'] for p in top_100 if p['sku']]] *)
Definition skus (top_100 : list product) : list Str.str :=
  List.map sku (List.filter (fun p => negb (Str.is_empty (sku p))) top_100).

(** [[p for p in top_100 if not p['child_asin']]] *)
Definition missing_asin (top_100 : list product) : list product :=
  List.filter (fun p => Str.is_empty (child_asin p)) top_100.

(** [[p for p in top_100 if not p['sku']]] *)
Definition missing_sku (top_100 : list product) : list product :=
  List.filter (fun p => Str.is_empty (sku p)) top_100.

(** What the script works out after the loop. *)
Record report : Type := {
  best_sellers : list product;
  short_titles : list Str.str;
  average : F64.float;
  asin_list : list Str.str;
  sku_list : list Str.str;
  without_asin : list product;
  without_sku : list product
}.

Section Report.

(** [products.sort(key=lambda x: (x['sales_value'], x['units_ordered']),
    reverse=True)] is left open: [sort products] is the list once
    sorted. *)
Variable sort : list product -> list product.

(** [top_100 = products[:100]] *)
Definition top_100 (products : list product) : list product :=
  List.firstn 100 (sort products).

(** The script from the loop to the data-quality check. *)
Definition script (reader : list (gmap Str.str Str.str)) : result report :=
  let* products := read_products reader in
  let top := top_100 products in
  let* avg := average_sale_value top in
  Ok {| best_sellers := top;
        short_titles := List.map title_short top;
        average := avg;
        asin_list := asins top;
        sku_list := skus top;
        without_asin := missing_asin top;
        without_sku := missing_sku top |}.

End Report.

End BestSellers.

(* ===================================================================== *)
(** ** weekly-sales-comparison.py                                         *)
(* ===================================================================== *)

Module WeeklySales.

Import Py.

(** The two-character string that the script removes, [U+00C2 U+00A3]. *)
Definition currency_symbol : Str.str := Str.u "Â£".

(** [parse_currency(value)], applied to the cells of a column:
    "Parse currency string to float". *)
Definition parse_currency (value : Pd.objcell) : result F64.float :=
  match value with
  | None => Ok F64.zero                       (* pd.isna(value) *)
  | Some s =>
      if Str.eqb s [] then Ok F64.zero        (* value == '' *)
      else
        let cleaned :=
          Str.strip (Str.replace (Str.u ",") [] (Str.replace currency_symbol [] s)) in
        try_except (PyNum.float_of_str cleaned) except_ValueError (Ok F64.zero)
  end.

(** [parse_percentage(value)]: "Parse percentage string to float". *)
Definition parse_percentage (value : Pd.objcell) : result F64.float :=
  match value with
  | None => Ok F64.zero
  | Some s =>
      if Str.eqb s [] then Ok F64.zero
      else
        let cleaned := Str.strip (Str.replace (Str.u "%") [] s) in
        try_except (PyNum.float_of_str cleaned) except_ValueError (Ok F64.zero)
  end.

(** *** [load_and_clean_data]: a cell of a count column

    [pd.to_numeric(df[col], errors='coerce').fillna(0)] *)
Definition clean_numeric (c : Pd.cell) : F64.float :=
  let x := Pd.to_numeric_coerce c in
  if F64.is_nan x then F64.zero else x.

(** *** [compare_weeks]: the sales lines of the loop over the ASINs

    [week_data] is the first row that a cleaned frame has for the ASIN:
    the cells of the columns ['Title'], ['SKU'] and
    ['Ordered Product Sales'], which the frame must have.

    Between the sales lines and the status classification the loop body
    also reads, by plain index, the columns ['Units ordered'],
    ['Sessions â€“ Total'] (under this name, which the script writes with
    the three characters [U+00E2 U+20AC U+201C] for the dash) and
    ['Featured Offer (Buy Box) percentage'] (lines 131 to 149).  These
    reads are left out: what follows describes the two frames that have
    the three columns.  On another frame, and so on a report whose header
    has the dash itself, the loop raises [KeyError] at the first ASIN,
    before a status is assigned. *)
Record week_data : Type := {
  Title : Pd.objcell;
  SKU : Pd.objcell;
  Ordered_Product_Sales : F64.float
}.

Inductive status : Type :=
| NEW_PRODUCT
| DISCONTINUED
| MAJOR_INCREASE
| INCREASE
| MAJOR_DECREASE
| DECREASE
| STABLE.

(** The entries of [result] that describe the product and its sales.
    The defaults [0] and [100] are [int]s in the script; the column that
    holds them is a float column. *)
Record comparison : Type := {
  Product_Title : Pd.objcell;
  Product_SKU : Pd.objcell;
  Week28_Sales : F64.float;
  Week29_Sales : F64.float;
  Sales_Change : F64.float;
  Sales_Change_Percent : F64.float;
  Status : status
}.

(** [((week29 - week28) / week28 * 100) if week28 > 0
     else (100 if week29 > 0 else 0)] *)
Definition change_percent (week28 week29 : F64.float) : F64.float :=
  if F64.gtb week28 F64.zero
  then F64.mul (F64.div (F64.sub week29 week28) week28) F64.f100
  else if F64.gtb week29 F64.zero then F64.f100 else F64.zero.

(** "Status classification" *)
Definition classify (week28_sales week29_sales percent : F64.float) : status :=
  if F64.eqb week28_sales F64.zero && F64.gtb week29_sales F64.zero then NEW_PRODUCT
  else if F64.gtb week28_sales F64.zero && F64.eqb week29_sales F64.zero then DISCONTINUED
  else if F64.gtb percent (F64.of_Z 50) then MAJOR_INCREASE
  else if F64.gtb percent (F64.of_Z 20) then INCREASE
  else if F64.ltb percent (F64.of_Z (-50)) then MAJOR_DECREASE
  else if F64.ltb percent (F64.of_Z (-20)) then DECREASE
  else STABLE.

(** The sales lines and the status of one turn of the loop (lines 110
    to 128 and 154 to 169), for an ASIN of at least one of the two weeks
    of frames that have the columns that the loop reads: [None] is the
    week that does not have it. *)
Definition compare_product (week28_data week29_data : option week_data) : comparison :=
  (* Product title (prefer Week 29, fallback to Week 28) *)
  let described :=
    match week29_data, week28_data with
    | Some d, _ => (Title d, SKU d)
    | None, Some d => (Title d, SKU d)
    | None, None => (Some (Str.u "Unknown"), Some (Str.u "Unknown"))
    end in
  (* Sales data comparison *)
  let week28_sales :=
    match week28_data with Some d => Ordered_Product_Sales d | None => F64.zero end in
  let week29_sales :=
    match week29_data with Some d => Ordered_Product_Sales d | None => F64.zero end in
  let percent := change_percent week28_sales week29_sales in
  {| Product_Title := fst described;
     Product_SKU := snd described;
     Week28_Sales := week28_sales;
     Week29_Sales := week29_sales;
     Sales_Change := F64.sub week29_sales week28_sales;
     Sales_Change_Percent := percent;
     Status := classify week28_sales week29_sales percent |}.

End WeeklySales.

(* ===================================================================== *)
(** ** enhanced_traffic_conversion_analysis.py                            *)
(* ===================================================================== *)

Module EnhancedTraffic.

Import Py.

(** The three columns that [load_and_clean_data] converts, as [read_csv]
    delivers them. *)
Record raw_row : Type := {
  raw_sessions : Pd.objcell;
  raw_units : Pd.objcell;
  raw_sales : Pd.objcell
}.

Record row : Type := {
  sessions : F64.float;
  units : F64.float;
  sales : F64.float
}.

(** [df['Sessions – Total'].astype(str).str.replace(',', '').astype(float)] *)
Definition clean_sessions (c : Pd.objcell) : result F64.float :=
  Pd.astype_float (Str.replace (Str.u ",") [] (Pd.astype_str c)).

(** [df['Units ordered'].astype(float)]: a missing cell is already the
    float NaN. *)
Definition clean_units (c : Pd.objcell) : result F64.float :=
  match c with
  | None => Ok F64.nan
  | Some s => Pd.astype_float s
  end.

(** [df['Ordered Product Sales'].str.replace('£', '').str.replace(',', '')
    .astype(float)]: the [.str] methods leave a missing cell missing. *)
Definition clean_sales (c : Pd.objcell) : result F64.float :=
  match c with
  | None => Ok F64.nan
  | Some s =>
      Pd.astype_float (Str.replace (Str.u ",") [] (Str.replace (Str.u "£") [] s))
  end.

(** The block "Clean numeric columns" of [load_and_clean_data], column
    after column; the first cell that [float] rejects ends the run. *)
Definition clean_numeric_columns (df : list raw_row) : result (list row) :=
  let* s := mapM (fun r => clean_sessions (raw_sessions r)) df in
  let* n := mapM (fun r => clean_units (raw_units r)) df in
  let* v := mapM (fun r => clean_sales (raw_sales r)) df in
  Ok (List.map (fun x => {| sessions := fst (fst x); units := snd (fst x); sales := snd x |})
        (List.combine (List.combine s n) v)).

(** [Series.round(2)]: numpy multiplies by [10**2], rounds to the nearest
    integer and divides by [10**2]. *)
Definition round2 (x : F64.float) : F64.float :=
  F64.div (F64.rint (F64.mul x F64.f100)) F64.f100.

(** A row with the two columns of the block "Calculate metrics". *)
Record metrics : Type := {
  base : row;
  conversion_rate : F64.float;
  aov : F64.float
}.

Definition calculate_metrics (r : row) : metrics :=
  {| base := r;
     conversion_rate := round2 (F64.mul (F64.div (units r) (sessions r)) F64.f100);
     aov := round2 (F64.div (sales r) (units r)) |}.

(** [column.notna() & np.isfinite(column)] at one position. *)
Definition notna_and_isfinite (x : F64.float) : bool :=
  negb (F64.is_nan x) && F64.is_finite x.

(** [load_and_clean_data], from the frame that [read_csv] returns. *)
Definition load_and_clean_data (df : list raw_row) : result (list metrics) :=
  (* Clean numeric columns *)
  let* df := clean_numeric_columns df in
  (* Calculate metrics *)
  let df := List.map calculate_metrics df in
  (* Remove infinite and NaN values *)
  let df := List.filter (fun r => notna_and_isfinite (conversion_rate r)) df in
  let df := List.filter (fun r => notna_and_isfinite (aov r)) df in
  Ok df.

End EnhancedTraffic.

(* ===================================================================== *)
(** ** analyze_business_report.py                                         *)
(* ===================================================================== *)

Module BusinessReport.

Local Open Scope Z_scope.

(** *** The frame

    The frame has the twenty-two columns of [column_mapping], under their
    new names.  [P], [C] and [N] are what the cells of the eight
    percentage columns, of the two currency columns and of the eight
    count columns hold; the three cleaning functions change them one
    after the other. *)

Module Frame.

Record row (P C N : Type) : Type := {
  parent_asin : Pd.objcell;
  child_asin : Pd.objcell;
  title : Pd.objcell;
  sku : Pd.objcell;
  sessions_total : N;
  sessions_b2b : N;
  session_percentage_total : P;
  session_percentage_b2b : P;
  page_views_total : N;
  page_views_b2b : N;
  page_views_percentage_total : P;
  page_views_percentage_b2b : P;
  buy_box_percentage : P;
  buy_box_percentage_b2b : P;
  units_ordered : N;
  units_ordered_b2b : N;
  unit_session_percentage : P;
  unit_session_percentage_b2b : P;
  sales_total : C;
  sales_b2b : C;
  order_items_total : N;
  order_items_b2b : N
}.

Arguments parent_asin {P C N} r.
Arguments child_asin {P C N} r.
Arguments title {P C N} r.
Arguments sku {P C N} r.
Arguments sessions_total {P C N} r.
Arguments sessions_b2b {P C N} r.
Arguments session_percentage_total {P C N} r.
Arguments session_percentage_b2b {P C N} r.
Arguments page_views_total {P C N} r.
Arguments page_views_b2b {P C N} r.
Arguments page_views_percentage_total {P C N} r.
Arguments page_views_percentage_b2b {P C N} r.
Arguments buy_box_percentage {P C N} r.
Arguments buy_box_percentage_b2b {P C N} r.
Arguments units_ordered {P C N} r.
Arguments units_ordered_b2b {P C N} r.
Arguments unit_session_percentage {P C N} r.
Arguments unit_session_percentage_b2b {P C N} r.
Arguments sales_total {P C N} r.
Arguments sales_b2b {P C N} r.
Arguments order_items_total {P C N} r.
Arguments order_items_b2b {P C N} r.

(** [df[col] = f(df[col])] on one row, for every percentage column
    ([fp]), currency column ([fc]) and count column ([fn]). *)
Definition assign {P C N P' C' N' : Type} (fp : P -> P') (fc : C -> C') (fn : N -> N')
    (r : row P C N) : row P' C' N' :=
  {| parent_asin := parent_asin r;
     child_asin := child_asin r;
     title := title r;
     sku := sku r;
     sessions_total := fn (sessions_total r);
     sessions_b2b := fn (sessions_b2b r);
     session_percentage_total := fp (session_percentage_total r);
     session_percentage_b2b := fp (session_percentage_b2b r);
     page_views_total := fn (page_views_total r);
     page_views_b2b := fn (page_views_b2b r);
     page_views_percentage_total := fp (page_views_percentage_total r);
     page_views_percentage_b2b := fp (page_views_percentage_b2b r);
     buy_box_percentage := fp (buy_box_percentage r);
     buy_box_percentage_b2b := fp (buy_box_percentage_b2b r);
     units_ordered := fn (units_ordered r);
     units_ordered_b2b := fn (units_ordered_b2b r);
     unit_session_percentage := fp (unit_session_percentage r);
     unit_session_percentage_b2b := fp (unit_session_percentage_b2b r);
     sales_total := fc (sales_total r);
     sales_b2b := fc (sales_b2b r);
     order_items_total := fn (order_items_total r);
     order_items_b2b := fn (order_items_b2b r) |}.

End Frame.

(** The frame after [clean_column_names]: the columns that carry a [%] or
    a [£] are object columns; a count column is numeric unless some cell
    has a thousands separator. *)
Definition RawRow : Type := Frame.row Pd.objcell Pd.objcell Pd.cell.

(** After the three cleaning functions every percentage, currency and
    count column is a float column. *)
Definition CleanRow : Type := Frame.row F64.float F64.float F64.float.

(** The columns that [extract_sku_info] adds. *)
Module Sku.
Record row : Type := {
  base : CleanRow;
  is_prime : bool;
  base_sku : Pd.objcell;
  sku_category : Pd.objcell
}.
End Sku.

(** The columns that [calculate_derived_metrics] adds: the frame that
    [main] checks, and that it returns and saves when it comes to its
    end. *)
Record row : Type := {
  info : Sku.row;
  conversion_rate : F64.float;
  avg_order_value : F64.float;
  revenue_per_session : F64.float;
  buy_box_win_rate : F64.float;
  high_conversion : bool;
  high_revenue : bool
}.

Definition cols (r : row) : CleanRow := Sku.base (info r).

(** *** Cleaning *)

(** One cell of a percentage column:
    [astype(str).str.replace('%', '').replace('nan', np.nan)] and then
    [pd.to_numeric(..., errors='coerce')]. *)
Definition clean_percentage (c : Pd.objcell) : F64.float :=
  Pd.to_numeric_coerce
    (Pd.replace_by_nan (Str.u "nan") (Str.replace (Str.u "%") [] (Pd.astype_str c))).

(** [clean_percentage_columns]: "Clean percentage columns by removing %
    and converting to float". *)
Definition clean_percentage_columns {C N : Type} (df : list (Frame.row Pd.objcell C N))
    : list (Frame.row F64.float C N) :=
  List.map (Frame.assign clean_percentage (fun c => c) (fun n => n)) df.

(** One cell of a currency column:
    [astype(str).str.replace('£', '').str.replace(',', '')
     .replace('nan', np.nan)] and then [pd.to_numeric(..., errors='coerce')]. *)
Definition clean_currency (c : Pd.objcell) : F64.float :=
  Pd.to_numeric_coerce
    (Pd.replace_by_nan (Str.u "nan")
       (Str.replace (Str.u ",") [] (Str.replace (Str.u "£") [] (Pd.astype_str c)))).

(** [clean_currency_columns]: "Clean currency columns by removing £ symbol
    and converting to float". *)
Definition clean_currency_columns {P N : Type} (df : list (Frame.row P Pd.objcell N))
    : list (Frame.row P F64.float N) :=
  List.map (Frame.assign (fun p => p) clean_currency (fun n => n)) df.

(** One cell of a count column: [pd.to_numeric(df[col], errors='coerce')]. *)
Definition clean_numeric (c : Pd.cell) : F64.float := Pd.to_numeric_coerce c.

(** [clean_numeric_columns]: "Clean and convert numeric columns". *)
Definition clean_numeric_columns {P C : Type} (df : list (Frame.row P C Pd.cell))
    : list (Frame.row P C F64.float) :=
  List.map (Frame.assign (fun p => p) (fun c => c) clean_numeric) df.

(** What the three functions together make of one row. *)
Definition cleaned (r : RawRow) : CleanRow :=
  Frame.assign clean_percentage clean_currency clean_numeric r.

(** *** Derived metrics, cell by cell *)

(** [np.where(sessions_total > 0, (units_ordered / sessions_total) * 100, 0)] *)
Definition conversion_rate_of (sessions_total units_ordered : F64.float) : F64.float :=
  Pd.np_where (F64.gtb sessions_total F64.zero)
    (F64.mul (F64.div units_ordered sessions_total) F64.f100)
    F64.zero.

(** [np.where(units_ordered > 0, sales_total / units_ordered, 0)] *)
Definition avg_order_value_of (units_ordered sales_total : F64.float) : F64.float :=
  Pd.np_where (F64.gtb units_ordered F64.zero)
    (F64.div sales_total units_ordered)
    F64.zero.

(** [np.where(sessions_total > 0, sales_total / sessions_total, 0)] *)
Definition revenue_per_session_of (sessions_total sales_total : F64.float) : F64.float :=
  Pd.np_where (F64.gtb sessions_total F64.zero)
    (F64.div sales_total sessions_total)
    F64.zero.

Section Library.

(** What the script takes from pandas and [re] and this development leaves
    open: [Series.quantile(0.75)], the case-insensitive search for
    ['Prime'] in a string, the removal of the two Prime suffixes
    ([' - \d+ Prime$'], then [' Prime$']) and the extraction of
    [^([A-Z]+)]. *)
Variable quantile75 : list F64.float -> F64.float.
Variable contains_prime : Str.str -> bool.
Variable remove_prime_suffix : Str.str -> Str.str.
Variable extract_category : Str.str -> Pd.objcell.

(** [df['sku'].str.contains('Prime', case=False, na=False)] on one cell:
    a missing SKU is not Prime. *)
Definition str_contains_prime (sku : Pd.objcell) : bool :=
  match sku with
  | Some s => contains_prime s
  | None => false
  end.

(** [extract_sku_info], on a frame whose SKU column is text (see
    [has_str_accessor] for the other frames, on which the function
    raises): a missing SKU is not Prime ([na=False]) and has no base SKU
    and no category. *)
Definition extract_sku_info_row (r : CleanRow) : Sku.row :=
  {| Sku.base := r;
     Sku.is_prime := match Frame.sku r with
                     | Some s => contains_prime s
                     | None => false
                     end;
     Sku.base_sku := option_map remove_prime_suffix (Frame.sku r);
     Sku.sku_category := match Frame.sku r with
                         | Some s => extract_category s
                         | None => None
                         end |}.

Definition extract_sku_info (df : list CleanRow) : list Sku.row :=
  List.map extract_sku_info_row df.

(** [calculate_derived_metrics].  The two flags compare a cell with the
    upper quartile of its column. *)
Definition calculate_derived_metrics (df : list Sku.row) : list row :=
  let conversion r :=
    conversion_rate_of (Frame.sessions_total (Sku.base r)) (Frame.units_ordered (Sku.base r)) in
  let q_conversion := quantile75 (List.map conversion df) in
  let q_sales := quantile75 (List.map (fun r => Frame.sales_total (Sku.base r)) df) in
  List.map
    (fun r =>
       let c := Sku.base r in
       {| info := r;
          conversion_rate := conversion r;
          avg_order_value :=
            avg_order_value_of (Frame.units_ordered c) (Frame.sales_total c);
          revenue_per_session :=
            revenue_per_session_of (Frame.sessions_total c) (Frame.sales_total c);
          buy_box_win_rate := Frame.buy_box_percentage c;
          high_conversion := F64.gtb (conversion r) q_conversion;
          high_revenue := F64.gtb (Frame.sales_total c) q_sales |})
    df.

(** *** Data-quality checks *)

(** A cell as [isnull] and [duplicated] see it. *)
Inductive value : Type :=
| VObj (c : Pd.objcell)
| VFloat (f : F64.float)
| VBool (b : bool).

(** The thirty-one cells of a row of the final frame, in column order. *)
Definition cells (r : row) : list value :=
  let c := cols r in
  [ VObj (Frame.parent_asin c); VObj (Frame.child_asin c);
    VObj (Frame.title c); VObj (Frame.sku c);
    VFloat (Frame.sessions_total c); VFloat (Frame.sessions_b2b c);
    VFloat (Frame.session_percentage_total c); VFloat (Frame.session_percentage_b2b c);
    VFloat (Frame.page_views_total c); VFloat (Frame.page_views_b2b c);
    VFloat (Frame.page_views_percentage_total c); VFloat (Frame.page_views_percentage_b2b c);
    VFloat (Frame.buy_box_percentage c); VFloat (Frame.buy_box_percentage_b2b c);
    VFloat (Frame.units_ordered c); VFloat (Frame.units_ordered_b2b c);
    VFloat (Frame.unit_session_percentage c); VFloat (Frame.unit_session_percentage_b2b c);
    VFloat (Frame.sales_total c); VFloat (Frame.sales_b2b c);
    VFloat (Frame.order_items_total c); VFloat (Frame.order_items_b2b c);
    VBool (Sku.is_prime (info r)); VObj (Sku.base_sku (info r));
    VObj (Sku.sku_category (info r));
    VFloat (conversion_rate r); VFloat (avg_order_value r);
    VFloat (revenue_per_session r); VFloat (buy_box_win_rate r);
    VBool (high_conversion r); VBool (high_revenue r) ].

Definition isnull (v : value) : bool :=
  match v with
  | VObj None => true
  | VObj (Some _) => false
  | VFloat f => F64.is_nan f
  | VBool _ => false
  end.

(** Equality of two cells for [duplicated]: the equality of the values,
    with two missing cells equal to each other. *)
Definition same_value (v w : value) : bool :=
  match v, w with
  | VObj None, VObj None => true
  | VObj (Some s), VObj (Some t) => Str.eqb s t
  | VFloat a, VFloat b => F64.eqb a b || (F64.is_nan a && F64.is_nan b)
  | VBool a, VBool b => Bool.eqb a b
  | _, _ => false
  end.

Fixpoint same_values (l m : list value) : bool :=
  match l, m with
  | [], [] => true
  | v :: l', w :: m' => same_value v w && same_values l' m'
  | _, _ => false
  end.

Definition same_row (r r' : row) : bool := same_values (cells r) (cells r').

(** [df.duplicated()], with its default [keep='first']: a row is marked
    when an earlier row equals it.  [seen] holds the earlier rows. *)
Fixpoint duplicated_from (seen df : list row) : list bool :=
  match df with
  | [] => []
  | r :: rest => List.existsb (same_row r) seen :: duplicated_from (r :: seen) rest
  end.

Definition duplicated (df : list row) : list bool := duplicated_from [] df.

(** The sum of a boolean column. *)
Definition count_true (l : list bool) : nat := length (List.filter (fun b => b) l).

(** [df.isnull().sum()]: for each of the thirty-one columns, the number of
    missing cells. *)
Definition missing_counts (df : list row) : list nat :=
  List.map
    (fun j => count_true (List.map (fun r => isnull (List.nth j (cells r) (VBool false))) df))
    (List.seq 0 31).

(** The entries of the list [issues]. *)
Inductive issue : Type :=
| MissingValues (columns : nat)
| DuplicateRows (duplicates : nat)
| BuyBoxAbove100
| ConversionAbove100
| NegativeValues (col : string).

Definition decimal (n : nat) : string := NilEmpty.string_of_uint (Nat.to_uint n).

(** The text that the script appends for an issue. *)
Definition message (i : issue) : string :=
  match i with
  | MissingValues k => "Missing values found in " ++ decimal k ++ " columns"
  | DuplicateRows n => decimal n ++ " duplicate rows found"
  | BuyBoxAbove100 => "Buy box percentages > 100% found"
  | ConversionAbove100 => "Conversion rates > 100% found"
  | NegativeValues col => "Negative values found in " ++ col
  end%string.

(** The kinds of quality issue of the data model. *)
Inductive kind : Type := MissingValue | Duplicate | OutOfRange | NegativeValue.

Definition kind_of (i : issue) : kind :=
  match i with
  | MissingValues _ => MissingValue
  | DuplicateRows _ => Duplicate
  | BuyBoxAbove100 | ConversionAbove100 => OutOfRange
  | NegativeValues _ => NegativeValue
  end.

Definition is_kind (k : kind) (i : issue) : bool :=
  match k, kind_of i with
  | MissingValue, MissingValue | Duplicate, Duplicate
  | OutOfRange, OutOfRange | NegativeValue, NegativeValue => true
  | _, _ => false
  end.

(** [(df[col] < 0).any()] for the three columns of [numeric_cols]. *)
Definition negative_checks : list (string * (row -> F64.float)) :=
  [ ("sessions_total"%string, fun r => Frame.sessions_total (cols r));
    ("units_ordered"%string, fun r => Frame.units_ordered (cols r));
    ("sales_total"%string, fun r => Frame.sales_total (cols r)) ].

(** [identify_data_quality_issues(df)]: the list [issues], in the order of
    the [append]s.  The frame is only read. *)
Definition identify_data_quality_issues (df : list row) : list issue :=
  let issues := [] in
  (* Check for missing values *)
  let counts := missing_counts df in
  let issues :=
    if (0 <? list_sum counts)%nat
    then issues ++ [MissingValues (length (List.filter (fun c => (0 <? c)%nat) counts))]
    else issues in
  (* Check for duplicates *)
  let duplicates := count_true (duplicated df) in
  let issues :=
    if (0 <? duplicates)%nat then issues ++ [DuplicateRows duplicates] else issues in
  (* Check for impossible values *)
  let issues :=
    if List.existsb (fun r => F64.gtb (Frame.buy_box_percentage (cols r)) F64.f100) df
    then issues ++ [BuyBoxAbove100] else issues in
  let issues :=
    if List.existsb (fun r => F64.gtb (conversion_rate r) F64.f100) df
    then issues ++ [ConversionAbove100] else issues in
  (* Check for negative values where they shouldn't exist *)
  List.fold_left
    (fun issues chk =>
       if List.existsb (fun r => F64.ltb (snd chk r) F64.zero) df
       then issues ++ [NegativeValues (fst chk)] else issues)
    negative_checks issues.

(** The steps of [main] from the renamed frame to the data-quality check
    (lines 282 to 291): the frame that they compute and the issues that
    [identify_data_quality_issues] reports on it.  This is not yet what
    [main] returns: the call goes on with [generate_summary_stats] and
    [save_cleaned_data], and comes to an end or raises as [main_to_end]
    says.  The steps themselves raise on a frame without
    [has_str_accessor], for which this function stands for nothing. *)
Definition main (df : list RawRow) : list row * list issue :=
  let df := clean_percentage_columns df in
  let df := clean_currency_columns df in
  let df := clean_numeric_columns df in
  let df := extract_sku_info df in
  let df := calculate_derived_metrics df in
  let issues := identify_data_quality_issues df in
  (df, issues).

End Library.

(** [save_cleaned_data]: the name of the file that it writes and
    returns. *)
Definition save_cleaned_data (original_file_path : Str.str) : Str.str :=
  (* Generate output filename *)
  let base_name := Str.replace (Str.u ".csv") [] original_file_path in
  base_name ++ Str.u "_cleaned.csv".

(** *** [generate_summary_stats], and [main] to its end

    What [generate_summary_stats] prints is left out.  It can raise where
    it reads the rows [True] and [False] of [prime_stats], the frame
    grouped by [is_prime]: a label that the groups do not have is a
    [KeyError], for which [None] stands here. *)

(** The [.str] accessor of [df['sku']] in [extract_sku_info] (line 129).
    pandas has it for a column of text, which the SKU column is when some
    row has a SKU, and when the frame has no row.  A column in which every
    cell is missing is a column of floats, on which [.str] raises
    [AttributeError].  (So does a column in which every SKU is a number;
    the frames of this development have no such column.) *)
Definition has_str_accessor {P C N : Type} (df : list (Frame.row P C N)) : bool :=
  match df with
  | [] => true
  | _ :: _ =>
      List.existsb (fun r => match Frame.sku r with Some _ => true | None => false end) df
  end.

(** [df.groupby('is_prime')]: the groups that have a row, [False] before
    [True]. *)
Definition groupby_is_prime (df : list row) : list (bool * list row) :=
  List.filter (fun g => negb (match snd g with [] => true | _ :: _ => false end))
    [ (false, List.filter (fun r => negb (Sku.is_prime (info r))) df);
      (true, List.filter (fun r => Sku.is_prime (info r)) df) ].

(** [prime_stats.loc[label, column]], as the rows that the statistic is
    taken of. *)
Definition loc (prime_stats : list (bool * list row)) (label : bool) : option (list row) :=
  option_map snd (List.find (fun g => Bool.eqb (fst g) label) prime_stats).

(** [generate_summary_stats]: the Prime rows and the other rows that the
    "Prime vs Non-Prime Comparison" reads, in the order [loc[True]],
    [loc[False]]. *)
Definition generate_summary_stats (df : list row) : option (list row * list row) :=
  let prime_stats := groupby_is_prime df in
  match loc prime_stats true with
  | None => None
  | Some prime =>
      match loc prime_stats false with
      | None => None
      | Some others => Some (prime, others)
      end
  end.

Section Run.

Variable quantile75 : list F64.float -> F64.float.
Variable contains_prime : Str.str -> bool.
Variable remove_prime_suffix : Str.str -> Str.str.
Variable extract_category : Str.str -> Pd.objcell.

(** [main] to its end, from the renamed frame on: the frame that it
    returns and the name of the file that holds it, or [None] when a step
    raises, which the handler of [main] prints and raises again (lines 305
    to 307): [AttributeError] in [extract_sku_info], before any check of
    the data, or [KeyError] in [generate_summary_stats], after the issues
    were reported.  In both cases [save_cleaned_data] is not reached and
    nothing is returned. *)
Definition main_to_end (df : list RawRow) (file_path : Str.str)
    : option (list row * Str.str) :=
  if has_str_accessor df then
    let (frame, issues) :=
      main quantile75 contains_prime remove_prime_suffix extract_category df in
    (* Generate summary statistics *)
    match generate_summary_stats frame with
    | None => None
    | Some _ =>
        (* Save cleaned data *)
        Some (frame, save_cleaned_data file_path)
    end
  else None.

End Run.

End BusinessReport.

(* ===================================================================== *)
(** ** analyze_new_report.py                                              *)
(* ===================================================================== *)

Module NewReport.

(** The frame of [calculate_metrics] has the columns of
    [BusinessReport.CleanRow]: the two scripts share [column_mapping]. *)
Record row : Type := {
  base : BusinessReport.CleanRow;
  conversion_rate : F64.float;
  avg_order_value : F64.float;
  revenue_per_session : F64.float;
  is_prime : bool;
  sku_category : Pd.objcell
}.

Section Library.

(** [str.contains('Prime|prime', case=False, na=False)] and
    [str.extract(r'^([A-Z]+)')] on a string. *)
Variable contains_prime : Str.str -> bool.
Variable extract_category : Str.str -> Pd.objcell.

(** [calculate_metrics] on one row. *)
Definition calculate_metrics_row (c : BusinessReport.CleanRow) : row :=
  let sessions_total := BusinessReport.Frame.sessions_total c in
  let units_ordered := BusinessReport.Frame.units_ordered c in
  let sales_total := BusinessReport.Frame.sales_total c in
  {| base := c;
     (* Conversion rate *)
     conversion_rate :=
       Pd.np_where (F64.gtb sessions_total F64.zero)
         (F64.mul (F64.div units_ordered sessions_total) F64.f100) F64.zero;
     (* Average order value *)
     avg_order_value :=
       Pd.np_where (F64.gtb units_ordered F64.zero)
         (F64.div sales_total units_ordered) F64.zero;
     (* Revenue per session *)
     revenue_per_session :=
       Pd.np_where (F64.gtb sessions_total F64.zero)
         (F64.div sales_total sessions_total) F64.zero;
     is_prime := match BusinessReport.Frame.sku c with
                 | Some s => contains_prime s
                 | None => false
                 end;
     sku_category := match BusinessReport.Frame.sku c with
                     | Some s => extract_category s
                     | None => None
                     end |}.

Definition calculate_metrics (df : list BusinessReport.CleanRow) : list row :=
  List.map calculate_metrics_row df.

End Library.

(** [save_results]: the prefix of the names of the two files,
    [input_file.replace('.csv', '').replace(' ', '_').replace('(', '')
     .replace(')', '')] *)
Definition output_prefix (input_file : Str.str) : Str.str :=
  Str.replace (Str.u ")") []
    (Str.replace (Str.u "(") []
       (Str.replace (Str.u " ") (Str.u "_")
          (Str.replace (Str.u ".csv") [] input_file))).

(** The two names that [save_results] returns, [cleaned_file] and
    [summary_file]. *)
Definition save_results (input_file : Str.str) : Str.str * Str.str :=
  (output_prefix input_file ++ Str.u "_cleaned.csv",
   output_prefix input_file ++ Str.u "_summary.md").

End NewReport.

(* ===================================================================== *)
(** ** Sample data                                                        *)
(* ===================================================================== *)

Module Examples.

Import BusinessReport.

(** A field as [read_csv] reads it: the empty field is missing. *)
Definition field (s : string) : Pd.objcell :=
  match s with
  | EmptyString => None
  | _ => Some (Str.u s)
  end.

(** A row of a business report of which only the SKU, the sessions, the
    units, the sales and the buy-box percentage are filled in. *)
Definition report_row (sku sessions units sales buy_box : string) : RawRow :=
  {| Frame.parent_asin := None;
     Frame.child_asin := None;
     Frame.title := None;
     Frame.sku := field sku;
     Frame.sessions_total := Pd.of_objcell (field sessions);
     Frame.sessions_b2b := Pd.Num F64.zero;
     Frame.session_percentage_total := None;
     Frame.session_percentage_b2b := None;
     Frame.page_views_total := Pd.Num F64.zero;
     Frame.page_views_b2b := Pd.Num F64.zero;
     Frame.page_views_percentage_total := None;
     Frame.page_views_percentage_b2b := None;
     Frame.buy_box_percentage := field buy_box;
     Frame.buy_box_percentage_b2b := None;
     Frame.units_ordered := Pd.of_objcell (field units);
     Frame.units_ordered_b2b := Pd.Num F64.zero;
     Frame.unit_session_percentage := None;
     Frame.unit_session_percentage_b2b := None;
     Frame.sales_total := field sales;
     Frame.sales_b2b := None;
     Frame.order_items_total := Pd.Num F64.zero;
     Frame.order_items_b2b := Pd.Num F64.zero |}.

(** Stand-ins for the library functions that the development leaves open,
    to run the scripts on sample data. *)
Definition quantile75 (column : list F64.float) : F64.float := F64.nan.
Definition contains_prime (s : Str.str) : bool := false.
Definition remove_prime_suffix (s : Str.str) : Str.str := s.
Definition extract_category (s : Str.str) : Pd.objcell := None.

Definition run_main (df : list RawRow) : list row * list issue :=
  main quantile75 contains_prime remove_prime_suffix extract_category df.

(** The record of the specification, and a row without sessions and
    units, after cleaning and after [extract_sku_info]. *)
Definition clean_frame : list CleanRow :=
  List.map cleaned [ report_row "SKU-1" "200" "50" "£1,000.00" "90%";
                  report_row "SKU-2" "0" "0" "£0.00" "80%" ].

Definition sku_frame : list Sku.row :=
  extract_sku_info contains_prime remove_prime_suffix extract_category clean_frame.

(** A row of [csv.DictReader] with a SKU, a child ASIN, units, sales and
    sessions. *)
Definition csv_row (sku asin units sales sessions : string) : gmap Str.str Str.str :=
  <[Str.u "SKU" := Str.u sku]>
    (<[Str.u "(Child) ASIN" := Str.u asin]>
       (<[Str.u "Units ordered" := Str.u units]>
          (<[Str.u "Ordered Product Sales" := Str.u sales]>
             (<[Str.u "Sessions – Total" := Str.u sessions]> ∅)))).

(** Ten rows, of which the third has no SKU and the seventh no child
    ASIN. *)
Definition ten_rows : list (gmap Str.str Str.str) :=
  [ csv_row "A1" "B001" "5" "£10.00" "100";
    csv_row "A2" "B002" "1" "£2.50" "40";
    csv_row "" "B003" "2" "£5.00" "10";
    csv_row "A4" "B004" "0" "£0.00" "0";
    csv_row "A5" "B005" "12" "£1,234.56" "1,000";
    csv_row "A6" "B006" "3" "£9.99" "7";
    csv_row "A7" "  " "4" "£8.00" "20";
    csv_row "A8" "B008" "7" "£70.00" "70";
    csv_row "A9" "B009" "9" "£90.00" "90";
    csv_row "A10" "B010" "10" "£100.00" "100" ].

(** A row of a business report with every cell filled in. *)
Definition full_row (sku : string) : RawRow :=
  {| Frame.parent_asin := field "B0PARENT";
     Frame.child_asin := field "B0CHILD";
     Frame.title := field "A product";
     Frame.sku := field sku;
     Frame.sessions_total := Pd.Num F64.f200;
     Frame.sessions_b2b := Pd.Num F64.f20;
     Frame.session_percentage_total := field "10%";
     Frame.session_percentage_b2b := field "5%";
     Frame.page_views_total := Pd.Num F64.f200;
     Frame.page_views_b2b := Pd.Num F64.f20;
     Frame.page_views_percentage_total := field "10%";
     Frame.page_views_percentage_b2b := field "5%";
     Frame.buy_box_percentage := field "50%";
     Frame.buy_box_percentage_b2b := field "50%";
     Frame.units_ordered := Pd.Num F64.f50;
     Frame.units_ordered_b2b := Pd.Num F64.f5;
     Frame.unit_session_percentage := field "25%";
     Frame.unit_session_percentage_b2b := field "25%";
     Frame.sales_total := field "£1,000.00";
     Frame.sales_b2b := field "£100.00";
     Frame.order_items_total := Pd.Num F64.f50;
     Frame.order_items_b2b := Pd.Num F64.f5 |}.

(** A stand-in for the extraction of the category: the first three
    characters of the SKU. *)
Definition first_three (s : Str.str) : Pd.objcell := Some (firstn 3 s).

(** The frame of [main] for one row with every cell filled in. *)
Definition full_frame : list row :=
  fst (main quantile75 contains_prime remove_prime_suffix first_three [full_row "SKU-1"]).

(** A stand-in for [list.sort] with the key and the [reverse=True] of
    [analyze-best-sellers.py]: insertion from the right, an item going in
    front of the first item whose key is not above its own. *)
Definition key_ltb (p q : BestSellers.product) : bool :=
  if F64.eqb (BestSellers.sales_value p) (BestSellers.sales_value q)
  then (BestSellers.units_ordered p <? BestSellers.units_ordered q)%Z
  else F64.ltb (BestSellers.sales_value p) (BestSellers.sales_value q).

Fixpoint insert_product (p : BestSellers.product) (l : list BestSellers.product)
    : list BestSellers.product :=
  match l with
  | [] => [p]
  | q :: t => if key_ltb p q then q :: insert_product p t else p :: l
  end.

Definition sort_products (products : list BestSellers.product) : list BestSellers.product :=
  List.fold_right insert_product [] products.

(** Three rows of the report that [enhanced_traffic_conversion_analysis.py]
    loads: one without units, one without sessions, one with both. *)
Definition traffic_rows : list EnhancedTraffic.raw_row :=
  [ {| EnhancedTraffic.raw_sessions := field "100";
       EnhancedTraffic.raw_units := field "0";
       EnhancedTraffic.raw_sales := field "£0.00" |};
    {| EnhancedTraffic.raw_sessions := field "0";
       EnhancedTraffic.raw_units := field "5";
       EnhancedTraffic.raw_sales := field "£10.00" |};
    {| EnhancedTraffic.raw_sessions := field "1,000";
       EnhancedTraffic.raw_units := field "50";
       EnhancedTraffic.raw_sales := field "£1,234.56" |} ].

(** A stand-in for the search for ['Prime'] without regard to case, for
    SKUs of ASCII text: whether the SKU, in lower case, has [prime]
    somewhere. *)
Fixpoint search_prime (s : Str.str) : bool :=
  match s with
  | [] => false
  | _ :: t => Str.starts_with (Str.u "prime") (List.map Str.lower_ascii s) || search_prime t
  end.

(** [main] to its end with these stand-ins, on a file of the name that the
    script has for it. *)
Definition run_main_to_end (df : list RawRow) : option (list row * Str.str) :=
  main_to_end quantile75 search_prime remove_prime_suffix extract_category df
    (Str.u "BusinessReport-23-07-2025.csv").

(** The steps of [main] before the summary, with the same stand-ins. *)
Definition run_steps (df : list RawRow) : list row * list issue :=
  main quantile75 search_prime remove_prime_suffix extract_category df.

(** A report of three products, of which the first is a Prime product with
    a buy-box percentage of 150 and the third repeats the second. *)
Definition prime_report : list RawRow :=
  [ report_row "SKU-1 - 002 Prime" "200" "50" "£1,000.00" "150%";
    report_row "SKU-2" "40" "2" "£9.00" "80%";
    report_row "SKU-2" "40" "2" "£9.00" "80%" ].

(** A report of one product, which is no Prime product, with a buy-box
    percentage of 150. *)
Definition plain_report : list RawRow :=
  [ report_row "SKU-1" "200" "50" "£1,000.00" "150%" ].

End Examples.

(* ===================================================================== *)
(** * Part II.  Properties                                                *)
(* ===================================================================== *)

(** ** Signs of rounded quotients and products *)

Module FloatFacts.

Local Open Scope Z_scope.

#[local] Hint Constructors F64.signed : core.

Lemma shr_1_nonneg mrs : 0 <= shr_m mrs -> 0 <= shr_m (shr_1 mrs).
Proof.
  destruct mrs as [m r s]; simpl.
  destruct m as [|[p|p|]|[p|p|]]; simpl; lia.
Qed.

Lemma iter_shr_1_nonneg p : forall mrs,
  0 <= shr_m mrs -> 0 <= shr_m (SpecFloat.iter_pos shr_1 p mrs).
Proof.
  induction p as [p IH|p IH|]; intros mrs H; simpl.
  - apply IH, IH, shr_1_nonneg, H.
  - apply IH, IH, H.
  - apply shr_1_nonneg, H.
Qed.

Lemma shr_nonneg mrs e n : 0 <= shr_m mrs -> 0 <= shr_m (fst (shr mrs e n)).
Proof.
  intros H. unfold shr. destruct n; simpl; trivial.
  apply iter_shr_1_nonneg, H.
Qed.

Lemma shr_record_of_loc_m m l : shr_m (shr_record_of_loc m l) = m.
Proof. destruct l as [|[]]; reflexivity. Qed.

Lemma shr_fexp_nonneg m e l :
  0 <= m -> 0 <= shr_m (fst (shr_fexp F64.prec F64.emax m e l)).
Proof.
  intros H. unfold shr_fexp. apply shr_nonneg.
  rewrite shr_record_of_loc_m. exact H.
Qed.

Lemma round_nearest_even_nonneg m l : 0 <= m -> 0 <= round_nearest_even m l.
Proof.
  intros H. unfold round_nearest_even.
  destruct l as [|[]]; try lia. destruct (Z.even m); lia.
Qed.

(** Rounding a non-negative mantissa gives a number of the requested sign,
    never NaN. *)
Lemma binary_round_aux_signed s m e l :
  0 <= m -> F64.signed s (binary_round_aux F64.prec F64.emax s m e l).
Proof.
  intros H. unfold binary_round_aux.
  pose proof (shr_fexp_nonneg m e l H) as H1.
  destruct (shr_fexp F64.prec F64.emax m e l) as [mrs' e'] eqn:E1. simpl in H1.
  pose proof (shr_fexp_nonneg _ e' loc_Exact
                (round_nearest_even_nonneg _ (loc_of_shr_record mrs') H1)) as H2.
  destruct (shr_fexp F64.prec F64.emax _ e' loc_Exact) as [mrs'' e''] eqn:E2.
  simpl in H2.
  destruct (shr_m mrs'') as [|p|p]; auto.
  - destruct (e'' <=? F64.emax - F64.prec); auto.
  - lia.
Qed.

Lemma div_core_nonneg mx ex my ey :
  0 <= fst (fst (SFdiv_core_binary F64.prec F64.emax (Zpos mx) ex (Zpos my) ey)).
Proof.
  unfold SFdiv_core_binary.
  set (s := _ - _ - _).
  set (m' := match s with Z0 => _ | Zpos _ => _ | Zneg _ => _ end).
  assert (Hm : 0 <= m').
  { subst m'. destruct s; try lia. apply Z.shiftl_nonneg. lia. }
  pose proof (Z_div_mod m' (Zpos my) ltac:(lia)) as Hd.
  destruct (Z.div_eucl m' (Zpos my)) as [q r]. simpl.
  destruct Hd as [Hq Hr]. nia.
Qed.

Lemma div_finite_signed sx mx ex sy my ey :
  F64.signed (xorb sx sy) (F64.div (S754_finite sx mx ex) (S754_finite sy my ey)).
Proof.
  unfold F64.div, SFdiv.
  pose proof (div_core_nonneg mx ex my ey) as H.
  destruct (SFdiv_core_binary _ _ _ _ _ _) as [[mz ez] lz]. simpl in H.
  apply binary_round_aux_signed, H.
Qed.

Lemma mul_finite_signed sx mx ex sy my ey :
  F64.signed (xorb sx sy) (F64.mul (S754_finite sx mx ex) (S754_finite sy my ey)).
Proof.
  unfold F64.mul, SFmul. apply binary_round_aux_signed. lia.
Qed.

(** [0 <= x] holds of the non-negative zero, numbers and infinity, and of
    the negative zero. *)
Lemma leb_zero_signed x : F64.signed false x -> F64.leb F64.zero x = true.
Proof. intros []; reflexivity. Qed.

Lemma signed_not_nan s x : F64.signed s x -> F64.is_nan x = false.
Proof. intros []; reflexivity. Qed.

Lemma signed_false_not_neg x : F64.signed false x -> F64.ltb x F64.zero = false.
Proof. intros []; reflexivity. Qed.

(** *** Magnitudes: no overflow below [2^emax] *)

(** The definitions of [SpecFloat] name the integer operations of the core
    library; [lia] wants those of the Standard Library. *)
Ltac std_Z :=
  change IntDef.Z.add with Z.add in *;
  change IntDef.Z.sub with Z.sub in *;
  change IntDef.Z.mul with Z.mul in *;
  change IntDef.Z.min with Z.min in *;
  change IntDef.Z.max with Z.max in *;
  change IntDef.Z.div_eucl with Z.div_eucl in *;
  change IntDef.Z.shiftl with Z.shiftl in *;
  change PosDef.Pos.mul with Pos.mul in *.

Lemma fexp_eq k : SpecFloat.fexp F64.prec F64.emax k = Z.max (k - 53) (-1074).
Proof. reflexivity. Qed.

Lemma digits2_pos_size p : digits2_pos p = Pos.size p.
Proof. induction p as [p IH|p IH|]; simpl; congruence. Qed.

Lemma Zdigits2_log2 p : Zdigits2 (Zpos p) = Z.log2 (Zpos p) + 1.
Proof.
  simpl. rewrite digits2_pos_size.
  destruct p as [p|p|]; simpl; try reflexivity; lia.
Qed.

Lemma Zdigits2_nonneg m : 0 <= m -> 0 <= Zdigits2 m.
Proof. destruct m; simpl; lia. Qed.

(** [m < 2 ^ digits m] *)
Lemma Zdigits2_upper m : 0 <= m -> m < 2 ^ Zdigits2 m.
Proof.
  intros H. destruct m as [|p|p]; [reflexivity| |lia].
  rewrite Zdigits2_log2.
  apply (Z.log2_spec (Zpos p)). lia.
Qed.

(** [2 ^ (digits m - 1) <= m] *)
Lemma Zdigits2_lower p : 2 ^ (Zdigits2 (Zpos p) - 1) <= Zpos p.
Proof.
  rewrite Zdigits2_log2. replace (Z.log2 (Zpos p) + 1 - 1) with (Z.log2 (Zpos p)) by lia.
  apply (Z.log2_spec (Zpos p)). lia.
Qed.

Lemma Zdigits2_le m k : 0 <= m -> 0 <= k -> m < 2 ^ k -> Zdigits2 m <= k.
Proof.
  intros Hm Hk H. destruct m as [|p|p]; [simpl; lia| |lia].
  rewrite Zdigits2_log2.
  assert (Z.log2 (Zpos p) < k) by (apply Z.log2_lt_pow2; lia). lia.
Qed.

Lemma shr_1_digits mrs :
  0 <= shr_m mrs -> Zdigits2 (shr_m (shr_1 mrs)) <= Z.max (Zdigits2 (shr_m mrs) - 1) 0.
Proof.
  destruct mrs as [m r s]; simpl.
  destruct m as [|[p|p|]|[p|p|]]; simpl; lia.
Qed.

Lemma iter_shr_1_digits p : forall mrs,
  0 <= shr_m mrs ->
  Zdigits2 (shr_m (SpecFloat.iter_pos shr_1 p mrs)) <= Z.max (Zdigits2 (shr_m mrs) - Zpos p) 0.
Proof.
  induction p as [p IH|p IH|]; intros mrs H; simpl SpecFloat.iter_pos.
  - pose proof (shr_1_nonneg mrs H) as H1.
    pose proof (iter_shr_1_nonneg p _ H1) as H2.
    pose proof (shr_1_digits mrs H). pose proof (IH _ H1). pose proof (IH _ H2). lia.
  - pose proof (iter_shr_1_nonneg p _ H) as H2.
    pose proof (IH _ H). pose proof (IH _ H2). lia.
  - pose proof (shr_1_digits mrs H). lia.
Qed.

(** After [shr_fexp] the exponent is the larger of the old one and the
    canonical one, and the magnitude has not grown. *)
Lemma shr_fexp_bound m e l :
  0 <= m ->
  let r := shr_fexp F64.prec F64.emax m e l in
  0 <= shr_m (fst r) /\
  snd r = Z.max e (SpecFloat.fexp F64.prec F64.emax (Zdigits2 m + e)) /\
  Zdigits2 (shr_m (fst r)) + snd r <= Z.max (Zdigits2 m + e) (snd r).
Proof.
  intros Hm r. split; [apply shr_fexp_nonneg, Hm|].
  subst r. unfold shr_fexp, shr.
  pose proof (fexp_eq (Zdigits2 m + e)) as Hf.
  set (f := SpecFloat.fexp F64.prec F64.emax (Zdigits2 m + e)) in *.
  pose proof (shr_record_of_loc_m m l) as Hr.
  destruct (f - e) as [|p|p] eqn:En; cbn [fst snd].
  - rewrite Hr. lia.
  - assert (H0 : 0 <= shr_m (shr_record_of_loc m l)) by (rewrite Hr; exact Hm).
    pose proof (iter_shr_1_digits p _ H0) as Hd. rewrite Hr in Hd. lia.
  - rewrite Hr. lia.
Qed.

Lemma round_nearest_even_digits m l :
  0 <= m -> Zdigits2 (round_nearest_even m l) <= Zdigits2 m + 1.
Proof.
  intros Hm.
  assert (H1 : Zdigits2 (m + 1) <= Zdigits2 m + 1).
  { pose proof (Zdigits2_upper m Hm). pose proof (Zdigits2_nonneg m Hm).
    apply Zdigits2_le; try lia.
    rewrite Z.pow_add_r by lia. lia. }
  unfold round_nearest_even. destruct l as [|[]]; try lia.
  destruct (Z.even m); lia.
Qed.

(** Rounding [m * 2^e], of magnitude at most [B], cannot overflow when
    [B] and [e] are small enough. *)
Lemma binary_round_aux_within s m e l B :
  0 <= m -> Zdigits2 m + e <= B -> B <= 1023 -> e <= 971 ->
  F64.within (Z.max (Z.max B e + 1) (-1073)) (Z.max e (SpecFloat.fexp F64.prec F64.emax (Z.max B e + 1)))
    (binary_round_aux F64.prec F64.emax s m e l).
Proof.
  intros Hm HB HB' He. unfold binary_round_aux.
  pose proof (shr_fexp_bound m e l Hm) as (H1 & H2 & H3).
  destruct (shr_fexp F64.prec F64.emax m e l) as [mrs' e1]. cbn [fst snd] in *.
  pose proof (round_nearest_even_nonneg _ (loc_of_shr_record mrs') H1) as Hr.
  pose proof (round_nearest_even_digits _ (loc_of_shr_record mrs') H1) as Hd.
  pose proof (shr_fexp_bound _ e1 loc_Exact Hr) as (H4 & H5 & H6).
  destruct (shr_fexp F64.prec F64.emax _ e1 loc_Exact) as [mrs'' e2]. cbn [fst snd] in *.
  rewrite fexp_eq in *.
  destruct (shr_m mrs'') as [|p|p] eqn:Em; [exact I| |lia].
  assert (Hle : (e2 <=? F64.emax - F64.prec) = true).
  { apply Z.leb_le. change (F64.emax - F64.prec) with 971. lia. }
  rewrite Hle. cbn [F64.within]. lia.
Qed.

Lemma within_weaken K E K' E' x : K <= K' -> E <= E' -> F64.within K E x -> F64.within K' E' x.
Proof. destruct x; simpl; trivial. lia. Qed.

Lemma within_finite K E x : F64.within K E x -> F64.is_finite x = true.
Proof. destruct x; simpl; trivial; contradiction. Qed.

Lemma quotient_digits m1 s m2 :
  0 < m1 -> 0 <= s -> 0 < m2 ->
  Zdigits2 (m1 * 2 ^ s / m2) <= Z.max (Zdigits2 m1 + s - Zdigits2 m2 + 1) 0.
Proof.
  intros H1 Hs H2.
  pose proof (Zdigits2_upper m1 ltac:(lia)) as Hu.
  assert (Hl : 2 ^ (Zdigits2 m2 - 1) <= m2).
  { destruct m2 as [|p|p]; try lia. apply Zdigits2_lower. }
  assert (Hd1 : 1 <= Zdigits2 m1) by (destruct m1; simpl in *; lia).
  assert (Hd2 : 1 <= Zdigits2 m2) by (destruct m2; simpl in *; lia).
  set (d1 := Zdigits2 m1) in *. set (d2 := Zdigits2 m2) in *.
  assert (Hps : 0 < 2 ^ s) by (apply Z.pow_pos_nonneg; lia).
  assert (Hn : m1 * 2 ^ s < 2 ^ (d1 + s)).
  { rewrite Z.pow_add_r by lia. apply Z.mul_lt_mono_pos_r; lia. }
  set (n := m1 * 2 ^ s) in *.
  assert (Hq0 : 0 <= n / m2) by (apply Z.div_pos; lia).
  assert (Hqm : m2 * (n / m2) <= n) by (apply Z.mul_div_le; lia).
  destruct (Z_lt_le_dec (d1 + s - d2 + 1) 0) as [Hlt | Hge].
  - assert (Hsmall : n < m2).
    { assert (2 ^ (d1 + s) <= 2 ^ (d2 - 1)) by (apply Z.pow_le_mono_r; lia). lia. }
    rewrite Z.div_small by lia. simpl. lia.
  - assert (Hk : n / m2 < 2 ^ (d1 + s - d2 + 1)).
    { assert (Hsplit : 2 ^ (d1 + s) = 2 ^ (d1 + s - d2 + 1) * 2 ^ (d2 - 1)).
      { rewrite <- Z.pow_add_r by lia. f_equal. lia. }
      assert (Hp2 : 0 < 2 ^ (d2 - 1)) by (apply Z.pow_pos_nonneg; lia).
      destruct (Z_lt_le_dec (n / m2) (2 ^ (d1 + s - d2 + 1))) as [|Hbig]; [assumption|].
      exfalso.
      assert (2 ^ (d1 + s - d2 + 1) * 2 ^ (d2 - 1) <= (n / m2) * m2).
      { apply Z.mul_le_mono_nonneg; lia. }
      lia. }
    pose proof (Zdigits2_le _ _ Hq0 Hge Hk). lia.
Qed.

Lemma div_core_bound mx ex my ey :
  let M := (Zdigits2 (Zpos mx) + ex) - (Zdigits2 (Zpos my) + ey) in
  let r := SFdiv_core_binary F64.prec F64.emax (Zpos mx) ex (Zpos my) ey in
  0 <= fst (fst r) /\
  snd (fst r) <= Z.max (M - 53) (-1074) /\
  Zdigits2 (fst (fst r)) + snd (fst r) <= Z.max (M + 1) (snd (fst r)).
Proof.
  intros M r. split; [apply div_core_nonneg|].
  subst r. unfold SFdiv_core_binary.
  rewrite fexp_eq. std_Z.
  set (d1 := Zdigits2 (Zpos mx)) in *. set (d2 := Zdigits2 (Zpos my)) in *.
  set (e' := Z.min _ (ex - ey)).
  assert (He' : e' <= Z.max (M - 53) (-1074)). { subst e' M. lia. }
  assert (Hs : 0 <= ex - ey - e') by (subst e'; lia).
  set (s := ex - ey - e') in *.
  set (m' := match s with Z0 => _ | Zpos _ => _ | Zneg _ => _ end).
  assert (Hm' : m' = Zpos mx * 2 ^ s).
  { subst m'. destruct s as [|p|p] eqn:Es; [simpl; lia | | lia].
    rewrite Z.shiftl_mul_pow2 by lia. reflexivity. }
  pose proof (quotient_digits (Zpos mx) s (Zpos my) ltac:(lia) Hs ltac:(lia)) as Hq.
  rewrite <- Hm' in Hq. fold d1 d2 in Hq.
  unfold Z.div in Hq.
  destruct (Z.div_eucl m' (Zpos my)) as [q r']. cbn [fst snd] in *.
  split; [exact He'|]. subst M s. lia.
Qed.

(** The quotient of two numbers whose magnitudes differ by at most [M] is
    a number or a zero. *)
Lemma div_within sx mx ex sy my ey M :
  (Zdigits2 (Zpos mx) + ex) - (Zdigits2 (Zpos my) + ey) <= M -> M <= 1022 ->
  F64.within (Z.max (M + 2) (-1073)) (Z.max (M - 51) (-1074))
    (F64.div (S754_finite sx mx ex) (S754_finite sy my ey)).
Proof.
  intros HM HM'. unfold F64.div, SFdiv.
  pose proof (div_core_bound mx ex my ey) as (H0 & H1 & H2).
  destruct (SFdiv_core_binary _ _ _ _ _ _) as [[mz ez] lz]. cbn [fst snd] in *.
  eapply within_weaken;
    [| | apply (binary_round_aux_within _ mz ez lz (Z.max (M + 1) ez)); lia].
  - lia.
  - rewrite fexp_eq. lia.
Qed.

Lemma product_digits mx my :
  Zdigits2 (Zpos (mx * my)) <= Zdigits2 (Zpos mx) + Zdigits2 (Zpos my).
Proof.
  pose proof (Zdigits2_upper (Zpos mx) ltac:(lia)) as H1.
  pose proof (Zdigits2_upper (Zpos my) ltac:(lia)) as H2.
  pose proof (Zdigits2_nonneg (Zpos mx) ltac:(lia)).
  pose proof (Zdigits2_nonneg (Zpos my) ltac:(lia)).
  apply Zdigits2_le; try lia.
  rewrite Pos2Z.inj_mul, Z.pow_add_r by lia.
  apply Z.mul_lt_mono_nonneg; lia.
Qed.

(** The product of two numbers below [2^K1] and [2^K2]. *)
Lemma mul_within K1 E1 K2 E2 x y :
  F64.within K1 E1 x -> F64.within K2 E2 y -> K1 + K2 <= 1023 -> E1 + E2 <= 971 ->
  F64.is_finite (F64.mul x y) = true.
Proof.
  intros Hx Hy HK HE.
  destruct x as [sx|sx| |sx mx ex]; try contradiction;
    destruct y as [sy|sy| |sy my ey]; try contradiction; try reflexivity.
  cbn [F64.within] in Hx, Hy. unfold F64.mul, SFmul. std_Z.
  pose proof (product_digits mx my).
  eapply within_finite.
  apply (binary_round_aux_within _ _ _ _ (K1 + K2)); lia.
Qed.

End FloatFacts.

(** ** The conversions on sample text

    The values are those that CPython returns: [float] rounds to nearest
    even, accepts underscores between digits and Unicode decimal digits,
    and overflows to an infinity; [int] accepts no decimal point. *)

Module ModelChecks.

Import Py.

Example f_plain : PyNum.float_of_str (Str.u "1234.56") = Ok (S754_finite false 5429652300748554 (-42)).
Proof. vm_compute. reflexivity. Qed.

Example f_blanks_underscores : PyNum.float_of_str (Str.u " 1_000.5 ") = Ok (S754_finite false 8800491068719104 (-43)).
Proof. vm_compute. reflexivity. Qed.

Example f_tie : PyNum.float_of_str (Str.u "1e23") = Ok (S754_finite false 5960464477539062 (24)).
Proof. vm_compute. reflexivity. Qed.

Example f_halfway : PyNum.float_of_str (Str.u "9007199254740993") = Ok (S754_finite false 4503599627370496 (1)).
Proof. vm_compute. reflexivity. Qed.

Example f_smallest : PyNum.float_of_str (Str.u "5e-324") = Ok (S754_finite false 1 (-1074)).
Proof. vm_compute. reflexivity. Qed.

Example f_underflow : PyNum.float_of_str (Str.u "2e-324") = Ok (S754_zero false).
Proof. vm_compute. reflexivity. Qed.

Example f_largest : PyNum.float_of_str (Str.u "1.7976931348623157e308") = Ok (S754_finite false 9007199254740991 (971)).
Proof. vm_compute. reflexivity. Qed.

Example f_overflow : PyNum.float_of_str (Str.u "1.7976931348623159e308") = Ok (S754_infinity false).
Proof. vm_compute. reflexivity. Qed.

Example f_arabic_indic : PyNum.float_of_str (Str.u "٣.٥") = Ok (S754_finite false 7881299347898368 (-51)).
Proof. vm_compute. reflexivity. Qed.

Example f_double_underscore : PyNum.float_of_str (Str.u "1__2") = Raise ValueError.
Proof. vm_compute. reflexivity. Qed.

Example f_hex : PyNum.float_of_str (Str.u "0x10") = Raise ValueError.
Proof. vm_compute. reflexivity. Qed.

Example f_comma : PyNum.float_of_str (Str.u "1,234") = Raise ValueError.
Proof. vm_compute. reflexivity. Qed.

Example f_pound : PyNum.float_of_str (Str.u "£12") = Raise ValueError.
Proof. vm_compute. reflexivity. Qed.

Example f_infinity : PyNum.float_of_str (Str.u "-Infinity") = Ok (S754_infinity true).
Proof. vm_compute. reflexivity. Qed.

Example f_nan : PyNum.float_of_str (Str.u "nan") = Ok (S754_nan).
Proof. vm_compute. reflexivity. Qed.

Example f_empty : PyNum.float_of_str (Str.u "") = Raise ValueError.
Proof. vm_compute. reflexivity. Qed.

Example i_blanks_underscore : PyNum.int_of_str (Str.u " -1_234 ") = Ok (-1234)%Z.
Proof. vm_compute. reflexivity. Qed.

Example i_point : PyNum.int_of_str (Str.u "12.7") = Raise ValueError.
Proof. vm_compute. reflexivity. Qed.

Example i_leading_zeros : PyNum.int_of_str (Str.u "007") = Ok (7)%Z.
Proof. vm_compute. reflexivity. Qed.

Example i_arabic_indic : PyNum.int_of_str (Str.u "١٢٣") = Ok (123)%Z.
Proof. vm_compute. reflexivity. Qed.

Example i_exponent : PyNum.int_of_str (Str.u "1e5") = Raise ValueError.
Proof. vm_compute. reflexivity. Qed.

Example i_sign_only : PyNum.int_of_str (Str.u "+") = Raise ValueError.
Proof. vm_compute. reflexivity. Qed.

Example d_third : PyNum.int_truediv (-1) 3 = Ok (S754_finite true 6004799503160661 (-54)).
Proof. vm_compute. reflexivity. Qed.

Example d_exact : PyNum.int_truediv 50 1000 = Ok (S754_finite false 7205759403792794 (-57)).
Proof. vm_compute. reflexivity. Qed.

Example d_overflow : PyNum.int_truediv (10 ^ 400) 1 = Raise OverflowError.
Proof. vm_compute. reflexivity. Qed.

Example d_large : PyNum.int_truediv (10 ^ 400) (10 ^ 399) = Ok (S754_finite false 5629499534213120 (-49)).
Proof. vm_compute. reflexivity. Qed.

Example d_zero : PyNum.int_truediv 0 (-5) = Ok (S754_zero true).
Proof. vm_compute. reflexivity. Qed.

Example s_strip : Str.strip (Str.u "  £ 1 ") = Str.u "£ 1".
Proof. vm_compute. reflexivity. Qed.

Example s_replace : Str.replace (Str.u "Â£") [] (Str.u "Â£1,2Â£") = Str.u "1,2".
Proof. vm_compute. reflexivity. Qed.

Example s_replace_no_overlap : Str.replace (Str.u "aa") (Str.u "b") (Str.u "aaaaa") = Str.u "bba".
Proof. vm_compute. reflexivity. Qed.

Example s_pound : Str.u "£1" = [163%N; 49%N].
Proof. vm_compute. reflexivity. Qed.

(** [pd.to_numeric(..., errors='coerce')] does not remove a thousands
    separator: the cell becomes NaN. *)
Example n_plain : Pd.to_numeric_coerce (Pd.Text (Str.u "37.5")) = F64.f37_5.
Proof. vm_compute. reflexivity. Qed.

Example n_comma : Pd.to_numeric_coerce (Pd.Text (Str.u "1,234")) = F64.nan.
Proof. vm_compute. reflexivity. Qed.

Example n_empty : Pd.to_numeric_coerce (Pd.Text []) = F64.nan.
Proof. vm_compute. reflexivity. Qed.

Example n_infinity : Pd.to_numeric_coerce (Pd.Text (Str.u "-inf")) = S754_infinity true.
Proof. vm_compute. reflexivity. Qed.

(** The literals of [F64] are numbers of the format. *)
Example literals_valid :
  List.forallb F64.valid
    [ F64.f0_5; F64.f5; F64.f10; F64.f12_7; F64.f20; F64.f25; F64.f37_5; F64.f50;
      F64.f100; F64.f150; F64.f200; F64.f1000; F64.f1234_56 ] = true.
Proof. vm_compute. reflexivity. Qed.

Example literals_decimal :
  F64.of_decimal false 123456 (-2) = F64.f1234_56 /\
  F64.of_decimal false 127 (-1) = F64.f12_7 /\
  F64.of_decimal false 375 (-1) = F64.f37_5 /\
  F64.of_Z 100 = F64.f100 /\ F64.of_Z 150 = F64.f150 /\ F64.of_Z 1000 = F64.f1000.
Proof. vm_compute. repeat split. Qed.

End ModelChecks.

(** ** The derived metrics *)

Module MetricFacts.

Import FloatFacts BusinessReport.

#[local] Hint Constructors F64.signed : core.

Lemma mul_f100_signed x : F64.signed false x -> F64.signed false (F64.mul x F64.f100).
Proof.
  intros [| |m e]; try constructor.
  apply (mul_finite_signed false m e false).
Qed.

(** A positive float is the positive infinity or a positive number. *)
Lemma gtb_zero_inv s :
  F64.gtb s F64.zero = true ->
  s = F64.inf \/ exists m e, s = S754_finite false m e.
Proof.
  destruct s as [[]|[]| |[] m e]; try discriminate; eauto.
Qed.

Lemma leb_zero_inv u :
  F64.leb F64.zero u = true ->
  (exists b, u = S754_zero b) \/ u = F64.inf \/ exists m e, u = S754_finite false m e.
Proof.
  destruct u as [b|[]| |[] m e]; try discriminate; eauto.
Qed.

Lemma gtb_zero_of_eqb s : F64.eqb s F64.zero = true -> F64.gtb s F64.zero = false.
Proof. destruct s as [[]|[]| |[] m e]; try discriminate; reflexivity. Qed.

Lemma gtb_zero_of_nan s : F64.is_nan s = true -> F64.gtb s F64.zero = false.
Proof. destruct s; try discriminate; reflexivity. Qed.

(** The quotient of a non-negative by a positive float, times a hundred. *)
Lemma percent_nonneg s u :
  F64.gtb s F64.zero = true -> F64.leb F64.zero u = true ->
  let c := F64.mul (F64.div u s) F64.f100 in
  F64.ltb c F64.zero = false /\
  (F64.is_inf s && F64.is_inf u = false -> F64.leb F64.zero c = true).
Proof.
  intros Hs Hu.
  destruct (gtb_zero_inv s Hs) as [-> | (m & e & ->)];
    destruct (leb_zero_inv u Hu) as [[b ->] | [-> | (m' & e' & ->)]];
    cbv zeta.
  - destruct b; split; reflexivity.
  - split; [reflexivity | discriminate].
  - split; reflexivity.
  - destruct b; split; reflexivity.
  - split; reflexivity.
  - pose proof (mul_f100_signed _ (div_finite_signed false m' e' false m e)) as H.
    simpl xorb in H. split.
    + apply signed_false_not_neg, H.
    + intros _. apply leb_zero_signed, H.
Qed.

Lemma conversion_rate_nonneg s u :
  F64.leb F64.zero s = true -> F64.leb F64.zero u = true ->
  F64.ltb (conversion_rate_of s u) F64.zero = false /\
  (F64.is_inf s && F64.is_inf u = false ->
   F64.leb F64.zero (conversion_rate_of s u) = true).
Proof.
  intros Hs Hu. unfold conversion_rate_of, Pd.np_where.
  destruct (F64.gtb s F64.zero) eqn:G.
  - apply percent_nonneg; assumption.
  - split; reflexivity.
Qed.

Lemma in_calculate_derived_metrics q df out :
  In out (calculate_derived_metrics q df) ->
  conversion_rate out =
    conversion_rate_of (Frame.sessions_total (cols out)) (Frame.units_ordered (cols out)) /\
  avg_order_value out =
    avg_order_value_of (Frame.units_ordered (cols out)) (Frame.sales_total (cols out)) /\
  revenue_per_session out =
    revenue_per_session_of (Frame.sessions_total (cols out)) (Frame.sales_total (cols out)) /\
  In (info out) df.
Proof.
  unfold calculate_derived_metrics. intros H.
  apply in_map_iff in H. destruct H as (r & <- & Hr). simpl. auto.
Qed.

Lemma in_calculate_metrics cp ec df out :
  In out (NewReport.calculate_metrics cp ec df) ->
  NewReport.conversion_rate out =
    conversion_rate_of (Frame.sessions_total (NewReport.base out))
                       (Frame.units_ordered (NewReport.base out)) /\
  NewReport.avg_order_value out =
    avg_order_value_of (Frame.units_ordered (NewReport.base out))
                       (Frame.sales_total (NewReport.base out)) /\
  NewReport.revenue_per_session out =
    revenue_per_session_of (Frame.sessions_total (NewReport.base out))
                           (Frame.sales_total (NewReport.base out)).
Proof.
  unfold NewReport.calculate_metrics. intros H.
  apply in_map_iff in H. destruct H as (r & <- & Hr). simpl. auto.
Qed.

(** *** Finite results *)

Lemma at_least_one_gtb s : F64.at_least_one s = true -> F64.gtb s F64.zero = true.
Proof. destruct s as [|[]| |[] m e]; try discriminate; reflexivity. Qed.

(** A number below [2^1000] divided by a number that is at least [1]. *)
Lemma div_at_least_one x y :
  F64.at_least_one y = true -> F64.below 1000 x = true ->
  F64.within 1001 948 (F64.div x y).
Proof.
  intros Hy Hx.
  destruct y as [|[]| |[] my ey]; try discriminate.
  destruct x as [sx|sx| |sx mx ex]; try discriminate; [exact I|].
  cbn [F64.at_least_one F64.below] in Hy, Hx.
  apply Z.leb_le in Hy, Hx.
  apply (div_within sx mx ex false my ey 999); lia.
Qed.

Lemma f100_within : F64.within 7 (-46) F64.f100.
Proof. vm_compute. split; discriminate. Qed.

Lemma conversion_rate_finite s u :
  F64.at_least_one s = true -> F64.below 1000 u = true ->
  F64.is_finite (conversion_rate_of s u) = true.
Proof.
  intros Hs Hu. unfold conversion_rate_of, Pd.np_where.
  rewrite (at_least_one_gtb s Hs).
  apply (mul_within 1001 948 7 (-46)); try lia.
  - apply div_at_least_one; assumption.
  - apply f100_within.
Qed.

Lemma avg_order_value_finite u v :
  F64.at_least_one u = true -> F64.below 1000 v = true ->
  F64.is_finite (avg_order_value_of u v) = true.
Proof.
  intros Hu Hv. unfold avg_order_value_of, Pd.np_where.
  rewrite (at_least_one_gtb u Hu).
  apply (within_finite 1001 948), div_at_least_one; assumption.
Qed.

Lemma revenue_per_session_finite s v :
  F64.at_least_one s = true -> F64.below 1000 v = true ->
  F64.is_finite (revenue_per_session_of s v) = true.
Proof.
  intros Hs Hv. unfold revenue_per_session_of, Pd.np_where.
  rewrite (at_least_one_gtb s Hs).
  apply (within_finite 1001 948), div_at_least_one; assumption.
Qed.

(** *** NaN: never made by a guarded quotient, always passed on *)

Lemma div_not_nan x y :
  F64.gtb y F64.zero = true -> F64.is_finite x = true -> F64.is_nan (F64.div x y) = false.
Proof.
  intros Hy Hx.
  destruct (gtb_zero_inv y Hy) as [-> | (m & e & ->)];
    destruct x as [sx|sx| |sx mx ex]; try discriminate; try reflexivity.
  apply (signed_not_nan _ _ (div_finite_signed sx mx ex false m e)).
Qed.

Lemma percent_not_nan r : F64.is_nan r = false -> F64.is_nan (F64.mul r F64.f100) = false.
Proof.
  destruct r as [sr|sr| |sr mr er]; try discriminate; try reflexivity.
  intros _. apply (signed_not_nan _ _ (mul_finite_signed sr mr er false _ _)).
Qed.

End MetricFacts.

Module MetricProps.

Import BusinessReport.

(** C1.  In the frames of [calculate_derived_metrics] and of
    [calculate_metrics] every row carries the three guarded quotients of its
    own cells, and the guards are strict: the conversion rate is
    [(units / sessions) * 100] when [sessions > 0] and exactly [0] when
    [sessions == 0], whatever the units; the average order value is exactly
    [0] when [units == 0], whatever the sales; the revenue per session is
    exactly [0] when [sessions == 0]; and when [sessions >= 0] and
    [units >= 0] the conversion rate is never below zero: it is [>= 0],
    except that the quotient of two infinities is NaN. *)
Theorem derived_metric_guards :
  (forall q df out,
     In out (calculate_derived_metrics q df) ->
     conversion_rate out =
       conversion_rate_of (Frame.sessions_total (cols out)) (Frame.units_ordered (cols out)) /\
     avg_order_value out =
       avg_order_value_of (Frame.units_ordered (cols out)) (Frame.sales_total (cols out)) /\
     revenue_per_session out =
       revenue_per_session_of (Frame.sessions_total (cols out)) (Frame.sales_total (cols out))) /\
  (forall cp ec df out,
     In out (NewReport.calculate_metrics cp ec df) ->
     NewReport.conversion_rate out =
       conversion_rate_of (Frame.sessions_total (NewReport.base out))
                          (Frame.units_ordered (NewReport.base out)) /\
     NewReport.avg_order_value out =
       avg_order_value_of (Frame.units_ordered (NewReport.base out))
                          (Frame.sales_total (NewReport.base out)) /\
     NewReport.revenue_per_session out =
       revenue_per_session_of (Frame.sessions_total (NewReport.base out))
                              (Frame.sales_total (NewReport.base out))) /\
  (forall sessions units sales,
     (F64.gtb sessions F64.zero = true ->
      conversion_rate_of sessions units = F64.mul (F64.div units sessions) F64.f100) /\
     (F64.eqb sessions F64.zero = true ->
      conversion_rate_of sessions units = F64.zero /\
      revenue_per_session_of sessions sales = F64.zero) /\
     (F64.eqb units F64.zero = true ->
      avg_order_value_of units sales = F64.zero) /\
     (F64.geb sessions F64.zero = true -> F64.geb units F64.zero = true ->
      F64.ltb (conversion_rate_of sessions units) F64.zero = false /\
      (F64.is_inf sessions && F64.is_inf units = false ->
       F64.geb (conversion_rate_of sessions units) F64.zero = true))).
Proof.
  split; [| split].
  - intros q df out H. destruct (MetricFacts.in_calculate_derived_metrics q df out H) as (? & ? & ? & _).
    auto.
  - intros cp ec df out H. apply (MetricFacts.in_calculate_metrics cp ec df out H).
  - intros s u v.
    split; [| split; [| split]].
    + intros G. unfold conversion_rate_of, Pd.np_where. rewrite G. reflexivity.
    + intros Z.
      unfold conversion_rate_of, revenue_per_session_of, Pd.np_where.
      rewrite (MetricFacts.gtb_zero_of_eqb s Z). split; reflexivity.
    + intros Z. unfold avg_order_value_of, Pd.np_where.
      rewrite (MetricFacts.gtb_zero_of_eqb u Z). reflexivity.
    + intros Hs Hu. apply MetricFacts.conversion_rate_nonneg; assumption.
Qed.

(** The record of the specification (200 sessions, 50 units, sales of
    1000.00 give 25.0, 20.0 and 5.0) and a row without sessions and
    units, in the frames of the two scripts. *)
Lemma derived_metric_guards_witness :
  List.map (fun r => (conversion_rate r, avg_order_value r, revenue_per_session r))
    (calculate_derived_metrics Examples.quantile75 Examples.sku_frame)
  = [ (F64.f25, F64.f20, F64.f5); (F64.zero, F64.zero, F64.zero) ] /\
  List.map (fun r => (NewReport.conversion_rate r, NewReport.avg_order_value r,
                      NewReport.revenue_per_session r))
    (NewReport.calculate_metrics Examples.contains_prime Examples.extract_category
       Examples.clean_frame)
  = [ (F64.f25, F64.f20, F64.f5); (F64.zero, F64.zero, F64.zero) ] /\
  conversion_rate_of F64.f200 F64.f50 = F64.f25 /\
  conversion_rate_of F64.zero F64.f50 = F64.zero /\
  revenue_per_session_of F64.zero F64.f1000 = F64.zero /\
  avg_order_value_of F64.zero F64.f1000 = F64.zero /\
  F64.geb (conversion_rate_of F64.f200 F64.f50) F64.zero = true.
Proof.
  destruct derived_metric_guards as (B & N & G).
  destruct (G F64.f200 F64.f50 F64.f1000) as (G1 & _ & _ & G4).
  destruct (G F64.zero F64.f50 F64.f1000) as (_ & G2 & _ & _).
  destruct (G F64.f200 F64.zero F64.f1000) as (_ & _ & G3 & _).
  split; [| split; [| split; [| split; [| split; [| split]]]]].
  - destruct (calculate_derived_metrics Examples.quantile75 Examples.sku_frame)
      as [|out rest] eqn:E; [vm_compute in E; discriminate|].
    destruct (B Examples.quantile75 Examples.sku_frame out) as (Bc & Ba & Br).
    { rewrite E. left. reflexivity. }
    vm_compute in E. injection E as <- <-. vm_compute. reflexivity.
  - destruct (NewReport.calculate_metrics Examples.contains_prime Examples.extract_category
                Examples.clean_frame) as [|out rest] eqn:E; [vm_compute in E; discriminate|].
    destruct (N Examples.contains_prime Examples.extract_category Examples.clean_frame out)
      as (Nc & Na & Nr).
    { rewrite E. left. reflexivity. }
    vm_compute in E. injection E as <- <-. vm_compute. reflexivity.
  - rewrite (G1 eq_refl). vm_compute. reflexivity.
  - apply (G2 eq_refl).
  - apply (G2 eq_refl).
  - apply (G3 eq_refl).
  - apply (G4 eq_refl eq_refl). reflexivity.
Defined.

End MetricProps.

(** ** The frame of [main] and the data-quality report *)

Module ReportFacts.

Import FloatFacts MetricFacts BusinessReport.






(** The issues of each kind, read off the list that the function builds. *)
Lemma issues_out_of_range df :
  List.filter (is_kind OutOfRange) (identify_data_quality_issues df) =
  (if List.existsb (fun r => F64.gtb (Frame.buy_box_percentage (cols r)) F64.f100) df
   then [BuyBoxAbove100] else [])
  ++ (if List.existsb (fun r => F64.gtb (conversion_rate r) F64.f100) df
      then [ConversionAbove100] else []).
Proof.
  unfold identify_data_quality_issues, negative_checks.
  cbn [List.fold_left fst snd].
  repeat match goal with
         | |- context [if ?c then _ else _] => destruct c
         end; reflexivity.
Qed.


Section Pipeline.

Variable quantile75 : list F64.float -> F64.float.
Variable contains_prime : Str.str -> bool.
Variable remove_prime_suffix : Str.str -> Str.str.
Variable extract_category : Str.str -> Pd.objcell.

Let run := main quantile75 contains_prime remove_prime_suffix extract_category.

Lemma main_issues df : snd (run df) = identify_data_quality_issues (fst (run df)).
Proof. reflexivity. Qed.


(** Row [i] of the frame is computed from row [i] of the input. *)
Lemma main_nth df i raw :
  nth_error df i = Some raw ->
  exists out,
    nth_error (fst (run df)) i = Some out /\
    cols out = cleaned raw /\
    conversion_rate out =
      conversion_rate_of (Frame.sessions_total (cols out)) (Frame.units_ordered (cols out)) /\
    avg_order_value out =
      avg_order_value_of (Frame.units_ordered (cols out)) (Frame.sales_total (cols out)) /\
    revenue_per_session out =
      revenue_per_session_of (Frame.sessions_total (cols out)) (Frame.sales_total (cols out)) /\
    buy_box_win_rate out = Frame.buy_box_percentage (cols out).
Proof.
  intros H. unfold run, main, calculate_derived_metrics, extract_sku_info,
    clean_numeric_columns, clean_currency_columns, clean_percentage_columns.
  unfold RawRow in *.
  cbn [fst]. rewrite !nth_error_map, H. cbn [option_map].
  eexists. split; [reflexivity|]. cbn. auto 6.
Qed.


End Pipeline.

End ReportFacts.

(** ** Claims about [analyze_business_report.py] *)

Module ReportProps.

Import FloatFacts MetricFacts ReportFacts BusinessReport.

Section Pipeline.

Variable quantile75 : list F64.float -> F64.float.
Variable contains_prime : Str.str -> bool.
Variable remove_prime_suffix : Str.str -> Str.str.
Variable extract_category : Str.str -> Pd.objcell.

Let run := main quantile75 contains_prime remove_prime_suffix extract_category.

(** C10.  A row whose sessions cell is NaN after [clean_numeric_columns]
    has conversion rate and revenue per session [0], and a row whose units
    cell is NaN has average order value [0]; the NaN guard selects the very
    branch that a zero selects, so that the derived cells are those of a
    row without sessions (or without units). *)
Theorem missing_traffic_reads_as_zero :
  forall (df : list RawRow) i raw,
    nth_error df i = Some raw ->
    exists out,
      nth_error (fst (run df)) i = Some out /\
      Frame.sessions_total (cols out) = clean_numeric (Frame.sessions_total raw) /\
      Frame.units_ordered (cols out) = clean_numeric (Frame.units_ordered raw) /\
      (F64.is_nan (clean_numeric (Frame.sessions_total raw)) = true ->
       F64.gtb (Frame.sessions_total (cols out)) F64.zero = false /\
       conversion_rate out = F64.zero /\
       revenue_per_session out = F64.zero /\
       conversion_rate out = conversion_rate_of F64.zero (Frame.units_ordered (cols out)) /\
       revenue_per_session out = revenue_per_session_of F64.zero (Frame.sales_total (cols out))) /\
      (F64.is_nan (clean_numeric (Frame.units_ordered raw)) = true ->
       F64.gtb (Frame.units_ordered (cols out)) F64.zero = false /\
       avg_order_value out = F64.zero /\
       avg_order_value out = avg_order_value_of F64.zero (Frame.sales_total (cols out))).
Proof.
  intros df i raw H.
  destruct (main_nth quantile75 contains_prime remove_prime_suffix extract_category df i raw H)
    as (out & Ho & Hc & H1 & H2 & H3 & _).
  exists out. split; [exact Ho|].
  rewrite H1, H2, H3, Hc. cbn [Frame.sessions_total Frame.units_ordered Frame.sales_total Frame.assign cleaned].
  split; [reflexivity|]. split; [reflexivity|].
  split; intros Hn.
  - pose proof (gtb_zero_of_nan _ Hn) as G.
    unfold conversion_rate_of, revenue_per_session_of, Pd.np_where. rewrite G. auto.
  - pose proof (gtb_zero_of_nan _ Hn) as G.
    unfold avg_order_value_of, Pd.np_where. rewrite G. auto.
Qed.

(** C6.  In the frame of [main] a derived cell is exactly [0] whenever
    its denominator cell is not positive: zero, negative, or NaN because
    the input cell was missing or unparseable.  Under a denominator of at
    least [1] and a numerator that is a number below [2^1000] in magnitude
    it is a finite number.  Under any positive denominator it is not NaN
    when the numerator is a number, and it is NaN when the numerator cell
    is NaN. *)
Theorem derived_metrics_finite_when_numbers :
  forall (df : list RawRow) i raw,
    nth_error df i = Some raw ->
    exists out,
      nth_error (fst (run df)) i = Some out /\
      let s := clean_numeric (Frame.sessions_total raw) in
      let u := clean_numeric (Frame.units_ordered raw) in
      let v := clean_currency (Frame.sales_total raw) in
      (F64.gtb s F64.zero = false ->
       conversion_rate out = F64.zero /\ revenue_per_session out = F64.zero) /\
      (F64.gtb u F64.zero = false -> avg_order_value out = F64.zero) /\
      (F64.at_least_one s = true -> F64.below 1000 u = true ->
       F64.is_finite (conversion_rate out) = true) /\
      (F64.at_least_one u = true -> F64.below 1000 v = true ->
       F64.is_finite (avg_order_value out) = true) /\
      (F64.at_least_one s = true -> F64.below 1000 v = true ->
       F64.is_finite (revenue_per_session out) = true) /\
      (F64.gtb s F64.zero = true -> F64.is_finite u = true ->
       F64.is_nan (conversion_rate out) = false) /\
      (F64.gtb u F64.zero = true -> F64.is_finite v = true ->
       F64.is_nan (avg_order_value out) = false) /\
      (F64.gtb s F64.zero = true -> F64.is_finite v = true ->
       F64.is_nan (revenue_per_session out) = false) /\
      (F64.gtb s F64.zero = true -> F64.is_nan u = true ->
       F64.is_nan (conversion_rate out) = true) /\
      (F64.gtb u F64.zero = true -> F64.is_nan v = true ->
       F64.is_nan (avg_order_value out) = true) /\
      (F64.gtb s F64.zero = true -> F64.is_nan v = true ->
       F64.is_nan (revenue_per_session out) = true).
Proof.
  intros df i raw H.
  destruct (main_nth quantile75 contains_prime remove_prime_suffix extract_category df i raw H)
    as (out & Ho & Hc & H1 & H2 & H3 & _).
  exists out. split; [exact Ho|].
  rewrite H1, H2, H3, Hc.
  cbn [Frame.sessions_total Frame.units_ordered Frame.sales_total Frame.assign cleaned].
  cbv zeta.
  set (s := clean_numeric (Frame.sessions_total raw)).
  set (u := clean_numeric (Frame.units_ordered raw)).
  set (v := clean_currency (Frame.sales_total raw)).
  split; [| split; [| split; [| split; [| split; [| split; [| split; [| split; [| split;
    [| split]]]]]]]]].
  - intros G. unfold conversion_rate_of, revenue_per_session_of, Pd.np_where.
    rewrite G. split; reflexivity.
  - intros G. unfold avg_order_value_of, Pd.np_where. rewrite G. reflexivity.
  - apply conversion_rate_finite.
  - apply avg_order_value_finite.
  - apply revenue_per_session_finite.
  - intros G F. unfold conversion_rate_of, Pd.np_where. rewrite G.
    apply percent_not_nan, div_not_nan; assumption.
  - intros G F. unfold avg_order_value_of, Pd.np_where. rewrite G.
    apply div_not_nan; assumption.
  - intros G F. unfold revenue_per_session_of, Pd.np_where. rewrite G.
    apply div_not_nan; assumption.
  - intros G F. unfold conversion_rate_of, Pd.np_where. rewrite G.
    destruct u; try discriminate. reflexivity.
  - intros G F. unfold avg_order_value_of, Pd.np_where. rewrite G.
    destruct v; try discriminate. reflexivity.
  - intros G F. unfold revenue_per_session_of, Pd.np_where. rewrite G.
    destruct v; try discriminate. reflexivity.
Qed.

End Pipeline.

(** A row whose sessions cell reads ["n/a"], and a row without units. *)
Lemma missing_traffic_reads_as_zero_witness :
  let df := [ Examples.report_row "SKU-1" "n/a" "50" "£1,000.00" "90%";
              Examples.report_row "SKU-2" "40" "" "£9.00" "80%" ] in
  List.map (fun r => (conversion_rate r, revenue_per_session r)) (fst (Examples.run_main df))
    = [ (F64.zero, F64.zero);
        (F64.nan, S754_finite false 8106479329266893 (-55)) ] /\
  List.map avg_order_value (fst (Examples.run_main df))
    = [ F64.f20; F64.zero ].
Proof.
  intros df.
  destruct (missing_traffic_reads_as_zero
              Examples.quantile75 Examples.contains_prime Examples.remove_prime_suffix
              Examples.extract_category df 0%nat _ eq_refl)
    as (out0 & H0 & _ & _ & Hs & _).
  destruct (missing_traffic_reads_as_zero
              Examples.quantile75 Examples.contains_prime Examples.remove_prime_suffix
              Examples.extract_category df 1%nat _ eq_refl)
    as (out1 & H1 & _ & _ & _ & Hu).
  destruct (Hs eq_refl) as (_ & Hc & Hr & _).
  destruct (Hu eq_refl) as (_ & Ha & _).
  split; vm_compute; reflexivity.
Defined.

(** The record of the specification (200 sessions, 50 units, sales of
    1000.00), a row without sessions, and a row whose sales cell is
    empty. *)
Lemma derived_metrics_finite_when_numbers_witness :
  let df := [ Examples.report_row "SKU-1" "200" "50" "£1,000.00" "90%";
              Examples.report_row "SKU-2" "0" "0" "£0.00" "80%";
              Examples.report_row "SKU-3" "10" "2" "" "70%" ] in
  List.map (fun r => F64.is_finite (conversion_rate r)
                     && F64.is_finite (avg_order_value r)
                     && F64.is_finite (revenue_per_session r))
    (fst (Examples.run_main df)) = [true; true; false] /\
  List.map (fun r => (conversion_rate r, avg_order_value r, revenue_per_session r))
    (fst (Examples.run_main df))
  = [ (F64.f25, F64.f20, F64.f5);
      (F64.zero, F64.zero, F64.zero);
      (F64.f20, F64.nan, F64.nan) ].
Proof.
  intros df.
  destruct (derived_metrics_finite_when_numbers
              Examples.quantile75 Examples.contains_prime Examples.remove_prime_suffix
              Examples.extract_category df 0%nat _ eq_refl)
    as (out0 & H0 & _ & _ & Hc & Ha & Hr & Hcn & Han & Hrn & _).
  destruct (derived_metrics_finite_when_numbers
              Examples.quantile75 Examples.contains_prime Examples.remove_prime_suffix
              Examples.extract_category df 1%nat _ eq_refl)
    as (out1 & H1 & Hz & Hza & _).
  destruct (derived_metrics_finite_when_numbers
              Examples.quantile75 Examples.contains_prime Examples.remove_prime_suffix
              Examples.extract_category df 2%nat _ eq_refl)
    as (out2 & H2 & _ & _ & _ & _ & _ & _ & _ & _ & _ & Hna & Hnr).
  pose proof (Hc eq_refl eq_refl) as F1.
  pose proof (Ha eq_refl eq_refl) as F2.
  pose proof (Hr eq_refl eq_refl) as F3.
  pose proof (Hcn eq_refl eq_refl) as F4.
  pose proof (Han eq_refl eq_refl) as F5.
  pose proof (Hrn eq_refl eq_refl) as F6.
  pose proof (Hz eq_refl) as F7.
  pose proof (Hza eq_refl) as F8.
  pose proof (Hna eq_refl eq_refl) as F9.
  pose proof (Hnr eq_refl eq_refl) as F10.
  split; vm_compute; reflexivity.
Defined.

(** C6, as stated, fails: with two units and ten sessions, an empty sales
    cell gives an average order value and a revenue per session that are
    NaN. *)
Lemma missing_sales_gives_nan :
  List.map (fun r => (F64.is_finite (conversion_rate r),
                      F64.is_finite (avg_order_value r),
                      F64.is_finite (revenue_per_session r)))
    (fst (Examples.run_main [ Examples.report_row "SKU-3" "10" "2" "" "70%" ]))
  = [ (true, false, false) ].
Proof. vm_compute. reflexivity. Qed.

End ReportProps.

(** ** The cell parsers *)

Module ParserFacts.

Import Py PyNum.

Lemma float_of_str_raises s e : PyNum.float_of_str s = Raise e -> e = ValueError.
Proof.
  unfold PyNum.float_of_str.
  destruct (PyNum.drop_underscores _ _) as [a|]; [|congruence].
  destruct (PyNum.scan_decimal _) as [[[neg m] x]|]; [discriminate|].
  destruct (PyNum.scan_inf_nan _); [discriminate | congruence].
Qed.

Lemma int_of_str_raises s e : PyNum.int_of_str s = Raise e -> e = ValueError.
Proof.
  unfold PyNum.int_of_str.
  destruct (PyNum.take_sign _) as [neg d].
  destruct d as [|c d]; [congruence|].
  destruct (Str.isdigit_ascii c); [|congruence].
  destruct (PyNum.scan_int_digits _ _ _ _) as [[v n]|]; [|congruence].
  destruct (_ <? _)%nat; [congruence | discriminate].
Qed.

(** A [try] whose handler returns, under an [except] that matches what
    the body can raise, returns. *)
Lemma try_except_returns {A} (body : result A) catches (d : A) :
  (forall e, body = Raise e -> catches e = true) ->
  try_except body catches (Ok d) = match body with Ok a => Ok a | Raise _ => Ok d end.
Proof.
  intros H. unfold try_except. destruct body as [a|e]; [reflexivity|].
  rewrite (H e eq_refl). reflexivity.
Qed.

(** *** Characters that [int] rejects wherever they stand *)

Lemma scan_int_digits_rejects c : rejected c ->
  forall s acc n us, In c s -> PyNum.scan_int_digits s acc n us = None.
Proof.
  intros (Hd & _ & Hu & _) s. induction s as [|a s IH]; intros acc n us Hin; [destruct Hin|].
  simpl. destruct Hin as [-> | Hin].
  - rewrite Hd. apply N.eqb_neq in Hu. rewrite Hu. reflexivity.
  - destruct (Str.isdigit_ascii a); [apply IH, Hin|].
    destruct (a =? 95)%N; [|reflexivity].
    destruct us; [reflexivity | apply IH, Hin].
Qed.

Lemma lstrip_ascii_keeps c : Str.isspace_ascii c = false ->
  forall s, In c s -> In c (Pd.lstrip_ascii s).
Proof.
  intros Hc s. induction s as [|a s IH]; intros Hin; [destruct Hin|].
  simpl. destruct (Str.isspace_ascii a) eqn:Ha; [|exact Hin].
  destruct Hin as [-> | Hin]; [congruence | apply IH, Hin].
Qed.

Lemma strip_ascii_keeps c s : Str.isspace_ascii c = false ->
  In c s -> In c (PyNum.strip_ascii s).
Proof.
  intros Hc Hin. unfold PyNum.strip_ascii.
  change (In c (rev (Pd.lstrip_ascii (rev (Pd.lstrip_ascii s))))).
  rewrite <- in_rev. apply lstrip_ascii_keeps; [exact Hc|].
  rewrite <- in_rev. apply lstrip_ascii_keeps; assumption.
Qed.

Lemma lstrip_keeps c : Str.isspace c = false ->
  forall s, In c s -> In c (Str.lstrip s).
Proof.
  intros Hc s. induction s as [|a s IH]; intros Hin; [destruct Hin|].
  simpl. destruct (Str.isspace a) eqn:Ha; [|exact Hin].
  destruct Hin as [-> | Hin]; [congruence | apply IH, Hin].
Qed.

Lemma strip_keeps c s : Str.isspace c = false -> In c s -> In c (Str.strip s).
Proof.
  intros Hc Hin. unfold Str.strip, Str.rstrip.
  rewrite <- in_rev. apply lstrip_keeps; [exact Hc|].
  rewrite <- in_rev. apply lstrip_keeps; assumption.
Qed.

Lemma take_sign_keeps c s : c <> 43%N -> c <> 45%N ->
  In c s -> In c (snd (PyNum.take_sign s)).
Proof.
  intros Hp Hm Hin. unfold PyNum.take_sign.
  destruct s as [|a s]; [destruct Hin|].
  destruct (N.eq_dec a 45%N) as [-> | Ha].
  - simpl. destruct Hin; [congruence | assumption].
  - destruct (N.eq_dec a 43%N) as [-> | Hb].
    + simpl. destruct Hin; [congruence | assumption].
    + assert (E : PyNum.take_sign (a :: s) = (false, a :: s)).
      { unfold PyNum.take_sign.
        destruct a as [|p]; [reflexivity|].
        do 6 (destruct p as [p|p|]; try reflexivity); congruence. }
      unfold PyNum.take_sign in E. rewrite E. exact Hin.
Qed.

(** The point survives the transformation to ASCII, or the text is cut at
    a question mark. *)
Lemma to_ascii_point s :
  In 46%N s -> In 46%N (PyNum.to_ascii s) \/ In 63%N (PyNum.to_ascii s).
Proof.
  intros Hin. unfold PyNum.to_ascii.
  destruct (List.forallb _ s); [left; exact Hin|].
  induction s as [|a s IH]; [destruct Hin|].
  simpl. destruct (a <? 127)%N eqn:Ha.
  - destruct Hin as [-> | Hin]; [left; left; reflexivity|].
    destruct (IH Hin) as [H | H]; [left | right]; right; exact H.
  - destruct Hin as [-> | Hin]; [discriminate|].
    destruct (Str.isspace a).
    + destruct (IH Hin) as [H | H]; [left | right]; right; exact H.
    + destruct (Str.todecimal a).
      * destruct (IH Hin) as [H | H]; [left | right]; right; exact H.
      * right. left. reflexivity.
Qed.

Lemma int_of_str_rejects c s : rejected c ->
  In c (PyNum.to_ascii s) -> PyNum.int_of_str s = Raise ValueError.
Proof.
  intros Hr Hin. pose proof Hr as (Hd & Hs & Hu & Hp & Hm).
  unfold PyNum.int_of_str.
  pose proof (take_sign_keeps c _ Hp Hm (strip_ascii_keeps c _ Hs Hin)) as Hk.
  destruct (PyNum.take_sign _) as [neg d]. simpl in Hk.
  destruct d as [|a d]; [reflexivity|].
  destruct (Str.isdigit_ascii a); [|reflexivity].
  rewrite (scan_int_digits_rejects c Hr _ _ _ _ Hk). reflexivity.
Qed.

Lemma rejected_point : rejected 46%N.
Proof. repeat split; congruence. Qed.

Lemma rejected_question_mark : rejected 63%N.
Proof. repeat split; congruence. Qed.

(** [int] raises on any text with a decimal point. *)
Lemma int_of_str_point s : In 46%N s -> PyNum.int_of_str s = Raise ValueError.
Proof.
  intros Hin. destruct (to_ascii_point s Hin) as [H | H].
  - apply (int_of_str_rejects 46%N); [apply rejected_point | exact H].
  - apply (int_of_str_rejects 63%N); [apply rejected_question_mark | exact H].
Qed.

Lemma re_sub_class_keeps c class s :
  List.existsb (N.eqb c) class = false -> In c s -> In c (Str.re_sub_class class s).
Proof.
  intros Hc Hin. unfold Str.re_sub_class. apply filter_In. split; [exact Hin|].
  rewrite Hc. reflexivity.
Qed.

(** *** The parsers return *)

Lemma parse_currency_returns s : exists v, BestSellers.parse_currency s = Ok v.
Proof.
  unfold BestSellers.parse_currency.
  destruct (_ || _); [eauto|].
  destruct (PyNum.float_of_str _); simpl; eauto.
Qed.

Lemma parse_number_returns s : exists n, BestSellers.parse_number s = Ok n.
Proof.
  unfold BestSellers.parse_number.
  destruct (_ || _); [eauto|].
  destruct (PyNum.int_of_str _); simpl; eauto.
Qed.

Lemma weekly_parse_currency_returns c : exists v, WeeklySales.parse_currency c = Ok v.
Proof.
  destruct c as [s|]; simpl; [|eauto].
  destruct (Str.eqb s []); [eauto|].
  rewrite try_except_returns by (intros e He; rewrite (float_of_str_raises _ _ He); reflexivity).
  destruct (PyNum.float_of_str _); eauto.
Qed.

Lemma weekly_parse_percentage_returns c : exists v, WeeklySales.parse_percentage c = Ok v.
Proof.
  destruct c as [s|]; simpl; [|eauto].
  destruct (Str.eqb s []); [eauto|].
  rewrite try_except_returns by (intros e He; rewrite (float_of_str_raises _ _ He); reflexivity).
  destruct (PyNum.float_of_str _); eauto.
Qed.

End ParserFacts.

Module ParserProps.

Import Py ParserFacts.

(** C2.  The scalar parsers return on every string and on the missing
    cell: they never raise, and whenever [float] or [int] rejects the text
    that is left after stripping, the result is the default, [0.0] for a
    currency or a percentage and [0] for a count. *)
Theorem scalar_parsers_never_raise :
  (forall s, exists v, BestSellers.parse_currency s = Ok v) /\
  (forall s, exists n, BestSellers.parse_number s = Ok n) /\
  (forall c, exists v, WeeklySales.parse_currency c = Ok v) /\
  (forall c, exists v, WeeklySales.parse_percentage c = Ok v) /\
  (forall s e,
     PyNum.float_of_str (Str.re_sub_class [163%N; 44%N] (Str.strip s)) = Raise e ->
     BestSellers.parse_currency s = Ok F64.zero) /\
  (forall s e,
     PyNum.int_of_str (Str.re_sub_class [44%N] (Str.strip s)) = Raise e ->
     BestSellers.parse_number s = Ok 0%Z) /\
  (forall s e,
     PyNum.float_of_str
       (Str.strip (Str.replace (Str.u ",") [] (Str.replace WeeklySales.currency_symbol [] s)))
       = Raise e ->
     WeeklySales.parse_currency (Some s) = Ok F64.zero) /\
  (forall s e,
     PyNum.float_of_str (Str.strip (Str.replace (Str.u "%") [] s)) = Raise e ->
     WeeklySales.parse_percentage (Some s) = Ok F64.zero).
Proof.
  repeat split.
  - apply parse_currency_returns.
  - apply parse_number_returns.
  - apply weekly_parse_currency_returns.
  - apply weekly_parse_percentage_returns.
  - intros s e H. unfold BestSellers.parse_currency.
    destruct (_ || _); [reflexivity|]. rewrite H. reflexivity.
  - intros s e H. unfold BestSellers.parse_number.
    destruct (_ || _); [reflexivity|]. rewrite H. reflexivity.
  - intros s e H. simpl. destruct (Str.eqb s []); [reflexivity|].
    rewrite H, (float_of_str_raises _ _ H). reflexivity.
  - intros s e H. simpl. destruct (Str.eqb s []); [reflexivity|].
    rewrite H, (float_of_str_raises _ _ H). reflexivity.
Qed.

(** Stray letters after the amount, in each parser. *)
Lemma scalar_parsers_never_raise_witness :
  BestSellers.parse_currency (Str.u "£12.50 GBP") = Ok F64.zero /\
  BestSellers.parse_number (Str.u "1,2x4") = Ok 0%Z /\
  WeeklySales.parse_currency (Some (Str.u "12.50 GBP")) = Ok F64.zero /\
  WeeklySales.parse_percentage (Some (Str.u "n/a")) = Ok F64.zero.
Proof.
  destruct scalar_parsers_never_raise as (_ & _ & _ & _ & H1 & H2 & H3 & H4).
  split; [| split; [| split]].
  - apply (H1 _ ValueError). vm_compute. reflexivity.
  - apply (H2 _ ValueError). vm_compute. reflexivity.
  - apply (H3 _ ValueError). vm_compute. reflexivity.
  - apply (H4 _ ValueError). vm_compute. reflexivity.
Defined.

(** C2, as stated, fails on [load_and_clean_data] of
    [enhanced_traffic_conversion_analysis.py]: one cell of text that is
    not a number stops the cleaning of the whole frame with a
    [ValueError]. *)
Lemma malformed_cell_aborts_astype_float :
  EnhancedTraffic.clean_sales (Some (Str.u "£12.50 GBP")) = Raise ValueError /\
  EnhancedTraffic.clean_numeric_columns
    [ {| EnhancedTraffic.raw_sessions := Some (Str.u "1,000");
         EnhancedTraffic.raw_units := Some (Str.u "50");
         EnhancedTraffic.raw_sales := Some (Str.u "£500.00") |};
      {| EnhancedTraffic.raw_sessions := Some (Str.u "200");
         EnhancedTraffic.raw_units := Some (Str.u "5");
         EnhancedTraffic.raw_sales := Some (Str.u "£12.50 GBP") |} ]
  = Raise ValueError.
Proof. split; vm_compute; reflexivity. Qed.

(** C3.  [parse_currency] of [analyze-best-sellers.py] maps ["£1,234.56"]
    to [1234.56], the empty string to [0.0] and ["£-50.00"] to [-50.0].
    [parse_currency] of [weekly-sales-comparison.py] removes the two
    characters ["Â£"] instead of the pound sign: it maps the empty string
    to [0.0], but ["£1,234.56"] and ["£-50.00"] to [0.0] as well, and gives
    [1234.56] only for ["Â£1,234.56"]. *)
Theorem parse_currency_examples :
  BestSellers.parse_currency (Str.u "£1,234.56") = Ok F64.f1234_56 /\
  BestSellers.parse_currency (Str.u "") = Ok F64.zero /\
  BestSellers.parse_currency (Str.u "£-50.00") = Ok (SFopp F64.f50) /\
  WeeklySales.parse_currency (Some (Str.u "")) = Ok F64.zero /\
  WeeklySales.parse_currency (Some (Str.u "£1,234.56")) = Ok F64.zero /\
  WeeklySales.parse_currency (Some (Str.u "£-50.00")) = Ok F64.zero /\
  WeeklySales.parse_currency (Some (Str.u "Â£1,234.56")) = Ok F64.f1234_56.
Proof. repeat split; vm_compute; reflexivity. Qed.

(** C4.  The percentage cleaning of [analyze_business_report.py] maps
    ["37.5%"] to [37.5] and the empty text, the missing cell and the text
    ["nan"] to NaN, the missing marker, which is not [0.0];
    [parse_percentage] of [weekly-sales-comparison.py] maps ["37.5%"] to
    [37.5] too, but the empty text and the missing cell to [0.0]. *)
Theorem parse_percentage_examples :
  BusinessReport.clean_percentage (Some (Str.u "37.5%")) = F64.f37_5 /\
  BusinessReport.clean_percentage (Some (Str.u "")) = F64.nan /\
  BusinessReport.clean_percentage None = F64.nan /\
  BusinessReport.clean_percentage (Some (Str.u "nan")) = F64.nan /\
  F64.nan <> F64.zero /\
  F64.eqb F64.nan F64.zero = false /\
  WeeklySales.parse_percentage (Some (Str.u "37.5%")) = Ok F64.f37_5 /\
  WeeklySales.parse_percentage (Some (Str.u "")) = Ok F64.zero /\
  WeeklySales.parse_percentage None = Ok F64.zero.
Proof. repeat split; try (vm_compute; reflexivity). discriminate. Qed.

(** C4, as stated, fails on [parse_percentage] of
    [weekly-sales-comparison.py]: the empty text and the missing cell give
    [0.0], which is not missing. *)
Lemma parse_percentage_empty_is_zero :
  WeeklySales.parse_percentage (Some (Str.u "")) = Ok F64.zero /\
  WeeklySales.parse_percentage None = Ok F64.zero /\
  F64.is_nan F64.zero = false.
Proof. repeat split. Qed.

(** C5.  [parse_number] removes the thousands separators, returns [0]
    for the empty string, and returns [0] as well, without raising, for
    any text with a decimal point: ["12.7"] gives [0]. *)
Theorem parse_number_examples :
  BestSellers.parse_number (Str.u "1,234") = Ok 1234%Z /\
  BestSellers.parse_number (Str.u "") = Ok 0%Z /\
  BestSellers.parse_number (Str.u "12.7") = Ok 0%Z /\
  (forall s, exists n, BestSellers.parse_number s = Ok n) /\
  (forall s, In 46%N s -> BestSellers.parse_number s = Ok 0%Z).
Proof.
  split; [vm_compute; reflexivity|].
  split; [vm_compute; reflexivity|].
  split; [vm_compute; reflexivity|].
  split; [apply parse_number_returns|].
  intros s Hin. unfold BestSellers.parse_number.
  destruct (_ || _); [reflexivity|].
  rewrite int_of_str_point; [reflexivity|].
  apply re_sub_class_keeps; [reflexivity|].
  apply strip_keeps; [reflexivity | exact Hin].
Qed.

Lemma parse_number_examples_witness :
  BestSellers.parse_number (Str.u "-3.0") = Ok 0%Z.
Proof.
  destruct parse_number_examples as (_ & _ & _ & _ & H).
  apply H. vm_compute. right. right. left. reflexivity.
Defined.

(** C5, as stated, fails: ["12.7"] gives [0], not [12]. *)
Lemma parse_number_does_not_truncate :
  BestSellers.parse_number (Str.u "12.7") = Ok 0%Z /\
  BestSellers.parse_number (Str.u "12.7") <> Ok 12%Z.
Proof. split; [vm_compute; reflexivity | vm_compute; discriminate]. Qed.

End ParserProps.

(** ** The row loop of [analyze-best-sellers.py] *)

Module RowFacts.

Import Py FloatFacts ParserFacts BestSellers.

Local Open Scope Z_scope.

Lemma totals_returns row : exists t, totals row = Ok t.
Proof.
  unfold totals.
  destruct (parse_number_returns (get row (Str.u "Units ordered") (Str.u "0"))) as [a ->].
  destruct (parse_number_returns (get row (Str.u "Units ordered – B2B") (Str.u "0"))) as [b ->].
  destruct (parse_number_returns (get row (Str.u "Sessions – Total") (Str.u "0"))) as [c ->].
  destruct (parse_number_returns (get row (Str.u "Sessions – Total – B2B") (Str.u "0"))) as [d ->].
  simpl. eauto.
Qed.

(** A skipped row contributes nothing and raises nothing. *)
Lemma process_row_skipped row : skipped row = true -> process_row row = Ok None.
Proof.
  unfold skipped, process_row. intros H.
  destruct (parse_number_returns (get row (Str.u "Units ordered") (Str.u "0"))) as [a ->].
  destruct (parse_number_returns (get row (Str.u "Units ordered – B2B") (Str.u "0"))) as [b ->].
  destruct (parse_currency_returns (get row (Str.u "Ordered Product Sales") (Str.u "£0"))) as [v ->].
  destruct (parse_currency_returns (get row (Str.u "Ordered product sales – B2B") (Str.u "£0"))) as [w ->].
  destruct (parse_number_returns (get row (Str.u "Sessions – Total") (Str.u "0"))) as [c ->].
  destruct (parse_number_returns (get row (Str.u "Sessions – Total – B2B") (Str.u "0"))) as [d ->].
  cbn [bind]. rewrite H. reflexivity.
Qed.

(** A kept row contributes one product, with its stripped SKU and child
    ASIN, unless the conversion rate raises. *)
Lemma process_row_kept row :
  skipped row = false ->
  exists units sessions,
    totals row = Ok (units, sessions) /\
    ((exists p, process_row row = Ok (Some p) /\
                sku p = Str.strip (get row (Str.u "SKU") []) /\
                child_asin p = Str.strip (get row (Str.u "(Child) ASIN") []) /\
                conversion_rate_of units sessions = Ok (conversion_rate p))
     \/ (exists e, process_row row = Raise e /\ conversion_rate_of units sessions = Raise e)).
Proof.
  unfold skipped, process_row, totals. intros H.
  destruct (parse_number_returns (get row (Str.u "Units ordered") (Str.u "0"))) as [a ->].
  destruct (parse_number_returns (get row (Str.u "Units ordered – B2B") (Str.u "0"))) as [b ->].
  destruct (parse_currency_returns (get row (Str.u "Ordered Product Sales") (Str.u "£0"))) as [v ->].
  destruct (parse_currency_returns (get row (Str.u "Ordered product sales – B2B") (Str.u "£0"))) as [w ->].
  destruct (parse_number_returns (get row (Str.u "Sessions – Total") (Str.u "0"))) as [c ->].
  destruct (parse_number_returns (get row (Str.u "Sessions – Total – B2B") (Str.u "0"))) as [d ->].
  cbn [bind]. rewrite H.
  exists (a + b), (c + d). split; [reflexivity|].
  destruct (conversion_rate_of (a + b) (c + d)) as [rate|e]; cbn [bind].
  - left. eexists. split; [reflexivity|]. cbn. auto.
  - right. eauto.
Qed.

(** The conversion rate raises only when the quotient of the two
    integers is too large for a float. *)
Lemma conversion_rate_of_raises units sessions e :
  conversion_rate_of units sessions = Raise e ->
  e = OverflowError /\ 0 < sessions /\
  PyNum.int_truediv units sessions = Raise OverflowError.
Proof.
  unfold conversion_rate_of. destruct (0 <? sessions) eqn:Hs; [|discriminate].
  apply Z.ltb_lt in Hs.
  destruct (PyNum.int_truediv units sessions) as [q|e'] eqn:E; [discriminate|].
  cbn [bind]. intros [= <-].
  unfold PyNum.int_truediv in E.
  destruct units, sessions; try lia; try discriminate;
    match type of E with
    | (if ?c then _ else _) = _ => destruct c; [injection E as <-; auto | discriminate]
    end.
Qed.

(** The loop appends, in order, the products of the kept rows. *)
Lemma read_rows_spec reader : forall products out,
  read_rows reader products = Ok out ->
  exists added,
    out = products ++ added /\
    length added = length (List.filter (fun row => negb (skipped row)) reader) /\
    List.map sku added =
      List.map (fun row => Str.strip (get row (Str.u "SKU") []))
        (List.filter (fun row => negb (skipped row)) reader) /\
    Forall (fun p => Str.is_empty (sku p) = false /\ Str.is_empty (child_asin p) = false) added.
Proof.
  induction reader as [|row rest IH]; intros products out H; simpl in H.
  - injection H as <-. exists []. rewrite app_nil_r. repeat split; constructor.
  - destruct (skipped row) eqn:Hs.
    + rewrite (process_row_skipped row Hs) in H. cbn [bind] in H.
      destruct (IH _ _ H) as (added & -> & Hl & Hm & Hf).
      exists added. cbn [List.filter]. rewrite Hs. cbn [negb]. auto.
    + destruct (process_row_kept row Hs) as (units & sessions & _ & [(p & Hp & Hk & Ha & _) | (e & He & _)]).
      * rewrite Hp in H. cbn [bind] in H.
        destruct (IH _ _ H) as (added & -> & Hl & Hm & Hf).
        exists (p :: added). rewrite <- app_assoc. cbn [List.filter]. rewrite Hs.
        cbn [negb length List.map app].
        split; [reflexivity|]. split; [rewrite Hl; reflexivity|].
        split; [rewrite Hm, Hk; reflexivity|].
        constructor; [|exact Hf].
        unfold skipped in Hs. rewrite Hk, Ha.
        apply orb_false_elim in Hs. exact Hs.
      * rewrite He in H. discriminate.
Qed.

(** The quotient of an integer below [2^1023] in magnitude by a positive
    integer is a float. *)
Lemma int_truediv_returns a b :
  0 < b -> Z.abs a < 2 ^ 1023 -> exists q, PyNum.int_truediv a b = Ok q.
Proof.
  intros Hb Ha. unfold PyNum.int_truediv.
  destruct b as [|q|q]; [discriminate Hb | | discriminate Hb]. clear Hb.
  assert (Hq : 1 <= Zdigits2 (Zpos q)) by (simpl; lia).
  destruct a as [|p|p]; [eauto | |].
  - assert (Hp : Zdigits2 (Zpos p) <= 1023).
    { apply Zdigits2_le; [discriminate | discriminate | exact Ha]. }
    clear Ha.
    assert (W : F64.within 1024 971 (F64.div (S754_finite false p 0) (S754_finite false q 0))).
    { apply (div_within false p 0 false q 0 1022); lia. }
    unfold F64.div in W. cbn [Z.abs Z.to_pos Z.ltb Z.compare].
    destruct (SFdiv _ _ _ _) as [| | |]; try contradiction; simpl; eauto.
  - assert (Hp : Zdigits2 (Zpos p) <= 1023).
    { apply Zdigits2_le; [discriminate | discriminate | exact Ha]. }
    clear Ha.
    assert (W : F64.within 1024 971 (F64.div (S754_finite true p 0) (S754_finite false q 0))).
    { apply (div_within true p 0 false q 0 1022); lia. }
    unfold F64.div in W. cbn [Z.abs Z.to_pos Z.ltb Z.compare].
    destruct (SFdiv _ _ _ _) as [| | |]; try contradiction; simpl; eauto.
Qed.

(** The loop returns when no row raises. *)
Lemma read_rows_returns reader : forall products,
  (forall row, In row reader -> forall e, process_row row <> Raise e) ->
  exists out, read_rows reader products = Ok out.
Proof.
  induction reader as [|row rest IH]; intros products H; simpl.
  - eauto.
  - destruct (process_row row) as [p|e] eqn:E.
    + cbn [bind]. apply IH. intros r Hr. apply H. right. exact Hr.
    + exfalso. apply (H row (or_introl eq_refl) e). exact E.
Qed.

(** A row whose units are below [2^1023] does not raise. *)
Lemma process_row_returns row units sessions e :
  totals row = Ok (units, sessions) -> Z.abs units < 2 ^ 1023 ->
  process_row row <> Raise e.
Proof.
  intros Ht Hu H.
  destruct (skipped row) eqn:Hs.
  - rewrite (process_row_skipped row Hs) in H. discriminate.
  - destruct (process_row_kept row Hs) as (u' & s' & Ht' & [(p & Hp & _) | (e' & He & Hc)]).
    + rewrite Hp in H. discriminate.
    + rewrite Ht in Ht'. injection Ht' as <- <-.
      destruct (conversion_rate_of_raises _ _ _ Hc) as (_ & Hpos & Hdiv).
      destruct (int_truediv_returns units sessions Hpos Hu) as [q Hq].
      rewrite Hq in Hdiv. discriminate.
Qed.

End RowFacts.

Module RowProps.

Import Py RowFacts BestSellers.

Local Open Scope Z_scope.

(** C9.  The loop drops every row whose SKU or whose child ASIN is empty
    once stripped, and appends one product for every other row, in order:
    when it ends, the number of products is the number of rows minus the
    number of rows that lack a SKU or a child ASIN.  It keeps no count of
    the rows it drops.  It ends when the units of every row are below
    [2^1023] in magnitude; a row raises only [OverflowError], when the
    quotient of its units by its positive sessions is too large for a
    float. *)
Theorem rows_without_identifier_dropped :
  (forall reader products,
     read_products reader = Ok products ->
     (length products = length reader - length (List.filter skipped reader))%nat /\
     List.map sku products =
       List.map (fun row => Str.strip (get row (Str.u "SKU") []))
         (List.filter (fun row => negb (skipped row)) reader) /\
     Forall (fun p => Str.is_empty (sku p) = false /\ Str.is_empty (child_asin p) = false)
       products) /\
  (forall reader,
     (forall row units sessions,
        In row reader -> totals row = Ok (units, sessions) -> Z.abs units < 2 ^ 1023) ->
     exists products, read_products reader = Ok products) /\
  (forall row e,
     process_row row = Raise e ->
     e = OverflowError /\ skipped row = false /\
     exists units sessions,
       totals row = Ok (units, sessions) /\ 0 < sessions /\
       PyNum.int_truediv units sessions = Raise OverflowError).
Proof.
  split; [| split].
  - intros reader products H. unfold read_products in H.
    destruct (read_rows_spec reader [] products H) as (added & -> & Hl & Hm & Hf).
    cbn [app]. split; [| auto].
    rewrite Hl. clear.
    induction reader as [|row rest IH]; [reflexivity|].
    cbn [List.filter length]. destruct (skipped row); cbn [negb length].
    + rewrite IH. pose proof (filter_length_le skipped rest). lia.
    + rewrite IH. pose proof (filter_length_le skipped rest). lia.
  - intros reader H. apply read_rows_returns.
    intros row Hin e.
    destruct (totals_returns row) as [[units sessions] Ht].
    apply (process_row_returns row units sessions e Ht).
    apply (H row units sessions Hin Ht).
  - intros row e H.
    destruct (skipped row) eqn:Hs.
    + rewrite (process_row_skipped row Hs) in H. discriminate.
    + destruct (process_row_kept row Hs) as (units & sessions & Ht & [(p & Hp & _) | (e' & He & Hc)]).
      * rewrite Hp in H. discriminate.
      * rewrite He in H. injection H as ->.
        destruct (conversion_rate_of_raises _ _ _ Hc) as (-> & Hpos & Hdiv).
        split; [reflexivity|]. split; [reflexivity|]. eauto.
Qed.

(** Ten rows of which one lacks a SKU and one a child ASIN give eight
    products. *)
Lemma rows_without_identifier_dropped_witness :
  exists products,
    read_products Examples.ten_rows = Ok products /\ length products = 8%nat.
Proof.
  destruct rows_without_identifier_dropped as (Hcount & Hret & _).
  destruct (Hret Examples.ten_rows) as [products Hp].
  - intros row units sessions Hin Ht.
    assert (Hall : List.forallb
                     (fun row => match totals row with
                                 | Ok (u, _) => Z.abs u <? 2 ^ 1023
                                 | Raise _ => false
                                 end) Examples.ten_rows = true)
      by (vm_compute; reflexivity).
    rewrite forallb_forall in Hall. specialize (Hall row Hin).
    rewrite Ht in Hall. apply Z.ltb_lt, Hall.
  - exists products. split; [exact Hp|].
    destruct (Hcount _ _ Hp) as (Hl & _). rewrite Hl. vm_compute. reflexivity.
Defined.

(** C9, as stated, fails: a row with a SKU and without a child ASIN is
    dropped, so that of two rows that both have a SKU one product
    remains. *)
Lemma row_with_sku_dropped :
  read_products [ Examples.csv_row "A1" "B001" "5" "£10.00" "100";
                  Examples.csv_row "A7" "" "4" "£8.00" "20" ]
  = Ok [ {| parent_asin := [];
            child_asin := Str.u "B001";
            sku := Str.u "A1";
            title := [];
            units_ordered := 5;
            sales_value := F64.f10;
            sessions := 100;
            conversion_rate := Float F64.f5 |} ].
Proof. vm_compute. reflexivity. Qed.

End RowProps.

(** ** The data-quality report of [analyze_business_report.py] *)

Module QualityFacts.

Import BusinessReport.

Section Checks.

(** The list of issues, check by check. *)
Lemma issues_shape df :
  identify_data_quality_issues df =
    (if (0 <? list_sum (missing_counts df))%nat
     then [MissingValues (length (List.filter (fun c => (0 <? c)%nat) (missing_counts df)))]
     else [])
    ++ (if (0 <? count_true (duplicated df))%nat
        then [DuplicateRows (count_true (duplicated df))] else [])
    ++ (if List.existsb (fun r => F64.gtb (Frame.buy_box_percentage (cols r)) F64.f100) df
        then [BuyBoxAbove100] else [])
    ++ (if List.existsb (fun r => F64.gtb (conversion_rate r) F64.f100) df
        then [ConversionAbove100] else [])
    ++ (if List.existsb (fun r => F64.ltb (Frame.sessions_total (cols r)) F64.zero) df
        then [NegativeValues "sessions_total"] else [])
    ++ (if List.existsb (fun r => F64.ltb (Frame.units_ordered (cols r)) F64.zero) df
        then [NegativeValues "units_ordered"] else [])
    ++ (if List.existsb (fun r => F64.ltb (Frame.sales_total (cols r)) F64.zero) df
        then [NegativeValues "sales_total"] else []).
Proof.
  unfold identify_data_quality_issues, negative_checks.
  cbn [List.fold_left fst snd].
  repeat match goal with
         | |- context [if ?c then _ else _] => destruct c
         end; reflexivity.
Qed.

Lemma count_true_zero l : count_true l = 0%nat <-> forall b, In b l -> b = false.
Proof.
  unfold count_true. induction l as [|a l IH]; simpl.
  - split; [intros _ b [] | reflexivity].
  - destruct a; simpl.
    + split; [discriminate | intros H; specialize (H true (or_introl eq_refl)); discriminate].
    + rewrite IH. split.
      * intros H b [<- | Hb]; [reflexivity | apply H, Hb].
      * intros H b Hb. apply H. right. exact Hb.
Qed.

Lemma list_sum_zero l : list_sum l = 0%nat <-> forall n, In n l -> n = 0%nat.
Proof.
  induction l as [|a l IH]; simpl.
  - split; [intros _ n [] | reflexivity].
  - split.
    + intros H n [<- | Hn]; [lia | apply IH; [lia | exact Hn]].
    + intros H. rewrite (H a (or_introl eq_refl)). simpl. apply IH.
      intros n Hn. apply H. right. exact Hn.
Qed.

Lemma cells_length r : length (cells r) = 31%nat.
Proof. reflexivity. Qed.

(** No column has a missing cell exactly when no row has one. *)
Lemma missing_counts_zero df :
  list_sum (missing_counts df) = 0%nat <->
  forall r v, In r df -> In v (cells r) -> isnull v = false.
Proof.
  rewrite list_sum_zero. unfold missing_counts. split.
  - intros H r v Hr Hv.
    destruct (In_nth _ _ (VBool false) Hv) as (j & Hj & <-).
    rewrite cells_length in Hj.
    assert (Hc : count_true (List.map (fun r => isnull (List.nth j (cells r) (VBool false))) df) = 0%nat).
    { apply H. apply in_map_iff. exists j. split; [reflexivity|]. apply in_seq. lia. }
    rewrite count_true_zero in Hc. apply Hc.
    apply in_map_iff. exists r. auto.
  - intros H n Hn. apply in_map_iff in Hn. destruct Hn as (j & <- & Hj).
    apply in_seq in Hj. apply count_true_zero. intros b Hb.
    apply in_map_iff in Hb. destruct Hb as (r & <- & Hr).
    apply (H r); [exact Hr|]. apply nth_In. rewrite cells_length. lia.
Qed.

(** The mark of row [j]: whether an earlier row, or a row of [seen],
    equals it. *)
Lemma duplicated_from_nth df : forall seen j r,
  nth_error df j = Some r ->
  nth_error (duplicated_from seen df) j =
    Some (List.existsb (same_row r) (rev (firstn j df) ++ seen)).
Proof.
  induction df as [|r1 df IH]; intros seen j r Hj.
  - destruct j; discriminate.
  - destruct j as [|j]; simpl in *.
    + injection Hj as ->. reflexivity.
    + rewrite (IH (r1 :: seen) j r Hj). rewrite <- app_assoc. reflexivity.
Qed.

Lemma duplicated_from_length df : forall seen, length (duplicated_from seen df) = length df.
Proof. induction df as [|r df IH]; intros seen; simpl; [reflexivity | rewrite IH; reflexivity]. Qed.

(** No row is marked exactly when no row equals an earlier one. *)
Lemma duplicated_zero df :
  count_true (duplicated df) = 0%nat <->
  forall i j r r', (i < j)%nat -> nth_error df i = Some r -> nth_error df j = Some r' ->
                   same_row r' r = false.
Proof.
  rewrite count_true_zero. unfold duplicated. split.
  - intros H i j r r' Hlt Hi Hj.
    pose proof (duplicated_from_nth df [] j r' Hj) as Hn.
    apply nth_error_In in Hn. apply H in Hn.
    rewrite app_nil_r in Hn.
    destruct (same_row r' r) eqn:E; [|reflexivity].
    assert (Hex : List.existsb (same_row r') (rev (firstn j df)) = true).
    { apply existsb_exists. exists r. split; [|exact E].
      apply in_rev. rewrite rev_involutive.
      apply (nth_error_In _ i). rewrite nth_error_firstn.
      destruct (Nat.ltb_spec i j); [exact Hi | lia]. }
    congruence.
  - intros H b Hb. apply In_nth_error in Hb. destruct Hb as [j Hj].
    assert (Hlen : (j < length df)%nat).
    { rewrite <- (duplicated_from_length df []). apply nth_error_Some. congruence. }
    destruct (nth_error df j) as [r'|] eqn:Er; [|apply nth_error_None in Er; lia].
    rewrite (duplicated_from_nth df [] j r' Er) in Hj. injection Hj as <-.
    rewrite app_nil_r. apply not_true_is_false. intros Hex.
    apply existsb_exists in Hex. destruct Hex as (r & Hr & E).
    apply in_rev in Hr. apply In_nth_error in Hr. destruct Hr as [i Hi].
    assert (Hi' : (i < j)%nat).
    { assert (Hs : nth_error (firstn j df) i <> None) by congruence.
      apply nth_error_Some in Hs. rewrite length_firstn in Hs. lia. }
    rewrite nth_error_firstn in Hi.
    destruct (Nat.ltb_spec i j); [|lia].
    rewrite (H i j r r' Hi' Hi Er) in E. discriminate.
Qed.

Lemma existsb_false {A} (f : A -> bool) l :
  List.existsb f l = false <-> forall x, In x l -> f x = false.
Proof.
  split.
  - intros H x Hx. destruct (f x) eqn:E; [|reflexivity].
    assert (List.existsb f l = true) by (apply existsb_exists; eauto). congruence.
  - intros H. apply not_true_is_false. intros Hex. apply existsb_exists in Hex.
    destruct Hex as (x & Hx & E). rewrite (H x Hx) in E. discriminate.
Qed.

Lemma count_true_pos_in l : (0 < count_true l)%nat <-> In true l.
Proof.
  unfold count_true. induction l as [|a l IH]; simpl.
  - split; [lia | intros []].
  - destruct a; simpl.
    + split; [auto | lia].
    + rewrite IH. split; [auto | intros [H | H]; [discriminate | exact H]].
Qed.

Lemma list_sum_pos l : (0 < list_sum l)%nat <-> exists n, In n l /\ (0 < n)%nat.
Proof.
  induction l as [|a l IH]; simpl.
  - split; [lia | intros (n & [] & _)].
  - split.
    + intros H. destruct a as [|a].
      * destruct IH as [IH _]. destruct (IH H) as (n & Hn & Hp). exists n. auto.
      * exists (S a). split; [auto | lia].
    + intros (n & [<- | Hn] & Hp); [lia|].
      destruct IH as [_ IH]. specialize (IH (ex_intro _ n (conj Hn Hp))). lia.
Qed.

(** A column counts a missing cell exactly when some row has one there. *)
Lemma column_missing df j :
  (0 <? count_true (List.map (fun r => isnull (List.nth j (cells r) (VBool false))) df))%nat =
  List.existsb (fun r => isnull (List.nth j (cells r) (VBool false))) df.
Proof.
  apply eq_true_iff_eq. rewrite Nat.ltb_lt, count_true_pos_in, existsb_exists, in_map_iff.
  split; intros (r & H1 & H2); exists r; auto.
Qed.

(** Some column has a missing cell exactly when some row has one. *)
Lemma missing_counts_pos df :
  (0 < list_sum (missing_counts df))%nat <->
  exists r v, In r df /\ In v (cells r) /\ isnull v = true.
Proof.
  split.
  - intros H. apply list_sum_pos in H. destruct H as (n & Hn & Hp).
    unfold missing_counts in Hn. apply in_map_iff in Hn. destruct Hn as (j & <- & Hj).
    apply in_seq in Hj. apply count_true_pos_in, in_map_iff in Hp.
    destruct Hp as (r & Hv & Hr). exists r, (List.nth j (cells r) (VBool false)).
    split; [exact Hr|]. split; [|exact Hv]. apply nth_In. rewrite cells_length. lia.
  - intros (r & v & Hr & Hv & Hn).
    destruct (list_sum (missing_counts df)) eqn:E; [|lia].
    rewrite missing_counts_zero in E. rewrite (E r v Hr Hv) in Hn. discriminate.
Qed.

(** A missing cell puts the issue on the list. *)
Lemma missing_issue_in df r v :
  In r df -> In v (cells r) -> isnull v = true ->
  In (MissingValues (length (List.filter (fun c => (0 <? c)%nat) (missing_counts df))))
     (identify_data_quality_issues df).
Proof.
  intros Hr Hv Hn. rewrite issues_shape.
  assert (H : (0 < list_sum (missing_counts df))%nat) by (apply missing_counts_pos; eauto).
  apply Nat.ltb_lt in H. rewrite H. left. reflexivity.
Qed.

Lemma filter_map_length {A B} (p : B -> bool) (f : A -> B) l :
  length (List.filter p (List.map f l)) = length (List.filter (fun a => p (f a)) l).
Proof.
  induction l as [|a l IH]; simpl; [reflexivity|].
  destruct (p (f a)); simpl; rewrite IH; reflexivity.
Qed.

End Checks.

End QualityFacts.

Module QualityProps.

Import BusinessReport QualityFacts.

(** X1.  [identify_data_quality_issues] reports nothing exactly when the
    frame passes every check: no cell of any of the thirty-one columns is
    missing, no row equals an earlier row, no buy-box percentage and no
    conversion rate is above 100, and no sessions, units or sales cell is
    below zero. *)
Theorem no_issue_iff_clean df :
  identify_data_quality_issues df = [] <->
  (forall r v, In r df -> In v (cells r) -> isnull v = false) /\
  (forall i j r r', (i < j)%nat -> nth_error df i = Some r -> nth_error df j = Some r' ->
                    same_row r' r = false) /\
  (forall r, In r df ->
     F64.gtb (Frame.buy_box_percentage (cols r)) F64.f100 = false /\
     F64.gtb (conversion_rate r) F64.f100 = false /\
     F64.ltb (Frame.sessions_total (cols r)) F64.zero = false /\
     F64.ltb (Frame.units_ordered (cols r)) F64.zero = false /\
     F64.ltb (Frame.sales_total (cols r)) F64.zero = false).
Proof.
  rewrite issues_shape, <- missing_counts_zero, <- duplicated_zero.
  split.
  - intros H.
    destruct (Nat.ltb_spec 0 (list_sum (missing_counts df))); [discriminate|].
    destruct (Nat.ltb_spec 0 (count_true (duplicated df))); [discriminate|].
    destruct (List.existsb _ df) eqn:E1 in H; [discriminate|].
    destruct (List.existsb _ df) eqn:E2 in H; [discriminate|].
    destruct (List.existsb _ df) eqn:E3 in H; [discriminate|].
    destruct (List.existsb _ df) eqn:E4 in H; [discriminate|].
    destruct (List.existsb _ df) eqn:E5 in H; [discriminate|].
    split; [lia|]. split; [lia|]. intros r Hr.
    rewrite existsb_false in E1, E2, E3, E4, E5.
    repeat split; [apply (E1 r Hr) | apply (E2 r Hr) | apply (E3 r Hr)
                   | apply (E4 r Hr) | apply (E5 r Hr)].
  - intros (Hm & Hd & Hr). rewrite Hm, Hd. cbn [Nat.ltb Nat.leb app].
    assert (E : forall f : row -> bool, (forall r, In r df -> f r = false) ->
                List.existsb f df = false) by (intros f Hf; apply existsb_false, Hf).
    rewrite !E; [reflexivity | | | | |]; intros r Hin; apply (Hr r Hin).
Qed.

Ltac split_checks :=
  repeat match goal with
         | |- context [if ?c then _ else _] => destruct c
         | H : context [if ?c then _ else _] |- _ => destruct c
         end.

Lemma no_issue_iff_clean_witness :
  (forall r v, In r Examples.full_frame -> In v (cells r) -> isnull v = false) /\
  (forall i j r r', (i < j)%nat ->
     nth_error Examples.full_frame i = Some r -> nth_error Examples.full_frame j = Some r' ->
     same_row r' r = false) /\
  (forall r, In r Examples.full_frame ->
     F64.gtb (Frame.buy_box_percentage (cols r)) F64.f100 = false /\
     F64.gtb (conversion_rate r) F64.f100 = false /\
     F64.ltb (Frame.sessions_total (cols r)) F64.zero = false /\
     F64.ltb (Frame.units_ordered (cols r)) F64.zero = false /\
     F64.ltb (Frame.sales_total (cols r)) F64.zero = false).
Proof.
  apply (proj1 (no_issue_iff_clean Examples.full_frame)).
  vm_compute. reflexivity.
Defined.

(** X2.  A "Negative values found in <column>" issue is reported for
    [sessions_total], [units_ordered] or [sales_total] exactly when some
    row has a value below zero in that column, and for no other column. *)
Theorem negative_values_reported df :
  (In (NegativeValues "sessions_total") (identify_data_quality_issues df) <->
   exists r, In r df /\ F64.ltb (Frame.sessions_total (cols r)) F64.zero = true) /\
  (In (NegativeValues "units_ordered") (identify_data_quality_issues df) <->
   exists r, In r df /\ F64.ltb (Frame.units_ordered (cols r)) F64.zero = true) /\
  (In (NegativeValues "sales_total") (identify_data_quality_issues df) <->
   exists r, In r df /\ F64.ltb (Frame.sales_total (cols r)) F64.zero = true) /\
  (forall col, In (NegativeValues col) (identify_data_quality_issues df) ->
     col = "sessions_total"%string \/ col = "units_ordered"%string \/ col = "sales_total"%string).
Proof.
  rewrite issues_shape.
  pose proof (existsb_exists (fun r => F64.ltb (Frame.sessions_total (cols r)) F64.zero) df) as E1.
  pose proof (existsb_exists (fun r => F64.ltb (Frame.units_ordered (cols r)) F64.zero) df) as E2.
  pose proof (existsb_exists (fun r => F64.ltb (Frame.sales_total (cols r)) F64.zero) df) as E3.
  cbv beta in E1, E2, E3. rewrite <- E1, <- E2, <- E3. clear E1 E2 E3.
  split; [|split; [|split; [|intros col]]]; rewrite !in_app_iff; split_checks; cbn [In];
    intuition (try discriminate; try congruence).
Qed.

Lemma negative_values_reported_witness :
  In (NegativeValues "sales_total")
     (identify_data_quality_issues
        (fst (Examples.run_main [Examples.report_row "SKU-1" "10" "1" "£-5.00" "90%"]))).
Proof.
  destruct (negative_values_reported
              (fst (Examples.run_main [Examples.report_row "SKU-1" "10" "1" "£-5.00" "90%"])))
    as (_ & _ & [_ H] & _).
  apply H. eexists. split; [left; reflexivity | vm_compute; reflexivity].
Defined.

(** X3.  A missing cell in any of the thirty-one columns of any row is
    reported, and nothing else is reported as missing: the issue
    "Missing values found in [k] columns" heads the list, and [k], between
    1 and 31, is the number of columns that have a missing cell. *)
Theorem missing_values_reported df :
  ((exists r v, In r df /\ In v (cells r) /\ isnull v = true) <->
   exists k, In (MissingValues k) (identify_data_quality_issues df)) /\
  (forall k, In (MissingValues k) (identify_data_quality_issues df) ->
     (1 <= k <= 31)%nat /\
     hd_error (identify_data_quality_issues df) = Some (MissingValues k) /\
     k = length (List.filter
                   (fun j => List.existsb
                               (fun r => isnull (List.nth j (cells r) (VBool false))) df)
                   (List.seq 0 31))).
Proof.
  rewrite issues_shape, <- missing_counts_pos. split.
  - split.
    + intros H. apply Nat.ltb_lt in H. rewrite H. eexists. left. reflexivity.
    + intros (k & Hk). destruct (Nat.ltb_spec 0 (list_sum (missing_counts df))); [assumption|].
      exfalso. revert Hk. rewrite !in_app_iff. split_checks; cbn [In];
        intuition discriminate.
  - intros k Hk.
    destruct (Nat.ltb_spec 0 (list_sum (missing_counts df))) as [Hpos | Hz].
    + assert (Ek : k = length (List.filter (fun c => (0 <? c)%nat) (missing_counts df))).
      { revert Hk. rewrite !in_app_iff. split_checks; cbn [In];
          intuition (try discriminate; congruence). }
      split; [|split].
      * subst k. split.
        -- apply list_sum_pos in Hpos. destruct Hpos as (n & Hn & Hp).
           assert (Hin : In n (List.filter (fun c => (0 <? c)%nat) (missing_counts df))).
           { apply filter_In. split; [exact Hn|]. apply Nat.ltb_lt. exact Hp. }
           destruct (List.filter _ (missing_counts df)); [destruct Hin | simpl; lia].
        -- pose proof (filter_length_le (fun c => (0 <? c)%nat) (missing_counts df)) as Hle.
           unfold missing_counts in Hle at 2. rewrite length_map, length_seq in Hle. exact Hle.
      * subst k. reflexivity.
      * rewrite Ek. unfold missing_counts. rewrite filter_map_length.
        f_equal. apply filter_ext. intros j. apply column_missing.
    + exfalso. revert Hk. rewrite !in_app_iff. split_checks; cbn [In];
        intuition discriminate.
Qed.

Lemma missing_values_reported_witness :
  exists k,
    In (MissingValues k)
       (identify_data_quality_issues
          (fst (Examples.run_main [Examples.report_row "SKU-1" "10" "1" "£5.00" "90%"]))).
Proof.
  destruct (missing_values_reported
              (fst (Examples.run_main [Examples.report_row "SKU-1" "10" "1" "£5.00" "90%"])))
    as ([H _] & _).
  apply H. eexists. exists (VObj None).
  split; [left; reflexivity|]. split; [left; reflexivity | reflexivity].
Defined.

(** X4.  The issues come in the order of the checks, at most one for each
    check: the list is a sublist of the seven possible issues. *)
Theorem issues_in_check_order df :
  sublist (identify_data_quality_issues df)
    [ MissingValues (length (List.filter (fun c => (0 <? c)%nat) (missing_counts df)));
      DuplicateRows (count_true (duplicated df));
      BuyBoxAbove100;
      ConversionAbove100;
      NegativeValues "sessions_total";
      NegativeValues "units_ordered";
      NegativeValues "sales_total" ].
Proof.
  rewrite issues_shape.
  split_checks; cbn [app];
    repeat first [ apply sublist_nil | apply sublist_skip | apply sublist_cons ].
Qed.

End QualityProps.

(** ** Text that [pd.to_numeric] does not read *)

Module CoerceFacts.

Import ParserFacts.

Lemma str_eqb_eq s : forall t, Str.eqb s t = true -> s = t.
Proof.
  induction s as [|a s IH]; intros [|b t] H; simpl in H; try discriminate; [reflexivity|].
  apply andb_true_iff in H. destruct H as [Hab Hst].
  apply N.eqb_eq in Hab. subst b. f_equal. apply IH, Hst.
Qed.

Lemma xstrtod_digits_keeps c : Str.isdigit_ascii c = false ->
  forall s number n x, In c s -> In c (snd (Pd.xstrtod_digits s number n x)).
Proof.
  intros Hc s. induction s as [|a s IH]; intros number n x Hin; [destruct Hin|].
  simpl. destruct (Str.isdigit_ascii a) eqn:Ha; [|exact Hin].
  destruct Hin as [-> | Hin]; [congruence|].
  destruct (n <? Pd.max_digits)%nat; apply IH, Hin.
Qed.

Lemma xstrtod_decimals_keeps c : Str.isdigit_ascii c = false ->
  forall s number n x, In c s -> In c (snd (Pd.xstrtod_decimals s number n x)).
Proof.
  intros Hc s. induction s as [|a s IH]; intros number n x Hin; [destruct Hin|].
  simpl. destruct (Str.isdigit_ascii a) eqn:Ha; [|exact Hin].
  destruct Hin as [-> | Hin]; [congruence|].
  destruct (n <? Pd.max_digits)%nat; apply IH, Hin.
Qed.

Lemma xstrtod_exponent_keeps c : Str.isdigit_ascii c = false ->
  forall s v n, In c s -> In c (snd (Pd.xstrtod_exponent s v n)).
Proof.
  intros Hc s. induction s as [|a s IH]; intros v n Hin; [destruct Hin|].
  simpl. destruct (Str.isdigit_ascii a) eqn:Ha; simpl; [|exact Hin].
  destruct Hin as [-> | Hin]; [congruence|].
  destruct (n <? Pd.max_digits)%nat; [apply IH, Hin | right; exact Hin].
Qed.

(** A character that is no part of a decimal number makes [to_double]
    fail wherever it stands. *)
Lemma to_double_rejects c s :
  Str.isdigit_ascii c = false -> Str.isspace_ascii c = false ->
  c <> 43%N -> c <> 45%N -> c <> 46%N -> PyNum.is_e c = false ->
  In c s -> Pd.to_double s = None.
Proof.
  intros Hd Hs Hp Hm Hpt He Hin. unfold Pd.to_double.
  pose proof (take_sign_keeps c _ Hp Hm (lstrip_ascii_keeps c Hs _ Hin)) as H1.
  destruct (PyNum.take_sign (Pd.lstrip_ascii s)) as [neg s1]. cbn [snd] in H1.
  pose proof (xstrtod_digits_keeps c Hd s1 F64.zero 0%nat 0%Z H1) as H2.
  destruct (Pd.xstrtod_digits s1 F64.zero 0 0) as [[[n1 d1] x1] s2]. cbn [snd] in H2.
  assert (H3 : forall n d x t,
             (match s2 with
              | 46%N :: t0 =>
                  let '(n0, d0, k, t') := Pd.xstrtod_decimals t0 n1 d1 0 in
                  (n0, d0, (x1 - k)%Z, t')
              | _ => (n1, d1, x1, s2)
              end) = (n, d, x, t) -> In c t).
  { intros n d x t E.
    destruct s2 as [|a s2]; [destruct H2|].
    destruct (N.eq_dec a 46%N) as [-> | Ha].
    - destruct H2 as [H2 | H2]; [congruence|].
      pose proof (xstrtod_decimals_keeps c Hd s2 n1 d1 0%Z H2) as H.
      destruct (Pd.xstrtod_decimals s2 n1 d1 0) as [[[n0 d0] k] t'].
      cbn [snd] in H. injection E as _ _ _ <-. exact H.
    - assert (E' : (n1, d1, x1, a :: s2) = (n, d, x, t)).
      { rewrite <- E. destruct a as [|p]; [reflexivity|].
        do 6 (destruct p as [p|p|]; try reflexivity). congruence. }
      injection E' as _ _ _ <-. exact H2. }
  destruct (match s2 with
            | 46%N :: t0 => _
            | _ => _
            end) as [[[n2 d2] x2] s3] eqn:E2.
  specialize (H3 _ _ _ _ eq_refl).
  destruct d2 as [|d2]; [reflexivity|].
  assert (H4 : forall x t,
             (match s3 with
              | c0 :: t0 =>
                  if PyNum.is_e c0 then
                    let (eneg, t1) := PyNum.take_sign t0 in
                    let '(n, k, t2) := Pd.xstrtod_exponent t1 0 0 in
                    match k with
                    | O => (x2, s3)
                    | S _ => (if eneg then (x2 - n)%Z else (x2 + n)%Z, t2)
                    end
                  else (x2, s3)
              | [] => (x2, [])
              end) = (x, t) -> In c t).
  { intros x t E.
    destruct s3 as [|a s3]; [destruct H3|].
    destruct (PyNum.is_e a) eqn:Ea.
    - destruct H3 as [H3 | H3]; [congruence|].
      pose proof (take_sign_keeps c _ Hp Hm H3) as H5.
      destruct (PyNum.take_sign s3) as [eneg t1]. cbn [snd] in H5.
      pose proof (xstrtod_exponent_keeps c Hd t1 0%Z 0%nat H5) as H6.
      destruct (Pd.xstrtod_exponent t1 0 0) as [[n k] t2]. cbn [snd] in H6.
      destruct k; injection E as _ <-; [right; exact H3 | exact H6].
    - injection E as _ <-. exact H3. }
  destruct (match s3 with
            | c0 :: t0 => _
            | [] => _
            end) as [x3 s4] eqn:E4.
  specialize (H4 _ _ eq_refl).
  destruct (308 <? x3)%Z; [reflexivity|].
  destruct (F64.is_inf _); [reflexivity|].
  pose proof (lstrip_ascii_keeps c Hs _ H4) as H7.
  destruct (Pd.lstrip_ascii s4); [destruct H7 | reflexivity].
Qed.

Lemma floatify_inf_comma s : In 44%N s -> Pd.floatify_inf s = None.
Proof.
  intros Hin. unfold Pd.floatify_inf.
  assert (Hw : In 44%N (List.map Str.lower_ascii s)).
  { apply in_map_iff. exists 44%N. split; [reflexivity | exact Hin]. }
  assert (E : forall lit, ~ In 44%N lit -> Str.eqb (List.map Str.lower_ascii s) lit = false).
  { intros lit Hn. apply not_true_is_false. intros H. apply str_eqb_eq in H.
    rewrite H in Hw. contradiction. }
  rewrite !E; [reflexivity | | | | | |]; vm_compute; intuition discriminate.
Qed.

(** A count with a thousands separator is not a number for
    [pd.to_numeric]: it is coerced to NaN. *)
Lemma to_numeric_comma s : In 44%N s -> Pd.to_numeric_coerce (Pd.Text s) = F64.nan.
Proof.
  intros Hin. unfold Pd.to_numeric_coerce.
  destruct (Str.is_empty s); [reflexivity|].
  rewrite (to_double_rejects 44%N s); try reflexivity; try discriminate; [|exact Hin].
  rewrite (floatify_inf_comma s Hin). reflexivity.
Qed.

End CoerceFacts.

Module CleaningProps.

Import BusinessReport CoerceFacts ReportFacts QualityFacts.

Section Pipeline.

Variable quantile75 : list F64.float -> F64.float.
Variable contains_prime : Str.str -> bool.
Variable remove_prime_suffix : Str.str -> Str.str.
Variable extract_category : Str.str -> Pd.objcell.

Let run := main quantile75 contains_prime remove_prime_suffix extract_category.

(** X5.  [clean_numeric_columns] does not strip thousands separators: a
    sessions or units cell whose text has a comma becomes NaN.  The row
    then gets the conversion rate 0 and the revenue per session 0 (for
    sessions) or the average order value 0 (for units), and [main] reports
    missing values. *)
Theorem thousands_separator_reads_as_missing df i raw s :
  nth_error df i = Some raw ->
  In 44%N s ->
  exists out,
    nth_error (fst (run df)) i = Some out /\
    (Frame.sessions_total raw = Pd.Text s ->
       Frame.sessions_total (cols out) = F64.nan /\
       conversion_rate out = F64.zero /\
       revenue_per_session out = F64.zero /\
       exists k, In (MissingValues k) (snd (run df))) /\
    (Frame.units_ordered raw = Pd.Text s ->
       Frame.units_ordered (cols out) = F64.nan /\
       avg_order_value out = F64.zero /\
       exists k, In (MissingValues k) (snd (run df))).
Proof.
  intros Hi Hs.
  destruct (main_nth quantile75 contains_prime remove_prime_suffix extract_category df i raw Hi)
    as (out & Ho & Hc & Hcr & Ha & Hr & _).
  fold run in Ho. exists out. split; [exact Ho|].
  assert (Hin : In out (fst (run df))) by (apply (nth_error_In _ i), Ho).
  split.
  - intros E.
    assert (En : Frame.sessions_total (cols out) = F64.nan).
    { rewrite Hc. cbn. rewrite E. apply to_numeric_comma, Hs. }
    split; [exact En|]. rewrite Hcr, Hr, En.
    split; [reflexivity|]. split; [reflexivity|].
    eexists. rewrite (main_issues quantile75 contains_prime remove_prime_suffix extract_category).
    apply (missing_issue_in _ out (VFloat (Frame.sessions_total (cols out)))).
    + exact Hin.
    + cbn. auto 10.
    + rewrite En. reflexivity.
  - intros E.
    assert (En : Frame.units_ordered (cols out) = F64.nan).
    { rewrite Hc. cbn. rewrite E. apply to_numeric_comma, Hs. }
    split; [exact En|]. rewrite Ha, En.
    split; [reflexivity|].
    eexists. rewrite (main_issues quantile75 contains_prime remove_prime_suffix extract_category).
    apply (missing_issue_in _ out (VFloat (Frame.units_ordered (cols out)))).
    + exact Hin.
    + cbn. auto 20.
    + rewrite En. reflexivity.
Qed.

End Pipeline.

Lemma thousands_separator_reads_as_missing_witness :
  exists out,
    nth_error (fst (Examples.run_main [Examples.report_row "SKU-1" "1,234" "5" "£10.00" "90%"])) 0
    = Some out /\
    Frame.sessions_total (cols out) = F64.nan /\
    conversion_rate out = F64.zero /\
    revenue_per_session out = F64.zero /\
    exists k,
      In (MissingValues k)
         (snd (Examples.run_main [Examples.report_row "SKU-1" "1,234" "5" "£10.00" "90%"])).
Proof.
  destruct (thousands_separator_reads_as_missing
              Examples.quantile75 Examples.contains_prime Examples.remove_prime_suffix
              Examples.extract_category
              [Examples.report_row "SKU-1" "1,234" "5" "£10.00" "90%"] 0
              (Examples.report_row "SKU-1" "1,234" "5" "£10.00" "90%")
              (Str.u "1,234") eq_refl)
    as (out & Ho & Hs & _).
  - vm_compute. auto.
  - exists out. split; [exact Ho|]. apply Hs. reflexivity.
Defined.

Lemma gtb_nan_l x y : F64.is_nan x = true -> F64.gtb x y = false.
Proof. destruct x; try discriminate. destruct y; reflexivity. Qed.

Lemma gtb_nan_r x y : F64.is_nan y = true -> F64.gtb x y = false.
Proof. destruct y; try discriminate. destruct x; reflexivity. Qed.

(** X6.  A product is never flagged as a high performer on a missing
    number: [high_revenue] is false when the sales of the row are NaN,
    [high_conversion] is false when its conversion rate is NaN, and no row
    at all is flagged when the upper quartile of the column is NaN. *)
Theorem no_flag_without_a_number quantile75 df out :
  let frame := calculate_derived_metrics quantile75 df in
  In out frame ->
  (F64.is_nan (Frame.sales_total (cols out)) = true -> high_revenue out = false) /\
  (F64.is_nan (conversion_rate out) = true -> high_conversion out = false) /\
  (F64.is_nan (quantile75 (List.map (fun r => Frame.sales_total (cols r)) frame)) = true ->
   high_revenue out = false) /\
  (F64.is_nan (quantile75 (List.map conversion_rate frame)) = true ->
   high_conversion out = false).
Proof.
  intros frame Hin. unfold frame in *. unfold calculate_derived_metrics in *.
  rewrite !List.map_map. cbn [cols info conversion_rate].
  apply in_map_iff in Hin. destruct Hin as (r & <- & _).
  cbn [cols info conversion_rate high_revenue high_conversion].
  repeat split; intros H; first [apply gtb_nan_l, H | apply gtb_nan_r, H].
Qed.

Lemma no_flag_without_a_number_witness :
  Forall (fun out => high_revenue out = false /\ high_conversion out = false)
    (calculate_derived_metrics Examples.quantile75 Examples.sku_frame).
Proof.
  apply List.Forall_forall. intros out Hin.
  destruct (no_flag_without_a_number Examples.quantile75 Examples.sku_frame out Hin)
    as (_ & _ & Hr & Hc).
  split; [apply Hr | apply Hc]; reflexivity.
Defined.

End CleaningProps.

(** ** The end of [main] in [analyze_business_report.py] *)

Module SummaryFacts.

Import BusinessReport.

Lemma filter_nil_iff {A} (f : A -> bool) l :
  List.filter f l = [] <-> forall x, In x l -> f x = false.
Proof.
  split.
  - intros H x Hx. destruct (f x) eqn:E; [|reflexivity].
    assert (Hin : In x (List.filter f l)) by (apply filter_In; auto).
    rewrite H in Hin. destruct Hin.
  - intros H. induction l as [|a l IH]; simpl; [reflexivity|].
    rewrite (H a (or_introl eq_refl)). apply IH. intros x Hx. apply H. right. exact Hx.
Qed.

(** The comparison of Prime and other products raises exactly when the
    frame lacks one of the two kinds. *)
Lemma generate_summary_stats_none df :
  generate_summary_stats df = None <->
  (forall r, In r df -> Sku.is_prime (info r) = false) \/
  (forall r, In r df -> Sku.is_prime (info r) = true).
Proof.
  unfold generate_summary_stats, groupby_is_prime, loc.
  pose proof (filter_nil_iff (fun r => Sku.is_prime (info r)) df) as Hp.
  pose proof (filter_nil_iff (fun r => negb (Sku.is_prime (info r))) df) as Hn.
  cbv beta in Hp, Hn.
  destruct (List.filter (fun r => Sku.is_prime (info r)) df) as [|p ps];
    destruct (List.filter (fun r => negb (Sku.is_prime (info r))) df) as [|q qs];
    cbn; split; try discriminate; try (intros _; reflexivity);
    try (intros _; left; apply Hp; reflexivity);
    try (intros _; right; intros r Hr; apply negb_false_iff, Hn; [reflexivity | exact Hr]).
  intros [H | H].
  - destruct Hp as [_ Hp]. specialize (Hp H). discriminate.
  - destruct Hn as [_ Hn].
    assert (E : q :: qs = []) by (apply Hn; intros r Hr; rewrite (H r Hr); reflexivity).
    discriminate E.
Qed.

Section Run.

Variable quantile75 : list F64.float -> F64.float.
Variable contains_prime : Str.str -> bool.
Variable remove_prime_suffix : Str.str -> Str.str.
Variable extract_category : Str.str -> Pd.objcell.

Let run := main quantile75 contains_prime remove_prime_suffix extract_category.
Let finish := main_to_end quantile75 contains_prime remove_prime_suffix extract_category.
Let prime (raw : RawRow) : bool := str_contains_prime contains_prime (Frame.sku raw).

(** The column [is_prime] of the frame, row by row. *)
Lemma main_is_prime df :
  List.map (fun r => Sku.is_prime (info r)) (fst (run df)) = List.map prime df.
Proof.
  unfold run, main, calculate_derived_metrics, extract_sku_info,
    clean_numeric_columns, clean_currency_columns, clean_percentage_columns.
  cbn [fst]. rewrite !List.map_map. reflexivity.
Qed.

Lemma main_all_prime df b :
  (forall r, In r (fst (run df)) -> Sku.is_prime (info r) = b) <->
  (forall raw, In raw df -> prime raw = b).
Proof.
  pose proof (main_is_prime df) as E. split.
  - intros H raw Hraw.
    assert (Hin : In (prime raw) (List.map (fun r => Sku.is_prime (info r)) (fst (run df))))
      by (rewrite E; apply in_map, Hraw).
    apply in_map_iff in Hin. destruct Hin as (r & <- & Hr). apply H, Hr.
  - intros H r Hr.
    assert (Hin : In (Sku.is_prime (info r)) (List.map prime df))
      by (rewrite <- E; apply (in_map (fun r => Sku.is_prime (info r))), Hr).
    apply in_map_iff in Hin. destruct Hin as (raw & <- & Hraw). apply H, Hraw.
Qed.

(** Without the [.str] accessor no row has a SKU. *)
Lemma has_str_accessor_false {P C N : Type} (df : list (Frame.row P C N)) :
  has_str_accessor df = false -> forall r, In r df -> Frame.sku r = None.
Proof.
  unfold has_str_accessor. destruct df as [|r0 df]; [discriminate|].
  intros H r Hr. destruct (Frame.sku r) as [s|] eqn:E; [|reflexivity].
  assert (Hex : List.existsb
                  (fun r => match Frame.sku r with Some _ => true | None => false end)
                  (r0 :: df) = true)
    by (apply existsb_exists; exists r; rewrite E; auto).
  congruence.
Qed.

(** What [main] returns when it returns. *)
Lemma main_to_end_some df file_path out :
  finish df file_path = Some out ->
  has_str_accessor df = true /\ out = (fst (run df), save_cleaned_data file_path).
Proof.
  unfold finish, main_to_end. fold run.
  destruct (has_str_accessor df); [|discriminate].
  destruct (run df) as [frame issues]. cbn [fst].
  destruct (generate_summary_stats frame); [|discriminate].
  intros [= <-]. auto.
Qed.

(** [main] raises exactly when the report lacks one of the two kinds of
    product. *)
Lemma main_to_end_none df file_path :
  finish df file_path = None <->
  (forall raw, In raw df -> prime raw = false) \/ (forall raw, In raw df -> prime raw = true).
Proof.
  rewrite <- !main_all_prime, <- generate_summary_stats_none.
  unfold finish, main_to_end. fold run.
  destruct (has_str_accessor df) eqn:A.
  - destruct (run df) as [frame issues]. cbn [fst].
    destruct (generate_summary_stats frame); split; congruence.
  - split; [intros _ | reflexivity].
    apply generate_summary_stats_none. left. apply main_all_prime.
    intros raw Hraw. unfold prime. rewrite (has_str_accessor_false df A raw Hraw). reflexivity.
Qed.

(** [main] returns the frame of its steps when the report has both kinds
    of product. *)
Lemma main_to_end_returns df file_path p q :
  In p df -> prime p = true -> In q df -> prime q = false ->
  finish df file_path = Some (fst (run df), save_cleaned_data file_path).
Proof.
  intros Hp Ep Hq Eq.
  destruct (finish df file_path) as [out|] eqn:E.
  - apply main_to_end_some in E. destruct E as (_ & ->). reflexivity.
  - apply main_to_end_none in E. destruct E as [H | H].
    + rewrite (H p Hp) in Ep. discriminate.
    + rewrite (H q Hq) in Eq. discriminate.
Qed.

End Run.

End SummaryFacts.

Module SummaryProps.

Import BusinessReport SummaryFacts.

Section Run.

Variable quantile75 : list F64.float -> F64.float.
Variable contains_prime : Str.str -> bool.
Variable remove_prime_suffix : Str.str -> Str.str.
Variable extract_category : Str.str -> Pd.objcell.

(** X20.  [main] raises, before anything is saved, exactly when the
    report does not have both kinds of product: when no SKU is a Prime
    SKU (a row without SKU is none), in particular for a report without
    rows, or when every SKU is one.  It raises in [extract_sku_info] when
    the report has rows and none has a SKU, and in
    [generate_summary_stats] otherwise.  A report with both kinds of
    product makes it return. *)
Theorem summary_needs_prime_and_other_products df file_path :
  main_to_end quantile75 contains_prime remove_prime_suffix extract_category df file_path = None
  <->
  (forall raw, In raw df ->
     match Frame.sku raw with Some s => contains_prime s | None => false end = false) \/
  (forall raw, In raw df ->
     match Frame.sku raw with Some s => contains_prime s | None => false end = true).
Proof.
  apply (main_to_end_none quantile75 contains_prime remove_prime_suffix extract_category).
Qed.

End Run.

Lemma summary_needs_prime_and_other_products_witness :
  main_to_end Examples.quantile75 Examples.contains_prime Examples.remove_prime_suffix
    Examples.extract_category
    [Examples.report_row "SKU-1" "10" "1" "£5.00" "90%"] (Str.u "BusinessReport.csv") = None.
Proof.
  apply (proj2 (summary_needs_prime_and_other_products
                  Examples.quantile75 Examples.contains_prime Examples.remove_prime_suffix
                  Examples.extract_category
                  [Examples.report_row "SKU-1" "10" "1" "£5.00" "90%"]
                  (Str.u "BusinessReport.csv"))).
  left. intros raw [<- | []]. reflexivity.
Defined.

End SummaryProps.

(** ** [main] of [analyze_business_report.py], to its end *)

Module RunFacts.

Import BusinessReport QualityFacts.




End RunFacts.

Module RunProps.

Import FloatFacts MetricFacts ReportFacts QualityFacts SummaryFacts RunFacts BusinessReport.

Section Run.

Variable quantile75 : list F64.float -> F64.float.
Variable contains_prime : Str.str -> bool.
Variable remove_prime_suffix : Str.str -> Str.str.
Variable extract_category : Str.str -> Pd.objcell.

Let run := main quantile75 contains_prime remove_prime_suffix extract_category.
Let finish := main_to_end quantile75 contains_prime remove_prime_suffix extract_category.
Let prime (raw : RawRow) : bool := str_contains_prime contains_prime (Frame.sku raw).

(** C7.  A report with a row whose buy-box percentage is above 100, and
    with text in its SKU column.  The steps of [main] up to the
    data-quality check keep the row in its place with the percentage that
    cleaning gave it (150 stays 150: nothing clamps it), and the list of
    issues holds exactly one issue for the buy-box check, and one for the
    conversion-rate check exactly when a conversion rate is above 100.
    But [main] then goes on to [generate_summary_stats]: when no SKU of
    the report is a Prime SKU, or every SKU is one, it raises there, and
    nothing is returned or saved, so that the row is in no output.  Only
    a report with both kinds of product is returned, with the frame of
    the steps, and saved. *)
Theorem out_of_range_flagged_then_summary_raises :
  forall (df : list RawRow) (file_path : Str.str) i raw,
    has_str_accessor df = true ->
    nth_error df i = Some raw ->
    F64.gtb (clean_percentage (Frame.buy_box_percentage raw)) F64.f100 = true ->
    let frame := fst (run df) in
    let issues := snd (run df) in
    (exists out,
       nth_error frame i = Some out /\
       Frame.buy_box_percentage (cols out) = clean_percentage (Frame.buy_box_percentage raw)) /\
    List.filter (is_kind OutOfRange) issues =
      BuyBoxAbove100 ::
        (if List.existsb (fun r => F64.gtb (conversion_rate r) F64.f100) frame
         then [ConversionAbove100] else []) /\
    ((forall r, In r df -> prime r = false) \/ (forall r, In r df -> prime r = true) ->
     finish df file_path = None) /\
    (forall p q,
       In p df -> prime p = true -> In q df -> prime q = false ->
       finish df file_path = Some (frame, save_cleaned_data file_path)).
Proof.
  intros df file_path i raw _ Hi Hbb frame issues.
  destruct (main_nth quantile75 contains_prime remove_prime_suffix extract_category df i raw Hi)
    as (out & Ho & Hc & _).
  assert (Hb : Frame.buy_box_percentage (cols out)
               = clean_percentage (Frame.buy_box_percentage raw))
    by (rewrite Hc; reflexivity).
  split; [exists out; split; [exact Ho | exact Hb]|].
  split; [|split].
  - unfold issues.
    rewrite (main_issues quantile75 contains_prime remove_prime_suffix extract_category).
    rewrite issues_out_of_range. fold run frame.
    replace (List.existsb (fun r => F64.gtb (Frame.buy_box_percentage (cols r)) F64.f100) frame)
      with true; [reflexivity|].
    symmetry. apply existsb_exists. exists out. split.
    + apply (nth_error_In _ i), Ho.
    + rewrite Hb. exact Hbb.
  - intros H.
    apply (main_to_end_none quantile75 contains_prime remove_prime_suffix extract_category).
    exact H.
  - intros p q Hp Ep Hq Eq.
    apply (main_to_end_returns quantile75 contains_prime remove_prime_suffix extract_category
             df file_path p q); assumption.
Qed.


End Run.

(** A report of one product with a buy-box percentage of 150 and no Prime
    SKU: the issue is found, and [main] raises.  With a Prime product and
    another, [main] returns the three rows. *)
Lemma out_of_range_flagged_then_summary_raises_witness :
  List.map (fun r => Frame.buy_box_percentage (cols r))
    (fst (Examples.run_steps Examples.plain_report)) = [F64.f150] /\
  List.filter (is_kind OutOfRange) (snd (Examples.run_steps Examples.plain_report))
    = [BuyBoxAbove100] /\
  Examples.run_main_to_end Examples.plain_report = None /\
  Examples.run_main_to_end Examples.prime_report
    = Some (fst (Examples.run_steps Examples.prime_report),
            Str.u "BusinessReport-23-07-2025_cleaned.csv").
Proof.
  destruct (out_of_range_flagged_then_summary_raises
              Examples.quantile75 Examples.search_prime Examples.remove_prime_suffix
              Examples.extract_category Examples.plain_report
              (Str.u "BusinessReport-23-07-2025.csv") 0%nat _ eq_refl eq_refl eq_refl)
    as (_ & Hissues & Hnone & _).
  destruct (out_of_range_flagged_then_summary_raises
              Examples.quantile75 Examples.search_prime Examples.remove_prime_suffix
              Examples.extract_category Examples.prime_report
              (Str.u "BusinessReport-23-07-2025.csv") 0%nat _ eq_refl eq_refl eq_refl)
    as (_ & _ & _ & Hsome).
  split; [vm_compute; reflexivity|].
  split; [unfold Examples.run_steps; rewrite Hissues; vm_compute; reflexivity|].
  split.
  - apply Hnone. left. intros r [<- | []]. reflexivity.
  - apply (Hsome (Examples.report_row "SKU-1 - 002 Prime" "200" "50" "£1,000.00" "150%")
                 (Examples.report_row "SKU-2" "40" "2" "£9.00" "80%"));
      [left; reflexivity | reflexivity | right; left; reflexivity | reflexivity].
Defined.


End RunProps.

(** ** [str.replace] and the names of the files that the scripts write *)

Module ReplaceFacts.

Lemma starts_with_app old : forall s,
  Str.starts_with old s = true -> exists rest, s = old ++ rest.
Proof.
  induction old as [|a old IH]; intros s H.
  - exists s. reflexivity.
  - destruct s as [|b s]; [discriminate|]. simpl in H.
    apply andb_true_iff in H. destruct H as [Hab Hs].
    apply N.eqb_eq in Hab. subst b.
    destruct (IH s Hs) as [rest ->]. exists rest. reflexivity.
Qed.

Lemma starts_with_prefix old rest : Str.starts_with old (old ++ rest) = true.
Proof. induction old as [|a old IH]; simpl; [reflexivity|]. rewrite N.eqb_refl. exact IH. Qed.

Lemma replace_from_skip old new p : forall rest,
  Str.replace_from old new (length p) (p ++ rest) = Str.replace_from old new 0 rest.
Proof. induction p as [|a p IH]; intros rest; [reflexivity|]. simpl. apply IH. Qed.

(** An occurrence of [old] at the head is replaced, and the scan goes on
    behind it. *)
Lemma replace_occurrence old new rest :
  old <> [] -> Str.replace old new (old ++ rest) = new ++ Str.replace old new rest.
Proof.
  intros Hold. destruct old as [|a old]; [congruence|].
  unfold Str.replace. cbn [app Str.replace_from].
  change (a :: old ++ rest) with ((a :: old) ++ rest).
  rewrite starts_with_prefix. cbn [length Nat.pred].
  rewrite replace_from_skip. reflexivity.
Qed.

(** Otherwise the head is kept. *)
Lemma replace_other old new c s :
  Str.starts_with old (c :: s) = false ->
  Str.replace old new (c :: s) = c :: Str.replace old new s.
Proof. intros H. unfold Str.replace. cbn [Str.replace_from]. rewrite H. reflexivity. Qed.

(** Induction along the scan of [replace]. *)
Lemma replace_ind old new (P : Str.str -> Str.str -> Prop) :
  old <> [] ->
  P [] [] ->
  (forall rest out, P rest out -> P (old ++ rest) (new ++ out)) ->
  (forall c s out, Str.starts_with old (c :: s) = false -> P s out -> P (c :: s) (c :: out)) ->
  forall s, P s (Str.replace old new s).
Proof.
  intros Hold H0 H1 H2 s.
  remember (length s) as n eqn:Hn. revert s Hn.
  induction n as [n IH] using lt_wf_ind. intros s ->.
  destruct s as [|c s]; [exact H0|].
  destruct (Str.starts_with old (c :: s)) eqn:E.
  - destruct (starts_with_app _ _ E) as [rest Hr].
    rewrite Hr, replace_occurrence by exact Hold.
    apply H1. apply (IH (length rest)); [|reflexivity].
    rewrite Hr, length_app. destruct old; [congruence | simpl; lia].
  - rewrite replace_other by exact E.
    apply H2; [exact E|]. apply (IH (length s)); [simpl; lia | reflexivity].
Qed.

Lemma count_app c s t : Str.count c (s ++ t) = (Str.count c s + Str.count c t)%nat.
Proof. unfold Str.count. rewrite List.filter_app, length_app. reflexivity. Qed.

Lemma count_notin c s : ~ In c s -> Str.count c s = 0%nat.
Proof.
  unfold Str.count. induction s as [|a s IH]; intros H; [reflexivity|].
  simpl. destruct (N.eqb_spec c a) as [-> | Hca].
  - exfalso. apply H. left. reflexivity.
  - apply IH. intros Hin. apply H. right. exact Hin.
Qed.

Lemma count_cons c a s :
  Str.count c (a :: s) = ((if (c =? a)%N then 1 else 0) + Str.count c s)%nat.
Proof. unfold Str.count. simpl. destruct (c =? a)%N; reflexivity. Qed.

(** [replace] never lowers the number of the characters that [old] does
    not have. *)
Lemma count_replace_le c old new s :
  old <> [] -> ~ In c old ->
  (Str.count c s <= Str.count c (Str.replace old new s))%nat.
Proof.
  intros Hold Hc. apply (replace_ind old new (fun s out => (Str.count c s <= Str.count c out)%nat)).
  - exact Hold.
  - lia.
  - intros rest out H. rewrite !count_app, (count_notin c old Hc). lia.
  - intros a t out _ H. rewrite !count_cons. lia.
Qed.

(** A deletion keeps the number of the characters that [old] does not
    have. *)
Lemma count_delete c old s :
  old <> [] -> ~ In c old -> Str.count c (Str.replace old [] s) = Str.count c s.
Proof.
  intros Hold Hc. apply (replace_ind old [] (fun s out => Str.count c out = Str.count c s)).
  - exact Hold.
  - reflexivity.
  - intros rest out H. rewrite !count_app, (count_notin c old Hc). exact H.
  - intros a t out _ H. rewrite !count_cons, H. reflexivity.
Qed.

(** A deletion adds no character. *)
Lemma in_delete x old s : old <> [] -> In x (Str.replace old [] s) -> In x s.
Proof.
  intros Hold. apply (replace_ind old [] (fun s out => In x out -> In x s)).
  - exact Hold.
  - auto.
  - intros rest out H Hin. apply in_or_app. right. apply H, Hin.
  - intros a t out _ H [-> | Hin]; [left; reflexivity | right; apply H, Hin].
Qed.

(** No occurrence of a character is left when it is replaced by a text
    that does not have it. *)
Lemma replace_char_gone c new s : ~ In c new -> ~ In c (Str.replace [c] new s).
Proof.
  intros Hn. apply (replace_ind [c] new (fun s out => ~ In c out)).
  - discriminate.
  - auto.
  - intros rest out H Hin. apply in_app_or in Hin. tauto.
  - intros a t out E H [-> | Hin]; [|tauto].
    simpl in E. rewrite N.eqb_refl in E. discriminate.
Qed.

(** A text without the first character of [old] is left alone. *)
Lemma replace_without a old new s : ~ In a s -> Str.replace (a :: old) new s = s.
Proof.
  induction s as [|c s IH]; intros H; [reflexivity|].
  rewrite replace_other.
  - f_equal. apply IH. intros Hin. apply H. right. exact Hin.
  - simpl. destruct (N.eqb_spec a c) as [-> | Hac]; [|reflexivity].
    exfalso. apply H. left. reflexivity.
Qed.

Lemma replace_after a old new : forall stem rest,
  ~ In a stem ->
  Str.replace (a :: old) new (stem ++ rest) = stem ++ Str.replace (a :: old) new rest.
Proof.
  induction stem as [|c stem IH]; intros rest H; [reflexivity|].
  cbn [app]. rewrite replace_other.
  - f_equal. apply IH. intros Hin. apply H. right. exact Hin.
  - simpl. destruct (N.eqb_spec a c) as [-> | Hac]; [|reflexivity].
    exfalso. apply H. left. reflexivity.
Qed.

End ReplaceFacts.

Module FileNameProps.

Import ReplaceFacts.

Lemma csv_literal : Str.u ".csv" = [46; 99; 115; 118]%N.
Proof. reflexivity. Qed.

(** X7.  [save_cleaned_data] never names the file that it read: the
    output name differs from the input path, whatever the path.  For a
    path [stem.csv] whose stem has no dot the name is [stem_cleaned.csv],
    and a path without any dot only gets the suffix. *)
Theorem cleaned_file_is_a_new_file :
  (forall path, BusinessReport.save_cleaned_data path <> path) /\
  (forall stem, ~ In 46%N stem ->
     BusinessReport.save_cleaned_data (stem ++ Str.u ".csv") = stem ++ Str.u "_cleaned.csv") /\
  (forall path, ~ In 46%N path ->
     BusinessReport.save_cleaned_data path = path ++ Str.u "_cleaned.csv").
Proof.
  unfold BusinessReport.save_cleaned_data. rewrite csv_literal. split; [|split].
  - intros path H.
    assert (E : Str.count 95%N (Str.replace [46; 99; 115; 118]%N [] path ++ Str.u "_cleaned.csv")
                = Str.count 95%N path) by (rewrite H; reflexivity).
    rewrite count_app, count_delete in E; [| discriminate | cbn; intuition discriminate].
    change (Str.count 95%N (Str.u "_cleaned.csv")) with 1%nat in E. lia.
  - intros stem H. rewrite replace_after by exact H.
    change (Str.replace [46; 99; 115; 118]%N [] [46; 99; 115; 118]%N) with (@nil N).
    rewrite app_nil_r. reflexivity.
  - intros path H. rewrite replace_without by exact H. reflexivity.
Qed.

Lemma cleaned_file_is_a_new_file_witness :
  BusinessReport.save_cleaned_data
    (Str.u "/Users/jackweston/Projects/pre-prod/BusinessReport-23-07-2025.csv")
  = Str.u "/Users/jackweston/Projects/pre-prod/BusinessReport-23-07-2025_cleaned.csv".
Proof.
  destruct cleaned_file_is_a_new_file as (_ & H & _).
  apply (H (Str.u "/Users/jackweston/Projects/pre-prod/BusinessReport-23-07-2025")).
  vm_compute. intuition discriminate.
Defined.

(** X8.  The two names that [save_results] returns have no blank and no
    parenthesis, differ from each other, and differ from the name of the
    input file, whatever that name is. *)
Theorem result_files_are_new_files input_file :
  fst (NewReport.save_results input_file) <> input_file /\
  snd (NewReport.save_results input_file) <> input_file /\
  fst (NewReport.save_results input_file) <> snd (NewReport.save_results input_file) /\
  Forall (fun c => c <> 32%N /\ c <> 40%N /\ c <> 41%N)
    (fst (NewReport.save_results input_file) ++ snd (NewReport.save_results input_file)).
Proof.
  unfold NewReport.save_results, NewReport.output_prefix. cbn [fst snd].
  change (Str.u ".csv") with [46; 99; 115; 118]%N.
  change (Str.u " ") with [32%N]. change (Str.u "_") with [95%N].
  change (Str.u "(") with [40%N]. change (Str.u ")") with [41%N].
  set (p0 := Str.replace [46; 99; 115; 118]%N [] input_file).
  set (p1 := Str.replace [32%N] [95%N] p0).
  set (p2 := Str.replace [40%N] [] p1).
  set (p3 := Str.replace [41%N] [] p2).
  assert (Hcount : (Str.count 95%N input_file <= Str.count 95%N p3)%nat).
  { unfold p3, p2. rewrite !count_delete; try discriminate; try (cbn; intuition discriminate).
    unfold p1. etransitivity; [|apply count_replace_le; [discriminate | cbn; intuition discriminate]].
    unfold p0. rewrite count_delete; [lia | discriminate | cbn; intuition discriminate]. }
  assert (Hnew : forall suffix, Str.count 95%N suffix = 1%nat -> p3 ++ suffix <> input_file).
  { intros suffix Hs H.
    assert (E : Str.count 95%N (p3 ++ suffix) = Str.count 95%N input_file) by (rewrite H; reflexivity).
    rewrite count_app, Hs in E. lia. }
  split; [apply Hnew; reflexivity|]. split; [apply Hnew; reflexivity|].
  split.
  - intros H. apply app_inv_head in H. vm_compute in H. discriminate.
  - assert (H3 : ~ In 41%N p3) by (apply replace_char_gone; auto).
    assert (H2 : ~ In 40%N p3).
    { intros H. apply in_delete in H; [|discriminate].
      revert H. apply replace_char_gone. auto. }
    assert (H1 : ~ In 32%N p3).
    { intros H. apply in_delete in H; [|discriminate].
      apply in_delete in H; [|discriminate].
      revert H. apply replace_char_gone. cbn. intuition discriminate. }
    apply List.Forall_forall. intros c H.
    apply in_app_or in H. destruct H as [H | H]; apply in_app_or in H; destruct H as [H | H];
      try (repeat split; intros ->; contradiction);
      vm_compute in H; repeat split; intros ->; intuition discriminate.
Qed.

End FileNameProps.

(** ** The report of [analyze-best-sellers.py] *)

Module BestSellerFacts.

Import Py ParserFacts RowFacts BestSellers.

Local Open Scope Z_scope.

(** *** [strip] *)

Lemma lstrip_fixed s :
  match s with [] => True | c :: _ => Str.isspace c = false end -> Str.lstrip s = s.
Proof. destruct s as [|c s]; [reflexivity|]. simpl. intros ->. reflexivity. Qed.

Lemma lstrip_head s :
  match Str.lstrip s with [] => True | c :: _ => Str.isspace c = false end.
Proof.
  induction s as [|c s IH]; simpl; [exact I|].
  destruct (Str.isspace c) eqn:E; [exact IH | exact E].
Qed.

Lemma lstrip_snoc s c : Str.isspace c = false -> Str.lstrip (s ++ [c]) = Str.lstrip s ++ [c].
Proof.
  intros Hc. induction s as [|a s IH]; simpl.
  - rewrite Hc. reflexivity.
  - destruct (Str.isspace a); [exact IH | reflexivity].
Qed.

(** What is left of a text that does not begin with a blank does not
    begin with one when its trailing blanks are removed. *)
Lemma rstrip_head s :
  match s with [] => True | c :: _ => Str.isspace c = false end ->
  match Str.rstrip s with [] => True | c :: _ => Str.isspace c = false end.
Proof.
  unfold Str.rstrip. destruct s as [|c s]; [intros _; exact I|]. intros Hc.
  cbn [rev]. rewrite lstrip_snoc by exact Hc. rewrite rev_app_distr. exact Hc.
Qed.

Lemma rstrip_idempotent s : Str.rstrip (Str.rstrip s) = Str.rstrip s.
Proof.
  unfold Str.rstrip. rewrite rev_involutive.
  rewrite (lstrip_fixed (Str.lstrip (rev s))) by apply lstrip_head. reflexivity.
Qed.

(** [strip] leaves a stripped text alone. *)
Lemma strip_idempotent s : Str.strip (Str.strip s) = Str.strip s.
Proof.
  unfold Str.strip.
  rewrite (lstrip_fixed (Str.rstrip (Str.lstrip s))) by apply rstrip_head, lstrip_head.
  apply rstrip_idempotent.
Qed.

(** A text without blanks is left alone. *)
Lemma strip_without_blank s : (forall c, In c s -> Str.isspace c = false) -> Str.strip s = s.
Proof.
  intros H. unfold Str.strip, Str.rstrip.
  rewrite (lstrip_fixed s).
  - rewrite (lstrip_fixed (rev s)); [apply rev_involutive|].
    destruct (rev s) as [|c t] eqn:E; [exact I|].
    apply H. apply in_rev. rewrite E. left. reflexivity.
  - destruct s as [|c t]; [exact I|]. apply H. left. reflexivity.
Qed.

(** *** The loop *)

(** The text fields of a product are stripped cells of its row. *)
Lemma process_row_fields row p :
  process_row row = Ok (Some p) ->
  parent_asin p = Str.strip (get row (Str.u "(Parent) ASIN") []) /\
  child_asin p = Str.strip (get row (Str.u "(Child) ASIN") []) /\
  sku p = Str.strip (get row (Str.u "SKU") []) /\
  title p = Str.strip (get row (Str.u "Title") []).
Proof.
  unfold process_row.
  destruct (parse_number_returns (get row (Str.u "Units ordered") (Str.u "0"))) as [a ->].
  destruct (parse_number_returns (get row (Str.u "Units ordered – B2B") (Str.u "0"))) as [b ->].
  destruct (parse_currency_returns (get row (Str.u "Ordered Product Sales") (Str.u "£0"))) as [v ->].
  destruct (parse_currency_returns (get row (Str.u "Ordered product sales – B2B") (Str.u "£0"))) as [w ->].
  destruct (parse_number_returns (get row (Str.u "Sessions – Total") (Str.u "0"))) as [c ->].
  destruct (parse_number_returns (get row (Str.u "Sessions – Total – B2B") (Str.u "0"))) as [d ->].
  cbn [bind].
  destruct (_ || _); [discriminate|].
  destruct (conversion_rate_of (a + b) (c + d)) as [rate|e]; cbn [bind]; [|discriminate].
  intros [= <-]. cbn. auto.
Qed.

(** Every product of the list comes from a row, or was there before. *)
Lemma read_rows_in reader : forall products out p,
  read_rows reader products = Ok out -> In p out ->
  In p products \/ exists row, In row reader /\ process_row row = Ok (Some p).
Proof.
  induction reader as [|row rest IH]; intros products out p H Hin; simpl in H.
  - injection H as <-. left. exact Hin.
  - destruct (process_row row) as [[x|]|e] eqn:E; cbn [bind] in H; [| |discriminate].
    + destruct (IH _ _ p H Hin) as [Hp | (r & Hr & Hpr)].
      * apply in_app_or in Hp. destruct Hp as [Hp | [<- | []]]; [left; exact Hp|].
        right. exists row. split; [left; reflexivity | exact E].
      * right. exists r. split; [right; exact Hr | exact Hpr].
    + destruct (IH _ _ p H Hin) as [Hp | (r & Hr & Hpr)]; [left; exact Hp|].
      right. exists r. split; [right; exact Hr | exact Hpr].
Qed.

(** The loop raises nothing but [OverflowError]. *)
Lemma read_rows_raises reader : forall products e,
  read_rows reader products = Raise e -> e = OverflowError.
Proof.
  induction reader as [|row rest IH]; intros products e H; simpl in H; [discriminate|].
  destruct (process_row row) as [p|e'] eqn:E; cbn [bind] in H.
  - apply (IH _ _ H).
  - injection H as <-.
    destruct (skipped row) eqn:Hs.
    + rewrite (process_row_skipped row Hs) in E. discriminate.
    + destruct (process_row_kept row Hs) as (u & s & _ & [(p & Hp & _) | (e'' & He & Hc)]).
      * rewrite Hp in E. discriminate.
      * rewrite He in E. injection E as <-.
        apply (conversion_rate_of_raises _ _ _ Hc).
Qed.

(** When every row is skipped there is no product. *)
Lemma read_rows_all_skipped reader : forall products,
  (forall row, In row reader -> skipped row = true) ->
  read_rows reader products = Ok products.
Proof.
  induction reader as [|row rest IH]; intros products H; simpl; [reflexivity|].
  rewrite (process_row_skipped row) by (apply H; left; reflexivity).
  cbn [bind]. apply IH. intros r Hr. apply H. right. exact Hr.
Qed.

(** *** The sum and the average *)

Lemma sum_sales_value_float l : forall f,
  exists g, List.fold_left
              (fun acc p =>
                 match acc with
                 | Int z => Float (F64.add (F64.of_Z z) (sales_value p))
                 | Float f => Float (F64.add f (sales_value p))
                 end) l (Float f) = Float g.
Proof. induction l as [|p l IH]; intros f; simpl; [eauto | apply IH]. Qed.

(** The average raises exactly on the empty list, and then
    [ZeroDivisionError]. *)
Lemma average_sale_value_spec top :
  match top with
  | [] => average_sale_value top = Raise ZeroDivisionError
  | _ :: _ => exists v, average_sale_value top = Ok v
  end.
Proof.
  destruct top as [|p top]; [reflexivity|].
  unfold average_sale_value, sum_sales_value. cbn [List.fold_left].
  destruct (sum_sales_value_float top (F64.add (F64.of_Z 0) (sales_value p))) as [g ->].
  destruct (Z.eqb_spec (Z.of_nat (length (p :: top))) 0) as [E | _]; [|eauto].
  simpl in E. lia.
Qed.

Lemma filter_all {A} (f : A -> bool) l : (forall x, In x l -> f x = true) -> List.filter f l = l.
Proof.
  induction l as [|a l IH]; intros H; simpl; [reflexivity|].
  rewrite (H a (or_introl eq_refl)). f_equal. apply IH. intros x Hx. apply H. right. exact Hx.
Qed.

Lemma filter_none {A} (f : A -> bool) l : (forall x, In x l -> f x = false) -> List.filter f l = [].
Proof.
  induction l as [|a l IH]; intros H; simpl; [reflexivity|].
  rewrite (H a (or_introl eq_refl)). apply IH. intros x Hx. apply H. right. exact Hx.
Qed.

Lemma in_firstn {A} n (l : list A) x : In x (firstn n l) -> In x l.
Proof.
  intros H. rewrite <- (firstn_skipn n l). apply in_or_app. left. exact H.
Qed.

(** The stand-in for the sort rearranges the list. *)
Lemma insert_product_permutation p l : Permutation (Examples.insert_product p l) (p :: l).
Proof.
  induction l as [|q t IH]; simpl; [reflexivity|].
  destruct (Examples.key_ltb p q); [|reflexivity].
  rewrite IH. apply perm_swap.
Qed.

Lemma sort_products_permutation l : Permutation (Examples.sort_products l) l.
Proof.
  induction l as [|p l IH]; simpl; [reflexivity|].
  rewrite insert_product_permutation, IH. reflexivity.
Qed.

End BestSellerFacts.

Module BestSellerProps.

Import Py ParserFacts RowFacts BestSellers BestSellerFacts.

Local Open Scope Z_scope.

(** X9.  The title of a line of the report is never longer than thirty
    characters: a title of up to thirty characters is printed whole, a
    longer one is cut to its first twenty-seven characters and three
    dots. *)
Theorem title_short_fits p :
  (length (title_short p) <= 30)%nat /\
  ((length (title p) <= 30)%nat -> title_short p = title p) /\
  ((30 < length (title p))%nat ->
     title_short p = firstn 27 (title p) ++ Str.u "..." /\ length (title_short p) = 30%nat).
Proof.
  unfold title_short. destruct (Nat.ltb_spec 30 (length (title p))) as [H | H].
  - assert (E : length (firstn 27 (title p) ++ Str.u "...") = 30%nat).
    { rewrite length_app, length_firstn. change (length (Str.u "...")) with 3%nat. lia. }
    split; [lia|]. split; [lia | auto].
  - split; [exact H|]. split; [reflexivity | lia].
Qed.

Lemma title_short_fits_witness :
  let p := {| parent_asin := []; child_asin := Str.u "B001"; sku := Str.u "A1";
              title := Str.u "Stainless Steel Water Bottle 750ml Blue";
              units_ordered := 5; sales_value := F64.f10; sessions := 100;
              conversion_rate := Float F64.f5 |} in
  title_short p = Str.u "Stainless Steel Water Bottl..." /\ length (title_short p) = 30%nat.
Proof.
  intros p. destruct (title_short_fits p) as (_ & _ & H).
  apply H. vm_compute. lia.
Defined.

Section Report.

Variable sort : list product -> list product.
Hypothesis sort_permutation : forall products, Permutation (sort products) products.

Lemma in_top_100 products p : In p (top_100 sort products) -> In p products.
Proof.
  intros H. apply in_firstn in H.
  apply (Permutation_in _ (sort_permutation products)), H.
Qed.

Lemma top_100_length products :
  length (top_100 sort products) = Nat.min 100 (length products).
Proof.
  unfold top_100. rewrite length_firstn, (Permutation_length (sort_permutation products)).
  reflexivity.
Qed.

(** X10.  The data-quality check at the end of the script cannot find
    anything: every product that the loop kept has a SKU and a child ASIN,
    so the lists of products without one are empty and the lists of ASINs
    and of SKUs have one entry for each of the best sellers, of which
    there are a hundred or, when fewer rows were kept, as many as were
    kept. *)
Theorem quality_check_finds_nothing reader r :
  script sort reader = Ok r ->
  without_asin r = [] /\ without_sku r = [] /\
  length (asin_list r) = length (best_sellers r) /\
  length (sku_list r) = length (best_sellers r) /\
  length (best_sellers r) =
    Nat.min 100 (length (List.filter (fun row => negb (skipped row)) reader)).
Proof.
  unfold script. intros H.
  destruct (read_products reader) as [products|e] eqn:E; cbn [bind] in H; [|discriminate].
  destruct (average_sale_value (top_100 sort products)) as [avg|e]; cbn [bind] in H; [|discriminate].
  injection H as <-. cbn.
  destruct (read_rows_spec reader [] products E) as (added & -> & Hl & _ & Hf).
  cbn [app]. rewrite List.Forall_forall in Hf.
  assert (Hp : forall p, In p (top_100 sort added) ->
                 Str.is_empty (sku p) = false /\ Str.is_empty (child_asin p) = false).
  { intros p Hin. apply Hf, in_top_100, Hin. }
  unfold missing_asin, missing_sku, asins, skus.
  rewrite !length_map.
  rewrite (filter_none (fun p => Str.is_empty (child_asin p))) by (intros p Hin; apply (Hp p Hin)).
  rewrite (filter_none (fun p => Str.is_empty (sku p))) by (intros p Hin; apply (Hp p Hin)).
  rewrite (filter_all (fun p => negb (Str.is_empty (child_asin p))))
    by (intros p Hin; destruct (Hp p Hin) as [_ ->]; reflexivity).
  rewrite (filter_all (fun p => negb (Str.is_empty (sku p))))
    by (intros p Hin; destruct (Hp p Hin) as [-> _]; reflexivity).
  rewrite top_100_length, Hl. auto.
Qed.

(** X11.  The script ends with [ZeroDivisionError], at the average sale
    value, exactly when the loop keeps no row: when every row of the file
    lacks a SKU or a child ASIN, and so for a file without rows. *)
Theorem no_product_no_report reader :
  script sort reader = Raise ZeroDivisionError <->
  (forall row, In row reader -> skipped row = true).
Proof.
  unfold script. split.
  - intros H.
    destruct (read_products reader) as [products|e] eqn:E; cbn [bind] in H.
    + destruct (read_rows_spec reader [] products E) as (added & -> & Hl & _).
      cbn [app] in *.
      pose proof (average_sale_value_spec (top_100 sort added)) as Ha.
      pose proof (top_100_length added) as Ht.
      destruct (top_100 sort added) as [|p top].
      * destruct added as [|p added]; [|simpl in Ht; discriminate].
        intros row Hin. destruct (skipped row) eqn:Hs; [reflexivity|].
        assert (Hr : In row (List.filter (fun row => negb (skipped row)) reader)).
        { apply filter_In. split; [exact Hin|]. rewrite Hs. reflexivity. }
        destruct (List.filter _ reader); [destruct Hr | discriminate].
      * destruct Ha as [v Ha]. rewrite Ha in H. discriminate.
    + injection H as ->. apply read_rows_raises in E. discriminate.
  - intros H. unfold read_products. rewrite (read_rows_all_skipped reader [] H). cbn [bind].
    assert (Et : top_100 sort [] = []).
    { pose proof (top_100_length []) as Ht. destruct (top_100 sort []); [reflexivity | discriminate]. }
    rewrite Et. reflexivity.
Qed.

End Report.

Lemma quality_check_finds_nothing_witness :
  exists r,
    script Examples.sort_products Examples.ten_rows = Ok r /\
    without_asin r = [] /\ without_sku r = [] /\
    length (asin_list r) = length (best_sellers r) /\
    length (sku_list r) = length (best_sellers r) /\
    length (best_sellers r) =
      Nat.min 100 (length (List.filter (fun row => negb (skipped row)) Examples.ten_rows)).
Proof.
  destruct (script Examples.sort_products Examples.ten_rows) as [r|e] eqn:E.
  - exists r. split; [reflexivity|].
    apply (quality_check_finds_nothing Examples.sort_products sort_products_permutation
             Examples.ten_rows r E).
  - vm_compute in E. discriminate E.
Defined.

Lemma no_product_no_report_witness :
  script Examples.sort_products
    [ Examples.csv_row "" "B003" "2" "£5.00" "10"; Examples.csv_row "A7" "  " "4" "£8.00" "20" ]
  = Raise ZeroDivisionError.
Proof.
  apply (proj2 (no_product_no_report Examples.sort_products sort_products_permutation _)).
  intros row [<- | [<- | []]]; vm_compute; reflexivity.
Defined.

(** X12.  The parent ASIN, the child ASIN, the SKU and the title of every
    product are stripped: stripping them again changes nothing. *)
Theorem product_fields_are_stripped reader products :
  read_products reader = Ok products ->
  Forall (fun p => Str.strip (parent_asin p) = parent_asin p /\
                   Str.strip (child_asin p) = child_asin p /\
                   Str.strip (sku p) = sku p /\
                   Str.strip (title p) = title p) products.
Proof.
  intros H. apply List.Forall_forall. intros p Hin.
  destruct (read_rows_in reader [] products p H Hin) as [[] | (row & _ & Hp)].
  destruct (process_row_fields row p Hp) as (-> & -> & -> & ->).
  rewrite !strip_idempotent. auto.
Qed.

Lemma product_fields_are_stripped_witness :
  exists products,
    read_products Examples.ten_rows = Ok products /\
    Forall (fun p => Str.strip (parent_asin p) = parent_asin p /\
                     Str.strip (child_asin p) = child_asin p /\
                     Str.strip (sku p) = sku p /\
                     Str.strip (title p) = title p) products.
Proof.
  destruct (read_products Examples.ten_rows) as [products|e] eqn:E.
  - exists products. split; [reflexivity|].
    apply (product_fields_are_stripped Examples.ten_rows products E).
  - vm_compute in E. discriminate E.
Defined.

(** X13.  Columns that the file does not have.  A row without the column
    [SKU] or without the column [(Child) ASIN] is skipped.  A row that is
    kept and has none of the six columns of units, sales and sessions
    gives a product with 0 units, sales of 0.0, 0 sessions and the
    conversion rate 0: the lookups fall back on ['0'] and ['£0']. *)
Theorem absent_columns_count_as_zero row :
  (row !! Str.u "SKU" = None \/ row !! Str.u "(Child) ASIN" = None ->
   process_row row = Ok None) /\
  (row !! Str.u "Units ordered" = None ->
   row !! Str.u "Units ordered – B2B" = None ->
   row !! Str.u "Ordered Product Sales" = None ->
   row !! Str.u "Ordered product sales – B2B" = None ->
   row !! Str.u "Sessions – Total" = None ->
   row !! Str.u "Sessions – Total – B2B" = None ->
   skipped row = false ->
   exists p, process_row row = Ok (Some p) /\
             units_ordered p = 0 /\ sales_value p = F64.zero /\
             sessions p = 0 /\ conversion_rate p = Int 0).
Proof.
  split.
  - intros H. apply process_row_skipped. unfold skipped, get.
    destruct H as [-> | ->]; [reflexivity | apply orb_true_r].
  - intros H1 H2 H3 H4 H5 H6 Hs. unfold skipped, get in Hs.
    unfold process_row, get.
    rewrite H1, H2, H3, H4, H5, H6. cbn [default].
    change (parse_number (Str.u "0")) with (@Ok Z 0).
    change (parse_currency (Str.u "£0")) with (Ok F64.zero).
    cbn [bind]. rewrite Hs.
    eexists. split; [reflexivity|]. cbn. auto.
Qed.

Lemma absent_columns_count_as_zero_witness :
  exists p,
    process_row (<[Str.u "SKU" := Str.u "A1"]> (<[Str.u "(Child) ASIN" := Str.u "B001"]> ∅))
    = Ok (Some p) /\
    units_ordered p = 0 /\ sales_value p = F64.zero /\
    sessions p = 0 /\ conversion_rate p = Int 0.
Proof.
  destruct (absent_columns_count_as_zero
              (<[Str.u "SKU" := Str.u "A1"]> (<[Str.u "(Child) ASIN" := Str.u "B001"]> ∅)))
    as (_ & H).
  apply H; vm_compute; reflexivity.
Defined.

End BestSellerProps.

(** ** [int] reads what [str] writes *)

Module NumeralFacts.

Import Py PyNum ParserFacts BestSellerFacts.

Local Open Scope Z_scope.

Lemma digits_of_uint_digits d c :
  In c (digits_of_uint d) -> Str.isdigit_ascii c = true.
Proof.
  induction d; simpl; intros H; try (destruct H as [<- | H]; [reflexivity | auto]).
  destruct H.
Qed.

Lemma digits_of_uint_nonnil d : d <> Decimal.Nil -> digits_of_uint d <> [].
Proof. destruct d; simpl; congruence. Qed.

Lemma scan_digit c t acc n :
  Str.isdigit_ascii c = true ->
  scan_int_digits (c :: t) acc n false =
  scan_int_digits t (10 * acc + (Z.of_N c - 48)) (S n) false.
Proof. intros H. cbn [scan_int_digits]. rewrite H. reflexivity. Qed.

Ltac scan_step IH :=
  cbn [digits_of_uint Pos.of_uint_acc Pos.of_uint length];
  rewrite scan_digit by reflexivity;
  match goal with
  | |- scan_int_digits _ ?a _ _ = Some (Zpos (Pos.of_uint_acc _ ?q), _) =>
      replace a with (Zpos q) by (simpl (Z.of_N _); lia)
  | |- scan_int_digits _ ?a _ _ = Some (Z.of_N (N.pos (Pos.of_uint_acc _ ?q)), _) =>
      replace a with (Zpos q) by (simpl (Z.of_N _); lia)
  | _ => idtac
  end;
  rewrite IH; f_equal; f_equal; lia.

(** The digits of a numeral, read after a positive value. *)
Lemma scan_int_digits_acc d : forall p n,
  scan_int_digits (digits_of_uint d) (Zpos p) n false =
  Some (Zpos (Pos.of_uint_acc d p), (n + length (digits_of_uint d))%nat).
Proof.
  induction d as [|d IH|d IH|d IH|d IH|d IH|d IH|d IH|d IH|d IH|d IH]; intros p n;
    [cbn; rewrite Nat.add_0_r; reflexivity | scan_step IH ..].
Qed.

(** The digits of a numeral, read from the start. *)
Lemma scan_int_digits_uint d : forall n,
  scan_int_digits (digits_of_uint d) 0 n false =
  Some (Z.of_N (Pos.of_uint d), (n + length (digits_of_uint d))%nat).
Proof.
  induction d as [|d IH|d IH|d IH|d IH|d IH|d IH|d IH|d IH|d IH|d IH]; intros n;
    [cbn; rewrite Nat.add_0_r; reflexivity
    | cbn [digits_of_uint Pos.of_uint length]; rewrite scan_digit by reflexivity;
      change (10 * 0 + (Z.of_N 48 - 48)) with 0; rewrite IH; f_equal; f_equal; lia
    | scan_step scan_int_digits_acc ..].
Qed.

Lemma to_ascii_ascii s : List.forallb (fun c => (c <? 128)%N) s = true -> to_ascii s = s.
Proof. intros H. unfold to_ascii. rewrite H. reflexivity. Qed.

Lemma lstrip_ascii_fixed s :
  match s with [] => True | c :: _ => Str.isspace_ascii c = false end -> Pd.lstrip_ascii s = s.
Proof. destruct s as [|c s]; [reflexivity|]. simpl. intros ->. reflexivity. Qed.

Lemma strip_ascii_without_blank s :
  (forall c, In c s -> Str.isspace_ascii c = false) -> strip_ascii s = s.
Proof.
  intros H. unfold strip_ascii.
  change (rev (Pd.lstrip_ascii (rev (Pd.lstrip_ascii s))) = s).
  rewrite (lstrip_ascii_fixed s).
  - rewrite (lstrip_ascii_fixed (rev s)); [apply rev_involutive|].
    destruct (rev s) as [|c t] eqn:E; [exact I|].
    apply H. apply in_rev. rewrite E. left. reflexivity.
  - destruct s as [|c t]; [exact I|]. apply H. left. reflexivity.
Qed.

Lemma digit_cases (c : N) :
  Str.isdigit_ascii c = true ->
  (c = 48 \/ c = 49 \/ c = 50 \/ c = 51 \/ c = 52 \/ c = 53 \/ c = 54 \/ c = 55 \/ c = 56 \/ c = 57)%N.
Proof.
  unfold Str.isdigit_ascii. intros H. apply andb_true_iff in H. destruct H as [H1 H2].
  apply N.leb_le in H1, H2. lia.
Qed.

(** [int] reads the decimal digits of a numeral as its value. *)
Lemma int_of_digits (neg : bool) d :
  d <> Decimal.Nil -> (length (digits_of_uint d) <= max_str_digits)%nat ->
  int_of_str ((if neg then [45%N] else []) ++ digits_of_uint d) =
  Ok (if neg then - Z.of_N (Pos.of_uint d) else Z.of_N (Pos.of_uint d)).
Proof.
  intros Hd Hlen.
  assert (Hchars : forall c, In c ((if neg then [45%N] else []) ++ digits_of_uint d) ->
                     c = 45%N \/ Str.isdigit_ascii c = true).
  { intros c Hc. apply in_app_or in Hc. destruct Hc as [Hc | Hc].
    - destruct neg; [destruct Hc as [<- | []]; left; reflexivity | destruct Hc].
    - right. apply (digits_of_uint_digits d c Hc). }
  unfold int_of_str. rewrite to_ascii_ascii, strip_ascii_without_blank.
  - assert (Ht : take_sign ((if neg then [45%N] else []) ++ digits_of_uint d)
                 = (neg, digits_of_uint d)).
    { destruct neg; [reflexivity|]. cbn [app].
      destruct (digits_of_uint d) as [|c t] eqn:E; [reflexivity|].
      assert (Hc : Str.isdigit_ascii c = true)
        by (apply (digits_of_uint_digits d); rewrite E; left; reflexivity).
      destruct (digit_cases c Hc) as [-> | [-> | [-> | [-> | [-> | [-> | [-> | [-> | [-> | ->]]]]]]]]];
        reflexivity. }
    rewrite Ht.
    destruct (digits_of_uint d) as [|c t] eqn:E; [exfalso; apply (digits_of_uint_nonnil d Hd E)|].
    rewrite (digits_of_uint_digits d c) by (rewrite E; left; reflexivity).
    rewrite <- E in Hlen |- *. rewrite scan_int_digits_uint. cbn [Nat.add].
    destruct (Nat.ltb_spec max_str_digits (length (digits_of_uint d))); [lia | reflexivity].
  - intros c Hc. destruct (Hchars c Hc) as [-> | H]; [reflexivity|].
    destruct (digit_cases c H) as [-> | [-> | [-> | [-> | [-> | [-> | [-> | [-> | [-> | ->]]]]]]]]];
      reflexivity.
  - apply forallb_forall. intros c Hc. destruct (Hchars c Hc) as [-> | H]; [reflexivity|].
    destruct (digit_cases c H) as [-> | [-> | [-> | [-> | [-> | [-> | [-> | [-> | [-> | ->]]]]]]]]];
      reflexivity.
Qed.

(** [int(str(n)) == n], as long as [int] accepts the number of digits. *)
Lemma int_of_str_of_int z :
  (length (str_of_int z) <= max_str_digits)%nat -> int_of_str (str_of_int z) = Ok z.
Proof.
  unfold str_of_int. intros Hlen.
  pose proof (DecimalZ.of_to z) as Hz.
  destruct z as [|p|p]; cbn [Z.to_int] in *.
  - reflexivity.
  - pose proof (int_of_digits false (Pos.to_uint p)
                  (DecimalPos.Unsigned.to_uint_nonnil p) Hlen) as H.
    cbn [app] in H. rewrite H. f_equal. exact Hz.
  - cbn [length] in Hlen.
    assert (Hl : (length (digits_of_uint (Pos.to_uint p)) <= max_str_digits)%nat) by lia.
    pose proof (int_of_digits true (Pos.to_uint p)
                  (DecimalPos.Unsigned.to_uint_nonnil p) Hl) as H.
    cbn [app] in H. rewrite H. f_equal. exact Hz.
Qed.

Lemma str_of_int_chars z c :
  In c (str_of_int z) -> c = 45%N \/ Str.isdigit_ascii c = true.
Proof.
  unfold str_of_int. destruct (Z.to_int z) as [d|d]; intros H.
  - right. apply (digits_of_uint_digits d c H).
  - destruct H as [<- | H]; [left; reflexivity | right; apply (digits_of_uint_digits d c H)].
Qed.

Lemma str_of_int_nonempty z : str_of_int z <> [].
Proof.
  unfold str_of_int. destruct z as [|p|p]; cbn [Z.to_int]; try discriminate.
  apply digits_of_uint_nonnil, DecimalPos.Unsigned.to_uint_nonnil.
Qed.

End NumeralFacts.

Module NumeralProps.

Import Py PyNum ParserFacts BestSellerFacts NumeralFacts.

Local Open Scope Z_scope.

(** X14.  [parse_number] reads back every count that Python writes,
    whatever commas separate its digits: when [s] without its commas is
    [str(n)], of at most 4300 characters, [parse_number(s)] is [n]; so
    for digits grouped in threes, as in ['1,234,567'], and for a negative
    count. *)
Theorem parse_number_reads_separated_digits s n :
  Str.re_sub_class [44%N] s = str_of_int n ->
  (length (str_of_int n) <= 4300)%nat ->
  BestSellers.parse_number s = Ok n.
Proof.
  intros Hs Hlen. unfold BestSellers.parse_number.
  assert (Hchars : forall c, In c s -> Str.isspace c = false).
  { intros c Hc. destruct (N.eq_dec c 44%N) as [-> | Hn]; [reflexivity|].
    assert (Hin : In c (str_of_int n)).
    { rewrite <- Hs. apply filter_In. split; [exact Hc|].
      cbn. apply N.eqb_neq in Hn. rewrite Hn. reflexivity. }
    destruct (str_of_int_chars n c Hin) as [-> | H]; [reflexivity|].
    destruct (digit_cases c H) as [-> | [-> | [-> | [-> | [-> | [-> | [-> | [-> | [-> | ->]]]]]]]]];
      reflexivity. }
  rewrite (strip_without_blank s Hchars), Hs.
  destruct s as [|c t].
  - exfalso. apply (str_of_int_nonempty n). rewrite <- Hs. reflexivity.
  - cbn [Str.is_empty Str.eqb orb].
    rewrite (int_of_str_of_int n Hlen). reflexivity.
Qed.

Lemma parse_number_reads_separated_digits_witness :
  BestSellers.parse_number (Str.u "1,234,567") = Ok 1234567.
Proof.
  apply parse_number_reads_separated_digits.
  - vm_compute. reflexivity.
  - vm_compute. lia.
Defined.

End NumeralProps.

(** ** The comparison of two weeks *)

Module WeeklyProps.

Import WeeklySales CoerceFacts.

(** X15.  A product of one week only.  An ASIN that only week 29 has is a
    [NEW_PRODUCT] with a change of 100 per cent when its sales are above
    zero, and [STABLE] with a change of 0 otherwise.  An ASIN that only
    week 28 has is [DISCONTINUED] when its sales were above zero, and
    [STABLE] with a change of 0 otherwise. *)
Theorem product_of_one_week d :
  let new := compare_product None (Some d) in
  let old := compare_product (Some d) None in
  Week28_Sales new = F64.zero /\ Week29_Sales old = F64.zero /\
  (if F64.gtb (Ordered_Product_Sales d) F64.zero
   then Status new = NEW_PRODUCT /\ Sales_Change_Percent new = F64.f100 /\
        Status old = DISCONTINUED
   else Status new = STABLE /\ Sales_Change_Percent new = F64.zero /\
        Status old = STABLE /\ Sales_Change_Percent old = F64.zero).
Proof.
  unfold compare_product, classify, change_percent. cbn.
  split; [reflexivity|]. split; [reflexivity|].
  destruct (Ordered_Product_Sales d) as [[]|[]| |[] m e]; cbn; auto.
Qed.

(** X16.  Without sales above zero in week 28 no product is reported as
    decreasing or discontinued, and the percentage is a constant: with
    sales above zero in week 29 the change is 100 per cent and the status
    [NEW_PRODUCT] (week 28 at zero) or [MAJOR_INCREASE] (week 28 below
    zero, or not a number); otherwise the change is 0 and the status
    [STABLE], whatever the two amounts are. *)
Theorem no_decrease_without_sales week28_data week29_data :
  let c := compare_product week28_data week29_data in
  F64.gtb (Week28_Sales c) F64.zero = false ->
  if F64.gtb (Week29_Sales c) F64.zero
  then Sales_Change_Percent c = F64.f100 /\
       Status c = (if F64.eqb (Week28_Sales c) F64.zero then NEW_PRODUCT else MAJOR_INCREASE)
  else Sales_Change_Percent c = F64.zero /\ Status c = STABLE.
Proof.
  unfold compare_product, classify, change_percent. cbn [Week28_Sales Week29_Sales
    Sales_Change_Percent Status].
  set (w28 := match week28_data with Some d => Ordered_Product_Sales d | None => F64.zero end).
  set (w29 := match week29_data with Some d => Ordered_Product_Sales d | None => F64.zero end).
  intros H. rewrite H.
  destruct (F64.gtb w29 F64.zero) eqn:G.
  - split; [reflexivity|]. rewrite andb_true_r. cbn [andb].
    destruct (F64.eqb w28 F64.zero); reflexivity.
  - split; [reflexivity|]. rewrite andb_false_r. cbn [andb]. reflexivity.
Qed.

Lemma no_decrease_without_sales_witness :
  let c := compare_product
             (Some {| Title := None; SKU := None;
                      Ordered_Product_Sales := SFopp F64.f12_7 |})
             (Some {| Title := None; SKU := None; Ordered_Product_Sales := F64.f5 |}) in
  Sales_Change_Percent c = F64.f100 /\ Status c = MAJOR_INCREASE.
Proof.
  apply (no_decrease_without_sales
           (Some {| Title := None; SKU := None;
                    Ordered_Product_Sales := SFopp F64.f12_7 |})
           (Some {| Title := None; SKU := None; Ordered_Product_Sales := F64.f5 |})).
  reflexivity.
Defined.

(** X17.  A cell of a count column of [load_and_clean_data] is never
    missing: whatever [pd.to_numeric] cannot read counts as zero, and so
    does every count that is written with a thousands separator. *)
Theorem weekly_count_defaults_to_zero :
  (forall c, F64.is_nan (clean_numeric c) = false) /\
  (forall c, F64.is_nan (Pd.to_numeric_coerce c) = true -> clean_numeric c = F64.zero) /\
  (forall s, In 44%N s -> clean_numeric (Pd.Text s) = F64.zero).
Proof.
  unfold clean_numeric. split; [|split].
  - intros c. destruct (F64.is_nan (Pd.to_numeric_coerce c)) eqn:E; [reflexivity | exact E].
  - intros c ->. reflexivity.
  - intros s H. rewrite (to_numeric_comma s H). reflexivity.
Qed.

Lemma weekly_count_defaults_to_zero_witness :
  clean_numeric (Pd.Text (Str.u "1,234")) = F64.zero.
Proof.
  destruct weekly_count_defaults_to_zero as (_ & _ & H).
  apply H. vm_compute. auto.
Defined.

End WeeklyProps.

(** ** The loader of [enhanced_traffic_conversion_analysis.py] *)

Module TrafficFacts.

Import Py EnhancedTraffic.

Lemma div_finite_inv x y :
  F64.is_finite (F64.div x y) = true ->
  F64.is_finite x = true /\ F64.is_nan y = false /\ F64.eqb y F64.zero = false.
Proof.
  destruct x as [sx|sx| |sx mx ex], y as [sy|sy| |sy my ey]; cbn; try discriminate; auto.
  all: intros _; repeat split; destruct sy; reflexivity.
Qed.

Lemma mul_finite_inv x y :
  F64.is_finite (F64.mul x y) = true -> F64.is_finite x = true /\ F64.is_finite y = true.
Proof.
  destruct x as [sx|sx| |sx mx ex], y as [sy|sy| |sy my ey]; cbn; try discriminate; auto.
Qed.

Lemma rint_finite_inv x : F64.is_finite (F64.rint x) = true -> F64.is_finite x = true.
Proof. destruct x; cbn; auto. Qed.

Lemma round2_finite_inv x : F64.is_finite (round2 x) = true -> F64.is_finite x = true.
Proof.
  unfold round2. intros H.
  apply div_finite_inv in H. destruct H as (H & _).
  apply rint_finite_inv, mul_finite_inv in H. apply H.
Qed.

Lemma filter_sublist {A} (f : A -> bool) l : sublist (List.filter f l) l.
Proof.
  induction l as [|a l IH]; simpl; [constructor|].
  destruct (f a); [apply sublist_skip | apply sublist_cons]; exact IH.
Qed.

End TrafficFacts.

Module TrafficProps.

Import Py EnhancedTraffic TrafficFacts.

(** X18.  [load_and_clean_data] drops every product without units or
    without sessions: in each row that it returns the units are a number
    other than zero, the sessions are not zero and not missing, the sales
    are a number, and the conversion rate and the average order value are
    finite.  The rows that it keeps are rows of the cleaned frame, in
    their order. *)
Theorem rows_without_units_are_dropped df out :
  load_and_clean_data df = Ok out ->
  (exists cleaned, clean_numeric_columns df = Ok cleaned /\
                   sublist out (List.map calculate_metrics cleaned)) /\
  Forall (fun r =>
            F64.is_finite (units (base r)) = true /\
            F64.eqb (units (base r)) F64.zero = false /\
            F64.is_nan (sessions (base r)) = false /\
            F64.eqb (sessions (base r)) F64.zero = false /\
            F64.is_finite (sales (base r)) = true /\
            F64.is_finite (conversion_rate r) = true /\
            F64.is_finite (aov r) = true) out.
Proof.
  unfold load_and_clean_data. intros H.
  destruct (clean_numeric_columns df) as [cleaned|e]; cbn [bind] in H; [|discriminate].
  injection H as <-. split.
  - exists cleaned. split; [reflexivity|].
    etransitivity; apply filter_sublist.
  - apply List.Forall_forall. intros r Hr.
    apply filter_In in Hr. destruct Hr as (Hr & Ha).
    apply filter_In in Hr. destruct Hr as (Hr & Hc).
    apply in_map_iff in Hr. destruct Hr as (c & <- & _).
    unfold notna_and_isfinite in Ha, Hc.
    apply andb_true_iff in Ha, Hc. destruct Ha as (_ & Ha). destruct Hc as (_ & Hc).
    cbn [calculate_metrics base conversion_rate aov] in *.
    pose proof (round2_finite_inv _ Hc) as Hc'.
    apply mul_finite_inv in Hc'. destruct Hc' as (Hc' & _).
    apply div_finite_inv in Hc'. destruct Hc' as (Hu & Hsn & Hsz).
    pose proof (round2_finite_inv _ Ha) as Ha'.
    apply div_finite_inv in Ha'. destruct Ha' as (Hv & _ & Huz).
    auto 10.
Qed.

Lemma rows_without_units_are_dropped_witness :
  exists out,
    load_and_clean_data Examples.traffic_rows = Ok out /\
    length out = 1%nat /\
    Forall (fun r => F64.eqb (units (base r)) F64.zero = false /\
                     F64.eqb (sessions (base r)) F64.zero = false) out.
Proof.
  destruct (load_and_clean_data Examples.traffic_rows) as [out|e] eqn:E.
  - exists out. split; [reflexivity|].
    destruct (rows_without_units_are_dropped Examples.traffic_rows out E) as (_ & H).
    split.
    + vm_compute in E. injection E as <-. reflexivity.
    + revert H. apply List.Forall_impl. intros r Hr. split; apply Hr.
  - vm_compute in E. discriminate E.
Defined.

End TrafficProps.

(** ** Amounts with a pound sign in [weekly-sales-comparison.py] *)

Module PoundFacts.

Import Py PyNum ParserFacts CoerceFacts ReplaceFacts.

Local Open Scope Z_scope.

(** The conversion to ASCII cuts a text at its pound sign, if not
    before, and puts a question mark there. *)
Lemma transform_pound s : In 163%N s -> In 63%N (transform_decimal_and_space s).
Proof.
  induction s as [|c s IH]; intros Hin; [destruct Hin|].
  cbn [transform_decimal_and_space].
  destruct (N.eq_dec c 163%N) as [-> | Hc].
  - left. reflexivity.
  - destruct Hin as [-> | Hin]; [congruence|].
    destruct (c <? 127)%N; [right; apply IH, Hin|].
    destruct (Str.isspace c); [right; apply IH, Hin|].
    destruct (Str.todecimal c); [right; apply IH, Hin | left; reflexivity].
Qed.

Lemma to_ascii_pound s : In 163%N s -> In 63%N (to_ascii s).
Proof.
  intros Hin. unfold to_ascii.
  destruct (List.forallb (fun c => (c <? 128)%N) s) eqn:E.
  - rewrite forallb_forall in E. specialize (E _ Hin). discriminate.
  - apply transform_pound, Hin.
Qed.

Lemma drop_underscores_keeps c : c <> 95%N ->
  forall s prev a, drop_underscores prev s = Some a -> In c s -> In c a.
Proof.
  intros Hc s. induction s as [|b s IH]; intros prev a H Hin; [destruct Hin|].
  cbn [drop_underscores] in H.
  destruct (N.eqb_spec b 95%N) as [-> | Hb].
  - destruct Hin as [<- | Hin]; [congruence|].
    destruct (Str.isdigit_ascii prev); [|discriminate]. apply (IH _ _ H Hin).
  - destruct ((prev =? 95)%N && negb (Str.isdigit_ascii b)); [discriminate|].
    destruct (drop_underscores b s) as [a'|] eqn:E; [|discriminate].
    injection H as <-. destruct Hin as [-> | Hin]; [left; reflexivity|].
    right. apply (IH _ _ E Hin).
Qed.

Lemma span_digits_keeps c : Str.isdigit_ascii c = false ->
  forall s acc n, In c s -> In c (snd (span_digits s acc n)).
Proof.
  intros Hc s. induction s as [|a s IH]; intros acc n Hin; [destruct Hin|].
  simpl. destruct (Str.isdigit_ascii a) eqn:Ha; [|exact Hin].
  destruct Hin as [-> | Hin]; [congruence | apply IH, Hin].
Qed.

(** A character that is no part of a decimal number makes [scan_decimal]
    fail wherever it stands. *)
Lemma scan_decimal_rejects c s :
  Str.isdigit_ascii c = false -> c <> 43%N -> c <> 45%N -> c <> 46%N -> is_e c = false ->
  In c s -> scan_decimal s = None.
Proof.
  intros Hd Hp Hm Hpt He Hin. unfold scan_decimal.
  pose proof (take_sign_keeps c _ Hp Hm Hin) as H1.
  destruct (take_sign s) as [neg s1]. cbn [snd] in H1.
  pose proof (span_digits_keeps c Hd s1 0 0%nat H1) as H2.
  destruct (span_digits s1 0 0) as [[ip ni] s2]. cbn [snd] in H2.
  assert (H3 : forall m nf t,
             (match s2 with
              | 46%N :: t0 => span_digits t0 ip 0
              | _ => (ip, O, s2)
              end) = (m, nf, t) -> In c t).
  { intros m nf t E.
    destruct s2 as [|a s2]; [destruct H2|].
    destruct (N.eq_dec a 46%N) as [-> | Ha].
    - destruct H2 as [H2 | H2]; [congruence|].
      pose proof (span_digits_keeps c Hd s2 ip 0%nat H2) as H.
      rewrite E in H. exact H.
    - assert (E' : (ip, O, a :: s2) = (m, nf, t)).
      { rewrite <- E. destruct a as [|p]; [reflexivity|].
        do 6 (destruct p as [p|p|]; try reflexivity). congruence. }
      injection E' as _ _ <-. exact H2. }
  destruct (match s2 with
            | 46%N :: t0 => _
            | _ => _
            end) as [[m nf] s3].
  specialize (H3 _ _ _ eq_refl).
  destruct (ni + nf)%nat; [reflexivity|].
  destruct s3 as [|a s3]; [destruct H3|].
  destruct (is_e a) eqn:Ea; [|reflexivity].
  destruct H3 as [H3 | H3]; [congruence|].
  pose proof (take_sign_keeps c _ Hp Hm H3) as H4.
  destruct (take_sign s3) as [eneg t1]. cbn [snd] in H4.
  pose proof (span_digits_keeps c Hd t1 0 0%nat H4) as H5.
  destruct (span_digits t1 0 0) as [[ev ne] t2]. cbn [snd] in H5.
  destruct ne; [reflexivity|]. destruct t2; [destruct H5 | reflexivity].
Qed.

Lemma scan_inf_nan_question_mark s : In 63%N s -> scan_inf_nan s = None.
Proof.
  intros Hin. unfold scan_inf_nan.
  pose proof (take_sign_keeps 63%N s ltac:(discriminate) ltac:(discriminate) Hin) as H.
  destruct (take_sign s) as [neg t]. cbn [snd] in H.
  assert (Hw : In 63%N (List.map Str.lower_ascii t)).
  { apply in_map_iff. exists 63%N. split; [reflexivity | exact H]. }
  assert (E : forall lit, ~ In 63%N lit -> Str.eqb (List.map Str.lower_ascii t) lit = false).
  { intros lit Hn. apply not_true_is_false. intros Heq. apply str_eqb_eq in Heq.
    rewrite Heq in Hw. contradiction. }
  rewrite !E; [reflexivity | | |]; vm_compute; intuition discriminate.
Qed.

(** [float] rejects every text with a pound sign. *)
Lemma float_of_str_pound s : In 163%N s -> float_of_str s = Raise ValueError.
Proof.
  intros Hin. unfold float_of_str.
  destruct (drop_underscores 0%N (to_ascii s)) as [a|] eqn:E; [|reflexivity].
  assert (Ha : In 63%N (strip_ascii a)).
  { apply strip_ascii_keeps; [reflexivity|].
    apply (drop_underscores_keeps 63%N ltac:(discriminate) _ _ _ E).
    apply to_ascii_pound, Hin. }
  rewrite (scan_decimal_rejects 63%N); try reflexivity; try discriminate; [|exact Ha].
  rewrite (scan_inf_nan_question_mark _ Ha). reflexivity.
Qed.

(** [replace] keeps the characters that [old] does not have. *)
Lemma replace_keeps c old new s :
  old <> [] -> ~ In c old -> In c s -> In c (Str.replace old new s).
Proof.
  intros Hold Hc. apply (replace_ind old new (fun s out => In c s -> In c out)).
  - exact Hold.
  - auto.
  - intros rest out H Hin. apply in_app_or in Hin. destruct Hin as [Hin | Hin]; [contradiction|].
    apply in_or_app. right. apply H, Hin.
  - intros a t out _ H [-> | Hin]; [left; reflexivity | right; apply H, Hin].
Qed.

(** An amount with a pound sign, and without the character [U+00C2] that
    the script looks for in front of it, reads as zero. *)
Lemma weekly_parse_currency_pound s :
  In 163%N s -> ~ In 194%N s -> WeeklySales.parse_currency (Some s) = Ok F64.zero.
Proof.
  intros Hp Hn. unfold WeeklySales.parse_currency.
  destruct s as [|c s]; [destruct Hp|]. cbn [Str.eqb].
  assert (E : Str.replace WeeklySales.currency_symbol [] (c :: s) = c :: s)
    by (apply (replace_without 194%N [163%N]), Hn).
  rewrite E, float_of_str_pound; [reflexivity|].
  apply strip_keeps; [reflexivity|].
  apply (replace_keeps 163%N [44%N]); [discriminate | cbn; intuition discriminate | exact Hp].
Qed.

End PoundFacts.

Module PoundProps.

Import Py WeeklySales ReplaceFacts PoundFacts.

(** X19.  [parse_currency] of the weekly comparison does not read an
    amount that is written with the pound sign: it gives [0.0] for every
    cell that has a [£] and not the character [U+00C2] of the
    two-character symbol that the script removes, whatever the amount
    is.  The pound sign stays in the text, and [float] rejects every text
    that has one. *)
Theorem pound_amounts_read_as_zero cell :
  In 163%N cell -> ~ In 194%N cell ->
  Str.replace currency_symbol [] cell = cell /\
  (forall s, In 163%N s -> PyNum.float_of_str s = Raise ValueError) /\
  parse_currency (Some cell) = Ok F64.zero.
Proof.
  intros Hp Hn. split; [|split].
  - apply (replace_without 194%N [163%N]), Hn.
  - apply float_of_str_pound.
  - apply weekly_parse_currency_pound; assumption.
Qed.

Lemma pound_amounts_read_as_zero_witness :
  parse_currency (Some (Str.u "£10.00")) = Ok F64.zero /\
  parse_currency (Some (Str.u "£1,234.56")) = Ok F64.zero.
Proof.
  assert (I1 : In 163%N (Str.u "£10.00")) by (vm_compute; auto).
  assert (N1 : ~ In 194%N (Str.u "£10.00")) by (vm_compute; intuition discriminate).
  assert (I2 : In 163%N (Str.u "£1,234.56")) by (vm_compute; auto).
  assert (N2 : ~ In 194%N (Str.u "£1,234.56")) by (vm_compute; intuition discriminate).
  destruct (pound_amounts_read_as_zero _ I1 N1) as (_ & _ & H1).
  destruct (pound_amounts_read_as_zero _ I2 N2) as (_ & _ & H2).
  split; [exact H1 | exact H2].
Defined.

End PoundProps.

(** ** The added definitions on sample values

    The values on the right are those of CPython 3.11 ([round] for
    [rint], and the expressions of [compare_weeks] evaluated on the two
    amounts). *)

Module ReportChecks.

Import WeeklySales.

Local Open Scope Z_scope.

Definition week (sales : F64.float) : option week_data :=
  Some {| Title := None; SKU := None; Ordered_Product_Sales := sales |}.

Example rint_half_to_even :
  F64.rint F64.f0_5 = S754_zero false /\
  F64.rint (S754_finite false 6755399441055744 (-52)) = S754_finite false 4503599627370496 (-51) /\
  F64.rint (S754_finite false 5629499534213120 (-51)) = S754_finite false 4503599627370496 (-51) /\
  F64.rint (S754_finite true 5404319552844595 (-54)) = S754_zero true.
Proof. vm_compute. auto. Qed.

(** [2.675] gives [2.68]: the product by a hundred rounds to [267.5], and
    the tie goes to the even [268]. *)
Example round2_tie :
  EnhancedTraffic.round2 (S754_finite false 6023564501608038 (-51))
  = S754_finite false 6034823500676465 (-51).
Proof. vm_compute. reflexivity. Qed.

Example str_of_int_samples :
  PyNum.str_of_int 0 = Str.u "0" /\
  PyNum.str_of_int 1234567 = Str.u "1234567" /\
  PyNum.str_of_int (-42) = Str.u "-42".
Proof. vm_compute. auto. Qed.

Example compare_major_increase :
  let c := compare_product (week F64.f100) (week (F64.of_Z 160)) in
  Sales_Change_Percent c = F64.of_Z 60 /\ Status c = MAJOR_INCREASE.
Proof. vm_compute. auto. Qed.

Example compare_increase :
  let c := compare_product (week F64.f100) (week (F64.of_Z 121)) in
  Sales_Change_Percent c = F64.of_Z 21 /\ Status c = INCREASE.
Proof. vm_compute. auto. Qed.

Example compare_decrease :
  let c := compare_product (week F64.f100) (week (F64.of_Z 79)) in
  Sales_Change_Percent c = F64.of_Z (-21) /\ Status c = DECREASE.
Proof. vm_compute. auto. Qed.

Example compare_major_decrease :
  let c := compare_product (week F64.f100) (week (F64.of_Z 40)) in
  Sales_Change_Percent c = F64.of_Z (-60) /\ Status c = MAJOR_DECREASE.
Proof. vm_compute. auto. Qed.

(** [(0.3 - 0.1) / 0.1 * 100] is [199.99999999999997]. *)
Example compare_rounding :
  let c := compare_product (week (S754_finite false 7205759403792794 (-56)))
                           (week (S754_finite false 5404319552844595 (-54))) in
  Sales_Change_Percent c = S754_finite false 7036874417766399 (-45) /\
  Status c = MAJOR_INCREASE.
Proof. vm_compute. auto. Qed.

Example compare_not_a_number :
  Status (compare_product (week F64.f100) (week F64.nan)) = STABLE /\
  Status (compare_product (week F64.nan) (week F64.f100)) = MAJOR_INCREASE.
Proof. vm_compute. auto. Qed.

Example title_short_sample :
  BestSellers.title_short
    {| BestSellers.parent_asin := []; BestSellers.child_asin := []; BestSellers.sku := [];
       BestSellers.title := Str.u "Stainless Steel Water Bottle 750ml Blue";
       BestSellers.units_ordered := 0; BestSellers.sales_value := F64.zero;
       BestSellers.sessions := 0; BestSellers.conversion_rate := BestSellers.Int 0 |}
  = Str.u "Stainless Steel Water Bottl...".
Proof. vm_compute. reflexivity. Qed.

Example save_results_sample :
  NewReport.save_results (Str.u "BusinessReport-23-07-2025 (1).csv")
  = (Str.u "BusinessReport-23-07-2025_1_cleaned.csv",
     Str.u "BusinessReport-23-07-2025_1_summary.md").
Proof. vm_compute. reflexivity. Qed.

End ReportChecks.

(** ** Amounts: [float] on a decimal numeral *)

Module AmountFacts.

Import Py PyNum ParserFacts BestSellerFacts NumeralFacts ReplaceFacts.

Local Open Scope Z_scope.

(** The value of a numeral that goes on a value [acc] read before. *)
Lemma of_uint_acc_value d p :
  Zpos (Pos.of_uint_acc d p) =
  Zpos p * 10 ^ Z.of_nat (length (digits_of_uint d)) + Z.of_N (Pos.of_uint d).
Proof.
  pose proof (DecimalPos.Unsigned.of_uint_acc_rev d p) as H.
  rewrite <- DecimalPos.Unsigned.of_uint_alt in H.
  assert (Hs : DecimalPos.Unsigned.usize d = N.of_nat (length (digits_of_uint d))).
  { clear. induction d; cbn [DecimalPos.Unsigned.usize digits_of_uint length];
      rewrite ?IHd, ?Nat2N.inj_succ; reflexivity. }
  rewrite Hs in H. apply (f_equal Z.of_N) in H.
  rewrite N2Z.inj_add, N2Z.inj_mul, N2Z.inj_pow, nat_N_Z in H.
  cbn [Z.of_N] in H. lia.
Qed.

Lemma span_digit c t acc n :
  Str.isdigit_ascii c = true ->
  span_digits (c :: t) acc n = span_digits t (10 * acc + (Z.of_N c - 48)) (S n).
Proof. intros H. cbn [span_digits]. rewrite H. reflexivity. Qed.

Ltac span_step IH :=
  cbn [digits_of_uint Pos.of_uint_acc Pos.of_uint length app];
  rewrite span_digit by reflexivity;
  match goal with
  | |- span_digits _ ?a _ = span_digits _ (Zpos (Pos.of_uint_acc _ ?q)) _ =>
      replace a with (Zpos q) by (simpl (Z.of_N _); lia)
  | |- span_digits _ ?a _ = span_digits _ (Z.of_N (N.pos (Pos.of_uint_acc _ ?q))) _ =>
      replace a with (Zpos q) by (simpl (Z.of_N _); lia)
  | _ => idtac
  end;
  rewrite IH; f_equal; lia.

(** The digits of a numeral, read after a positive value. *)
Lemma span_digits_acc d : forall p n rest,
  span_digits (digits_of_uint d ++ rest) (Zpos p) n =
  span_digits rest (Zpos (Pos.of_uint_acc d p)) (n + length (digits_of_uint d))%nat.
Proof.
  induction d as [|d IH|d IH|d IH|d IH|d IH|d IH|d IH|d IH|d IH|d IH]; intros p n rest;
    [cbn; rewrite Nat.add_0_r; reflexivity | span_step IH ..].
Qed.

(** The digits of a numeral, read from the start. *)
Lemma span_digits_uint d : forall n rest,
  span_digits (digits_of_uint d ++ rest) 0 n =
  span_digits rest (Z.of_N (Pos.of_uint d)) (n + length (digits_of_uint d))%nat.
Proof.
  induction d as [|d IH|d IH|d IH|d IH|d IH|d IH|d IH|d IH|d IH|d IH]; intros n rest;
    [cbn; rewrite Nat.add_0_r; reflexivity
    | cbn [digits_of_uint Pos.of_uint length app]; rewrite span_digit by reflexivity;
      change (10 * 0 + (Z.of_N 48 - 48)) with 0; rewrite IH; f_equal; lia
    | span_step span_digits_acc ..].
Qed.

(** The digits of a numeral, read after any value that is not below
    zero. *)
Lemma span_digits_value d acc n rest :
  0 <= acc ->
  span_digits (digits_of_uint d ++ rest) acc n =
  span_digits rest (acc * 10 ^ Z.of_nat (length (digits_of_uint d)) + Z.of_N (Pos.of_uint d))
    (n + length (digits_of_uint d))%nat.
Proof.
  intros Hacc. destruct acc as [|p|p]; [| |lia].
  - rewrite span_digits_uint. reflexivity.
  - rewrite span_digits_acc, of_uint_acc_value. reflexivity.
Qed.

Lemma digit_not_space c : Str.isdigit_ascii c = true -> Str.isspace c = false.
Proof.
  intros H.
  destruct (digit_cases c H) as [-> | [-> | [-> | [-> | [-> | [-> | [-> | [-> | [-> | ->]]]]]]]]];
    reflexivity.
Qed.

Lemma digit_ascii c : Str.isdigit_ascii c = true -> (c <? 128)%N = true.
Proof.
  intros H.
  destruct (digit_cases c H) as [-> | [-> | [-> | [-> | [-> | [-> | [-> | [-> | [-> | ->]]]]]]]]];
    reflexivity.
Qed.

Lemma digit_not_space_ascii c : Str.isdigit_ascii c = true -> Str.isspace_ascii c = false.
Proof.
  intros H.
  destruct (digit_cases c H) as [-> | [-> | [-> | [-> | [-> | [-> | [-> | [-> | [-> | ->]]]]]]]]];
    reflexivity.
Qed.

Lemma digit_not_underscore c : Str.isdigit_ascii c = true -> (c =? 95)%N = false.
Proof.
  intros H.
  destruct (digit_cases c H) as [-> | [-> | [-> | [-> | [-> | [-> | [-> | [-> | [-> | ->]]]]]]]]];
    reflexivity.
Qed.

(** A text of digits and points has no underscore to drop. *)
Lemma drop_underscores_plain s : forall prev,
  (prev =? 95)%N = false ->
  (forall c, In c s -> (c =? 95)%N = false) ->
  drop_underscores prev s = Some s.
Proof.
  induction s as [|c s IH]; intros prev Hp H; cbn [drop_underscores].
  - rewrite Hp. reflexivity.
  - rewrite (H c (or_introl eq_refl)), Hp. cbn [andb].
    rewrite IH; [reflexivity | apply H; left; reflexivity |].
    intros x Hx. apply H. right. exact Hx.
Qed.

(** [float] on the numeral [whole] [.] [fraction]: the decimal fraction,
    correctly rounded. *)
Lemma float_of_numeral whole fraction (point : bool) :
  whole <> Decimal.Nil ->
  (point = false -> fraction = Decimal.Nil) ->
  float_of_str (digits_of_uint whole ++ (if point then [46%N] else [])
                ++ digits_of_uint fraction) =
  Ok (F64.of_decimal false
        (Z.of_N (Pos.of_uint whole) * 10 ^ Z.of_nat (length (digits_of_uint fraction))
         + Z.of_N (Pos.of_uint fraction))
        (- Z.of_nat (length (digits_of_uint fraction)))).
Proof.
  intros Hw Hp.
  set (s := digits_of_uint whole ++ (if point then [46%N] else []) ++ digits_of_uint fraction).
  assert (Hchars : forall c, In c s -> c = 46%N \/ Str.isdigit_ascii c = true).
  { intros c Hc. unfold s in Hc. apply in_app_or in Hc. destruct Hc as [Hc | Hc].
    - right. apply (digits_of_uint_digits whole c Hc).
    - apply in_app_or in Hc. destruct Hc as [Hc | Hc].
      + destruct point; [destruct Hc as [<- | []]; left; reflexivity | destruct Hc].
      + right. apply (digits_of_uint_digits fraction c Hc). }
  unfold float_of_str.
  rewrite to_ascii_ascii.
  2:{ apply forallb_forall. intros c Hc.
      destruct (Hchars c Hc) as [-> | H]; [reflexivity | apply digit_ascii, H]. }
  rewrite drop_underscores_plain; [| reflexivity |].
  2:{ intros c Hc.
      destruct (Hchars c Hc) as [-> | H]; [reflexivity | apply digit_not_underscore, H]. }
  rewrite strip_ascii_without_blank.
  2:{ intros c Hc.
      destruct (Hchars c Hc) as [-> | H]; [reflexivity | apply digit_not_space_ascii, H]. }
  unfold scan_decimal.
  assert (Ht : take_sign s = (false, s)).
  { unfold s. destruct (digits_of_uint whole) as [|c t] eqn:E;
      [exfalso; apply (digits_of_uint_nonnil whole Hw E)|].
    assert (Hc : Str.isdigit_ascii c = true)
      by (apply (digits_of_uint_digits whole); rewrite E; left; reflexivity).
    cbn [app].
    destruct (digit_cases c Hc) as [-> | [-> | [-> | [-> | [-> | [-> | [-> | [-> | [-> | ->]]]]]]]]];
      reflexivity. }
  rewrite Ht. unfold s.
  rewrite span_digits_uint. cbn [Nat.add].
  assert (Hlen : (0 < length (digits_of_uint whole))%nat).
  { destruct (digits_of_uint whole) eqn:E;
      [exfalso; apply (digits_of_uint_nonnil whole Hw E) | simpl; lia]. }
  destruct point.
  - cbn [app span_digits Str.isdigit_ascii N.leb N.compare Pos.compare Pos.compare_cont andb].
    rewrite <- (app_nil_r (digits_of_uint fraction)) at 1.
    rewrite span_digits_value by lia. cbn [span_digits Nat.add].
    destruct (length (digits_of_uint whole) + length (digits_of_uint fraction))%nat eqn:E; [lia|].
    reflexivity.
  - rewrite (Hp eq_refl). cbn [digits_of_uint app span_digits length Nat.add].
    destruct (length (digits_of_uint whole) + 0)%nat eqn:E; [lia|].
    cbn [Pos.of_uint Z.of_N Z.of_nat Z.pow Z.opp]. rewrite Z.mul_1_r, Z.add_0_r. reflexivity.
Qed.

(** Deleting one character is filtering it out. *)
Lemma replace_char_filter c s :
  Str.replace [c] [] s = List.filter (fun x => negb (x =? c)%N) s.
Proof.
  apply (replace_ind [c] [] (fun s out => out = List.filter (fun x => negb (x =? c)%N) s)).
  - discriminate.
  - reflexivity.
  - intros rest out ->. cbn. rewrite N.eqb_refl. reflexivity.
  - intros a t out E ->. cbn in E |- *. rewrite andb_true_r in E.
    rewrite N.eqb_sym, E. reflexivity.
Qed.

End AmountFacts.

Module AmountProps.

Import Py PyNum ParserFacts BestSellerFacts NumeralFacts ReplaceFacts AmountFacts.

Local Open Scope Z_scope.

(** X21.  The two currency parsers read a plain amount as the nearest
    double.  When the text without its pound signs and commas
    ([analyze-best-sellers.py]), or without its commas and with no other
    character than digits, commas and a point
    ([weekly-sales-comparison.py]), is the numeral [whole.fraction], the
    result is the decimal fraction [(whole * 10^k + fraction) / 10^k],
    [k] the number of digits of the fraction, correctly rounded; without
    point and fraction it is the integer [whole], correctly rounded. *)
Theorem currency_amounts_are_read s whole fraction (point : bool) :
  whole <> Decimal.Nil ->
  (point = false -> fraction = Decimal.Nil) ->
  let numeral :=
    digits_of_uint whole ++ (if point then [46%N] else []) ++ digits_of_uint fraction in
  let amount :=
    F64.of_decimal false
      (Z.of_N (Pos.of_uint whole) * 10 ^ Z.of_nat (length (digits_of_uint fraction))
       + Z.of_N (Pos.of_uint fraction))
      (- Z.of_nat (length (digits_of_uint fraction))) in
  (Str.re_sub_class [163%N; 44%N] s = numeral -> BestSellers.parse_currency s = Ok amount) /\
  (Str.re_sub_class [44%N] s = numeral -> WeeklySales.parse_currency (Some s) = Ok amount).
Proof.
  intros Hw Hp numeral amount.
  assert (Hnum : forall c, In c numeral -> c = 46%N \/ Str.isdigit_ascii c = true).
  { intros c Hc. unfold numeral in Hc. apply in_app_or in Hc. destruct Hc as [Hc | Hc].
    - right. apply (digits_of_uint_digits whole c Hc).
    - apply in_app_or in Hc. destruct Hc as [Hc | Hc].
      + destruct point; [destruct Hc as [<- | []]; left; reflexivity | destruct Hc].
      + right. apply (digits_of_uint_digits fraction c Hc). }
  assert (Hne : numeral <> []).
  { unfold numeral. intros E. apply app_eq_nil in E. destruct E as [E _].
    apply (digits_of_uint_nonnil whole Hw E). }
  assert (Hfloat : float_of_str numeral = Ok amount) by (apply float_of_numeral; assumption).
  split; intros Hs.
  - unfold BestSellers.parse_currency.
    assert (Hchars : forall c, In c s -> Str.isspace c = false).
    { intros c Hc.
      destruct (List.existsb (N.eqb c) [163%N; 44%N]) eqn:E.
      - cbn in E. rewrite orb_false_r in E. apply orb_true_iff in E.
        destruct E as [E | E]; apply N.eqb_eq in E; subst c; reflexivity.
      - assert (Hin : In c numeral).
        { rewrite <- Hs. apply filter_In. split; [exact Hc|]. rewrite E. reflexivity. }
        destruct (Hnum c Hin) as [-> | H]; [reflexivity | apply digit_not_space, H]. }
    rewrite (strip_without_blank s Hchars), Hs.
    destruct s as [|c t]; [exfalso; apply Hne; rewrite <- Hs; reflexivity|].
    cbn [Str.is_empty Str.eqb orb]. rewrite Hfloat. reflexivity.
  - unfold WeeklySales.parse_currency.
    assert (Hchars : forall c, In c s -> c = 44%N \/ c = 46%N \/ Str.isdigit_ascii c = true).
    { intros c Hc. destruct (N.eqb_spec c 44%N) as [-> | Hn]; [left; reflexivity|]. right.
      apply Hnum. rewrite <- Hs. apply filter_In. split; [exact Hc|].
      cbn. apply N.eqb_neq in Hn. rewrite Hn. reflexivity. }
    destruct s as [|c t] eqn:Es; [exfalso; apply Hne; rewrite <- Hs; reflexivity|].
    cbn [Str.eqb]. rewrite <- Es in *.
    assert (E1 : Str.replace WeeklySales.currency_symbol [] s = s).
    { apply (replace_without 194%N [163%N]). intros Hc.
      destruct (Hchars _ Hc) as [H | [H | H]]; discriminate H. }
    assert (E2 : Str.replace (Str.u ",") [] s = numeral).
    { rewrite <- Hs. change (Str.u ",") with [44%N]. rewrite replace_char_filter.
      apply filter_ext. intros x. cbn. rewrite orb_false_r. reflexivity. }
    rewrite E1, E2.
    rewrite (strip_without_blank numeral).
    + rewrite Hfloat. reflexivity.
    + intros x Hx. destruct (Hnum x Hx) as [-> | H]; [reflexivity | apply digit_not_space, H].
Qed.

Lemma currency_amounts_are_read_witness :
  BestSellers.parse_currency (Str.u "£1,234.56") = Ok F64.f1234_56 /\
  WeeklySales.parse_currency (Some (Str.u "1,234.56")) = Ok F64.f1234_56.
Proof.
  assert (Hw : Nat.to_uint 1234 <> Decimal.Nil) by discriminate.
  assert (Hp : true = false -> Nat.to_uint 56 = Decimal.Nil) by discriminate.
  destruct (currency_amounts_are_read (Str.u "£1,234.56") (Nat.to_uint 1234) (Nat.to_uint 56)
              true Hw Hp) as (H1 & _).
  destruct (currency_amounts_are_read (Str.u "1,234.56") (Nat.to_uint 1234) (Nat.to_uint 56)
              true Hw Hp) as (_ & H2).
  split; [apply H1 | apply H2]; vm_compute; reflexivity.
Defined.

(** X22.  The conversion rate of a product of [analyze-best-sellers.py]
    is never negative and never NaN when its units are not negative: it is
    the [int] [0] when there are no sessions above zero, and otherwise a
    float that is zero, positive or the positive infinity. *)
Theorem product_conversion_rate_is_not_negative units sessions rate :
  0 <= units ->
  BestSellers.conversion_rate_of units sessions = Ok rate ->
  (sessions <= 0 /\ rate = BestSellers.Int 0) \/
  (0 < sessions /\ exists f, rate = BestSellers.Float f /\ F64.signed false f).
Proof.
  intros Hu. unfold BestSellers.conversion_rate_of.
  destruct (Z.ltb_spec 0 sessions) as [Hs | Hs].
  - destruct (int_truediv units sessions) as [q|e] eqn:E; cbn [bind]; [|discriminate].
    intros [= <-]. right. split; [exact Hs|]. eexists. split; [reflexivity|].
    apply MetricFacts.mul_f100_signed.
    unfold int_truediv in E.
    destruct sessions as [|b|b]; try lia.
    destruct units as [|a|a]; try lia.
    + injection E as <-. constructor.
    + cbn [Z.ltb Z.compare Z.abs Z.to_pos] in E.
      pose proof (FloatFacts.div_finite_signed false a 0 false b 0) as Hd.
      cbn [xorb] in Hd. unfold F64.div in Hd.
      destruct (F64.is_inf _); [discriminate|]. injection E as <-. exact Hd.
  - intros [= <-]. left. split; [exact Hs | reflexivity].
Qed.

Lemma product_conversion_rate_is_not_negative_witness :
  exists f, BestSellers.Float F64.f5 = BestSellers.Float f /\ F64.signed false f.
Proof.
  destruct (product_conversion_rate_is_not_negative 5 100 (BestSellers.Float F64.f5))
    as [(H & _) | (_ & H)].
  - lia.
  - vm_compute. reflexivity.
  - lia.
  - exact H.
Defined.

End AmountProps.
